(** * Order store of the landing-page server (server/server.js)

    A shallow embedding of the order server: the JSON document store
    ([ensureOrdersFile], [readOrders], [writeOrders]), the identifier
    generator ([makeOrderId]), the authorization gate ([isAuthorized]) and
    the five order handlers, followed by the properties of the order service.
    The store and the create handler are also given call by call ([Steps]),
    for the properties that depend on how simultaneous requests interleave.

    Conventions of the embedding.
    - A JavaScript value is a [value]: the JSON data model plus [undefined];
      an array carries its own named properties next to its elements, since
      [readOrders] may attach an [orders] property to a parsed array.
    - A JavaScript number is an IEEE 754 binary64 [float].
    - A JavaScript string is a [string] read as a sequence of code units
      below 256 (Latin-1); [trim] and [toLowerCase] are the ECMAScript
      operations on that range.
    - An object is the list of its own properties in enumeration order.  The
      property names the server uses are never inherited ones and never array
      indices, so lookup is the first binding of the key and assignment
      replaces it in place or appends it.
    - The builtin conversions between numbers and strings are taken as the
      parameters [NumberToString] and [StringToNumber].
    - The text stored in a file is either unparsable or denotes the value
      that [JSON.parse] reads from it; [JSON_stringify] gives the value that
      the written text denotes. *)

From Stdlib Require Import List String Ascii Bool Arith ZArith QArith Qround Lia Floats.
From Stdlib Require Import Permutation.
Import ListNotations.
Local Close Scope Q_scope.
Local Open Scope nat_scope.
Local Open Scope list_scope.
Local Open Scope string_scope.

(** ** JavaScript values *)

#[warnings="-register-all"] Inductive value : Type :=
| VUndef
| VNull
| VBool (b : bool)
| VNum (n : float)
| VStr (s : string)
| VArr (elems : list value) (props : list (string * value))
| VObj (props : list (string * value)).

(** Exceptions: only the kind matters to the handlers, which answer 500. *)
Inductive exn : Type :=
| TypeError (msg : string)
| SyntaxError (msg : string)
| SystemError (msg : string).

Definition message (e : exn) : string :=
  match e with TypeError m | SyntaxError m | SystemError m => m end.

Inductive result (A : Type) : Type :=
| Ok (a : A)
| Throw (e : exn).
Arguments Ok {A} a.
Arguments Throw {A} e.

Definition rbind {A B} (r : result A) (k : A -> result B) : result B :=
  match r with Ok a => k a | Throw e => Throw e end.

Declare Scope js_scope.
Delimit Scope js_scope with js.
Notation "x <- r ;; k" := (rbind r (fun x => k))
  (at level 61, r at next level, right associativity) : js_scope.
Local Open Scope js_scope.

(** ** Strings *)

(** White space and line terminators of ECMAScript below code unit 256. *)
Definition is_ws (c : ascii) : bool :=
  let n := nat_of_ascii c in
  (((9 <=? n) && (n <=? 13)) || (n =? 32) || (n =? 160))%nat.

Fixpoint trimStart (s : string) : string :=
  match s with
  | EmptyString => EmptyString
  | String c s' => if is_ws c then trimStart s' else s
  end.

Fixpoint trimEnd (s : string) : string :=
  match s with
  | EmptyString => EmptyString
  | String c s' =>
      match trimEnd s' with
      | EmptyString => if is_ws c then EmptyString else String c EmptyString
      | t => String c t
      end
  end.

Definition trim (s : string) : string := trimEnd (trimStart s).

Definition lower_char (c : ascii) : ascii :=
  let n := nat_of_ascii c in
  if (((65 <=? n) && (n <=? 90))
      || ((192 <=? n) && (n <=? 222) && negb (n =? 215)))%nat
  then ascii_of_nat (n + 32) else c.

Fixpoint toLowerCase (s : string) : string :=
  match s with
  | EmptyString => EmptyString
  | String c s' => String (lower_char c) (toLowerCase s')
  end.

(** ** Properties *)

Fixpoint assoc (ps : list (string * value)) (k : string) : option value :=
  match ps with
  | [] => None
  | (k', v) :: ps' => if String.eqb k' k then Some v else assoc ps' k
  end.

Fixpoint assoc_set (ps : list (string * value)) (k : string) (v : value)
  : list (string * value) :=
  match ps with
  | [] => [(k, v)]
  | (k', v') :: ps' =>
      if String.eqb k' k then (k', v) :: ps' else (k', v') :: assoc_set ps' k v
  end.

Definition has_own (ps : list (string * value)) (k : string) : bool :=
  match assoc ps k with Some _ => true | None => false end.

(** [own v k]: the own property [k] of [v], [undefined] when there is none. *)
Definition own (v : value) (k : string) : value :=
  match v with
  | VObj ps | VArr _ ps =>
      match assoc ps k with Some x => x | None => VUndef end
  | _ => VUndef
  end.

(** [v.k] for a property name [k] that no prototype defines. *)
Definition get (v : value) (k : string) : result value :=
  match v with
  | VUndef =>
      Throw (TypeError ("Cannot read properties of undefined (reading '" ++ k ++ "')"))
  | VNull =>
      Throw (TypeError ("Cannot read properties of null (reading '" ++ k ++ "')"))
  | _ => Ok (own v k)
  end.

(** [v.k = x] on an object or an array. *)
Definition set_prop (v : value) (k : string) (x : value) : value :=
  match v with
  | VObj ps => VObj (assoc_set ps k x)
  | VArr es ps => VArr es (assoc_set ps k x)
  | _ => v
  end.

(** ** Conversions *)

Definition truthy (v : value) : bool :=
  match v with
  | VUndef | VNull => false
  | VBool b => b
  | VNum n => negb (PrimFloat.eqb n 0 || PrimFloat.is_nan n)
  | VStr s => negb (String.eqb s "")
  | VArr _ _ | VObj _ => true
  end.

(** [a || b] *)
Definition or_else (a b : value) : value := if truthy a then a else b.

Definition isArray (v : value) : bool :=
  match v with VArr _ _ => true | _ => false end.

(** [typeof v === "object"] *)
Definition typeof_object (v : value) : bool :=
  match v with VNull | VArr _ _ | VObj _ => true | _ => false end.

Definition not_primitive : exn := TypeError "Cannot convert object to primitive value".

Section Conversions.

Variable NumberToString : float -> string.
Variable StringToNumber : string -> float.

(** [String(v)].  An object whose own [toString] is data has no callable
    conversion left; an array converts through [join]. *)
Fixpoint ToString (v : value) : result string :=
  match v with
  | VUndef => Ok "undefined"
  | VNull => Ok "null"
  | VBool true => Ok "true"
  | VBool false => Ok "false"
  | VNum n => Ok (NumberToString n)
  | VStr s => Ok s
  | VArr es ps =>
      if has_own ps "toString" then Throw not_primitive
      else if has_own ps "join" then Ok "[object Array]"
      else
        (fix join (l : list value) : result string :=
           match l with
           | [] => Ok ""
           | e :: l' =>
               s <- match e with
                    | VUndef | VNull => Ok ""
                    | _ => ToString e
                    end ;;
               match l' with
               | [] => Ok s
               | _ => r <- join l' ;; Ok (s ++ "," ++ r)
               end
           end) es
  | VObj ps =>
      if has_own ps "toString" then Throw not_primitive
      else Ok "[object Object]"
  end.

(** [Number(v)] *)
Definition ToNumber (v : value) : result float :=
  match v with
  | VUndef => Ok PrimFloat.nan
  | VNull => Ok 0%float
  | VBool true => Ok 1%float
  | VBool false => Ok 0%float
  | VNum n => Ok n
  | VStr s => Ok (StringToNumber s)
  | VArr _ _ | VObj _ => s <- ToString v ;; Ok (StringToNumber s)
  end.

End Conversions.

(** ** JSON *)

(** The value denoted by the text [JSON.stringify(v)] writes; [None] when
    the result is [undefined].  Non-finite numbers become [null], the sign of
    zero is lost, [undefined] properties are omitted and [undefined] elements
    become [null]; of an array only the elements are written. *)
Fixpoint to_json (v : value) : option value :=
  match v with
  | VUndef => None
  | VNull => Some VNull
  | VBool b => Some (VBool b)
  | VNum n =>
      Some (if PrimFloat.is_finite n
            then VNum (if PrimFloat.eqb n 0 then 0%float else n)
            else VNull)
  | VStr s => Some (VStr s)
  | VArr es _ =>
      Some (VArr (map (fun e => match to_json e with
                                | Some j => j
                                | None => VNull
                                end) es) [])
  | VObj ps =>
      Some (VObj (flat_map (fun kx => match kx with
                                      | (k, x) =>
                                          match to_json x with
                                          | Some j => [(k, j)]
                                          | None => []
                                          end
                                      end) ps))
  end.

Definition json_elem (e : value) : value :=
  match to_json e with Some j => j | None => VNull end.

Definition json_props (ps : list (string * value)) : list (string * value) :=
  flat_map (fun kx => match to_json (snd kx) with
                      | Some j => [(fst kx, j)]
                      | None => []
                      end) ps.

(** The number is the zero with a minus sign. *)
Definition is_negative_zero (n : float) : bool :=
  match PrimFloat.classify n with
  | NZero => true
  | _ => false
  end.

(** A value that JSON text holds as it is: it is not [undefined] and holds
    none, its numbers are finite and not the negative zero, and its arrays
    have no named property. *)
Fixpoint representable (v : value) : bool :=
  match v with
  | VUndef => false
  | VNull | VBool _ | VStr _ => true
  | VNum n => PrimFloat.is_finite n && negb (is_negative_zero n)
  | VArr es ps =>
      forallb representable es && match ps with [] => true | _ => false end
  | VObj ps =>
      forallb (fun kx => match kx with (_, x) => representable x end) ps
  end.

(** What a file holds: text that [JSON.parse] rejects, or text denoting [v]. *)
Inductive content : Type :=
| Corrupt
| Doc (v : value).

Definition JSON_stringify (v : value) : option content :=
  option_map Doc (to_json v).

Definition JSON_parse (raw : content) : result value :=
  match raw with
  | Corrupt => Throw (SyntaxError "Unexpected token in JSON")
  | Doc v => Ok v
  end.

(** ** The two files of the store *)

Inductive path : Type := DATA_FILE | DATA_FILE_tmp.

Record filesys : Type := mkfs {
  data_file : option content;
  tmp_file : option content
}.

Definition file (p : path) (fs : filesys) : option content :=
  match p with DATA_FILE => data_file fs | DATA_FILE_tmp => tmp_file fs end.

Definition put_file (p : path) (c : option content) (fs : filesys) : filesys :=
  match p with
  | DATA_FILE => mkfs c (tmp_file fs)
  | DATA_FILE_tmp => mkfs (data_file fs) c
  end.

(** Computations on the file system that may throw. *)
Definition M (A : Type) : Type := filesys -> result A * filesys.

Definition ret {A} (a : A) : M A := fun fs => (Ok a, fs).

Definition throw {A} (e : exn) : M A := fun fs => (Throw e, fs).

Definition bind {A B} (m : M A) (k : A -> M B) : M B :=
  fun fs =>
    match m fs with
    | (Ok a, fs') => k a fs'
    | (Throw e, fs') => (Throw e, fs')
    end.

Definition lift {A} (r : result A) : M A := fun fs => (r, fs).

Declare Scope io_scope.
Delimit Scope io_scope with io.
Notation "x <- m ;; k" := (bind m (fun x => k))
  (at level 61, m at next level, right associativity) : io_scope.
Notation "m ;; k" := (bind m (fun _ => k))
  (at level 61, right associativity) : io_scope.

Definition existsSync (p : path) : M bool :=
  fun fs => (Ok (match file p fs with Some _ => true | None => false end), fs).

Definition readFileSync (p : path) : M content :=
  fun fs =>
    match file p fs with
    | Some c => (Ok c, fs)
    | None => (Throw (SystemError "ENOENT: no such file or directory"), fs)
    end.

(** [fs.writeFileSync(p, text)]; [text] is [None] for [undefined], which
    the call rejects. *)
Definition writeFileSync (p : path) (text : option content) : M unit :=
  fun fs =>
    match text with
    | Some c => (Ok tt, put_file p (Some c) fs)
    | None =>
        (Throw (TypeError "The data argument must be of type string"), fs)
    end.

Definition renameSync (src dst : path) : M unit :=
  fun fs =>
    match file src fs with
    | Some c => (Ok tt, put_file dst (Some c) (put_file src None fs))
    | None => (Throw (SystemError "ENOENT: no such file or directory"), fs)
    end.

(** ** The document store *)

Definition empty_db : value := VObj [("orders", VArr [] [])].

Definition ensureOrdersFile : M unit :=
  (e <- existsSync DATA_FILE ;;
   if negb e then writeFileSync DATA_FILE (JSON_stringify empty_db)
   else ret tt)%io.

Definition readOrders : M value :=
  (ensureOrdersFile ;;
   raw <- readFileSync DATA_FILE ;;
   match JSON_parse raw with
   | Ok parsed =>
       if negb (truthy parsed) || negb (typeof_object parsed) then ret empty_db
       else if negb (isArray (own parsed "orders"))
            then ret (set_prop parsed "orders" (VArr [] []))
            else ret parsed
   | Throw _ => ret empty_db
   end)%io.

Definition writeOrders (db : value) : M unit :=
  (writeFileSync DATA_FILE_tmp (JSON_stringify db) ;;
   renameSync DATA_FILE_tmp DATA_FILE)%io.

(** ** Identifier generator *)

Definition chars : string := "ABCDEFGHJKLMNPQRSTUVWXYZ23456789".

(** [s += chars[i]]: the code unit at [i], or the text of [undefined]. *)
Definition char_at (s : string) (i : Z) : string :=
  if (i <? 0)%Z then "undefined"
  else match String.get (Z.to_nat i) s with
       | Some c => String c EmptyString
       | None => "undefined"
       end.

(** [Math.floor(r * chars.length)] for a draw [r] of [Math.random()].  A
    draw is given by its real value; the product of a binary64 number below
    one by the length of [chars], a power of two, is exact. *)
Definition random_index (r : Q) : Z :=
  Qfloor (r * inject_Z (Z.of_nat (String.length chars))).

Fixpoint makeOrderId_loop (rnd : nat -> Q) (n i : nat) (s : string) : string :=
  match n with
  | O => s
  | S n' =>
      makeOrderId_loop rnd n' (S i) (s ++ char_at chars (random_index (rnd i)))
  end.

(** [rnd i] is the [i]-th draw made during the call. *)
Definition makeOrderId (rnd : nat -> Q) : string :=
  makeOrderId_loop rnd 10 0 "GG-".

(** ** Requests and responses *)

Record request : Type := mkreq {
  x_admin_token : option string;   (* req.headers["x-admin-token"] *)
  query_token : value;             (* req.query.token *)
  param_orderId : string;          (* req.params.orderId *)
  req_body : value                 (* req.body *)
}.

Record response : Type := mkres {
  status : nat;
  json : value
}.

Definition reply (fields : list (string * value)) : response :=
  mkres 200 (VObj (("ok", VBool true) :: fields)).

Definition refuse (code : nat) (msg : string) : response :=
  mkres code (VObj [("ok", VBool false); ("error", VStr msg)]).

Definition try_catch (m : M response) (handler : exn -> response)
  : filesys -> response * filesys :=
  fun fs =>
    match m fs with
    | (Ok r, fs') => (r, fs')
    | (Throw e, fs') => (handler e, fs')
    end.

Definition opt_str (o : option string) : value :=
  match o with Some s => VStr s | None => VUndef end.

Definition array_elems (what : string) (v : value) : result (list value) :=
  match v with
  | VArr es _ => Ok es
  | VUndef | VNull =>
      Throw (TypeError ("Cannot read properties of undefined (reading '" ++ what ++ "')"))
  | _ => Throw (TypeError (what ++ " is not a function"))
  end.

(** [o.orderId === id] *)
Definition same_id (x : value) (id : string) : bool :=
  match x with VStr s => String.eqb s id | _ => false end.

Fixpoint findIndex (f : value -> result bool) (l : list value) : result (option nat) :=
  match l with
  | [] => Ok None
  | o :: l' =>
      b <- f o ;;
      if b then Ok (Some 0)
      else (r <- findIndex f l' ;; Ok (option_map S r))
  end.

Fixpoint filterM (f : value -> result bool) (l : list value) : result (list value) :=
  match l with
  | [] => Ok []
  | o :: l' =>
      b <- f o ;;
      r <- filterM f l' ;;
      Ok (if b then o :: r else r)
  end.

Fixpoint mapM {A} (f : value -> result A) (l : list value) : result (list A) :=
  match l with
  | [] => Ok []
  | o :: l' => x <- f o ;; r <- mapM f l' ;; Ok (x :: r)
  end.

Fixpoint update_nth (i : nat) (f : value -> value) (l : list value) : list value :=
  match l, i with
  | [], _ => []
  | o :: l', O => f o :: l'
  | o :: l', S i' => o :: update_nth i' f l'
  end.

(** [new Set(ids).has(s)] *)
Definition Set_has (ids : list string) (s : string) : bool :=
  existsb (String.eqb s) ids.

Definition float_of_nat (n : nat) : float :=
  PrimFloat.of_uint63 (Uint63.of_Z (Z.of_nat n)).

Section Server.

Variable NumberToString : float -> string.
Variable StringToNumber : string -> float.
(** [process.env.ADMIN_TOKEN] *)
Variable ADMIN_TOKEN : option string.

Abbreviation String_ := (ToString NumberToString).
Abbreviation Number_ := (ToNumber NumberToString StringToNumber).

Definition isAuthorized (req : request) : result bool :=
  a <- String_ (or_else (opt_str ADMIN_TOKEN) (VStr "")) ;;
  let adminToken := trim a in
  t <- String_ (or_else (or_else (opt_str (x_admin_token req)) (query_token req))
                        (VStr "")) ;;
  let token := trim t in
  if String.eqb adminToken "" then Ok true
  else Ok (String.eqb token adminToken).

(** [String(body.k || "").trim()] *)
Definition text_field (body : value) (k : string) : result string :=
  v <- get body k ;;
  s <- String_ (or_else v (VStr "")) ;;
  Ok (trim s).

(** [body.k ? String(body.k) : ""] *)
Definition optional_field (body : value) (k : string) : result string :=
  v <- get body k ;;
  if truthy v then String_ v else Ok "".

(** [Number(body.k || d)] *)
Definition number_field (body : value) (k : string) (d : float) : result float :=
  v <- get body k ;;
  Number_ (or_else v (VNum d)).

(** [o => o.orderId === id] *)
Definition has_id (id : string) (o : value) : result bool :=
  x <- get o "orderId" ;;
  Ok (same_id x id).

(** [o => o.orderId !== id] *)
Definition lacks_id (id : string) (o : value) : result bool :=
  x <- get o "orderId" ;;
  Ok (negb (same_id x id)).

(** [o => !set.has(String(o.orderId))] *)
Definition not_listed (ids : list string) (o : value) : result bool :=
  x <- get o "orderId" ;;
  s <- String_ x ;;
  Ok (negb (Set_has ids s)).

(** [Array.isArray(body?.orderIds) ? body.orderIds.map(String) : []] *)
Definition requested_ids (body : value) : result (list string) :=
  let orderIds :=
    match body with
    | VUndef | VNull => VUndef
    | b => own b "orderIds"
    end in
  match orderIds with
  | VArr xs _ => mapM String_ xs
  | _ => Ok []
  end.

Definition server_error (e : exn) : response :=
  refuse 500 ("Server error: " ++ message e).

(** The fields the handler reads from the payload, in its order. *)
Record fields : Type := mkfields {
  productId : string;
  productName : string;
  productLink : string;
  name : string;
  phone : string;
  address : string;
  qty : float;
  unitPrice : float;
  areaRaw : string
}.

Definition read_fields (body : value) : result fields :=
  productId <- text_field body "productId" ;;
  productName <- text_field body "productName" ;;
  productLink <- optional_field body "productLink" ;;
  name <- text_field body "name" ;;
  phone <- text_field body "phone" ;;
  address <- text_field body "address" ;;
  qty <- number_field body "qty" 1 ;;
  unitPrice <- number_field body "unitPrice" 0 ;;
  a <- text_field body "area" ;;
  Ok (mkfields productId productName productLink name phone address
               qty unitPrice (toLowerCase a)).

(** [area]: the normalized area, empty when [areaRaw] is not a known one. *)
Definition area_of (areaRaw : string) : string :=
  if String.eqb areaRaw "dhaka" then "dhaka"
  else if String.eqb areaRaw "outside" || String.eqb areaRaw "outside dhaka"
       then "outside"
       else "".

(** The validation rules, in order; [Some r] is the refusal of the first
    rule that fails. *)
Definition check (f : fields) : option response :=
  if String.eqb (productId f) "" then Some (refuse 400 "Missing productId")
  else if String.eqb (productName f) "" then Some (refuse 400 "Missing productName")
  else if String.eqb (name f) "" then Some (refuse 400 "Missing customer name")
  else if String.eqb (phone f) "" then Some (refuse 400 "Missing phone")
  else if String.eqb (address f) "" then Some (refuse 400 "Missing address")
  else if negb (PrimFloat.is_finite (qty f)) || PrimFloat.ltb (qty f) 1
       then Some (refuse 400 "Invalid qty")
  else if negb (PrimFloat.is_finite (unitPrice f)) || PrimFloat.leb (unitPrice f) 0
       then Some (refuse 400 "Invalid unitPrice")
  else if String.eqb (area_of (areaRaw f)) ""
       then Some (refuse 400 "Invalid area. Use dhaka / outside")
  else None.

Definition shipping_of (area : string) : float :=
  if String.eqb area "dhaka" then 70%float else 130%float.

(** The order literal of the handler. *)
Definition make_order (f : fields) (orderId now size : string) : value :=
  let area := area_of (areaRaw f) in
  let ship := shipping_of area in
  let total := (qty f * unitPrice f + ship)%float in
  VObj [
    ("orderId", VStr orderId);
    ("createdAt", VStr now);
    ("status", VStr "new");
    ("productId", VStr (productId f));
    ("productName", VStr (productName f));
    ("productLink", VStr (productLink f));
    ("unitPrice", VNum (unitPrice f));
    ("qty", VNum (qty f));
    ("size", VStr size);
    ("area", VStr area);
    ("shipping", VNum ship);
    ("total", VNum total);
    ("customer", VObj [("name", VStr (name f)); ("phone", VStr (phone f));
                       ("address", VStr (address f))])
  ].

(** [db.orders.unshift(order)] *)
Definition unshift (db order : value) : result value :=
  orders <- get db "orders" ;;
  match orders with
  | VArr es ps => Ok (set_prop db "orders" (VArr (order :: es) ps))
  | VUndef | VNull =>
      Throw (TypeError "Cannot read properties of undefined (reading 'unshift')")
  | _ => Throw (TypeError "db.orders.unshift is not a function")
  end.

(** POST /api/order.  [rnd] gives the draws of [Math.random()] and [now]
    the text of [new Date().toISOString()] during the request. *)
Definition post_order (rnd : nat -> Q) (now : string) (req : request)
  : filesys -> response * filesys :=
  try_catch
    (let body := or_else (req_body req) (VObj []) in
     f <- lift (read_fields body) ;;
     match check f with
     | Some refusal => ret refusal
     | None =>
         let orderId := makeOrderId rnd in
         size <- lift (optional_field body "size") ;;
         let order := make_order f orderId now size in
         db <- readOrders ;;
         db' <- lift (unshift db order) ;;
         writeOrders db' ;;
         ret (reply [("orderId", VStr orderId)])
     end)%io
    server_error.

(** A creation request with what the environment yields while it is
    served. *)
Record creation : Type := mkcreation {
  draws : nat -> Q;
  time : string;
  submitted : request
}.

Definition admin_error (_ : exn) : response := refuse 500 "Server error".

(** GET /api/orders *)
Definition get_orders (req : request) : filesys -> response * filesys :=
  try_catch
    (ok <- lift (isAuthorized req) ;;
     if negb ok then ret (refuse 401 "Unauthorized")
     else
       db <- readOrders ;;
       orders <- lift (get db "orders") ;;
       ret (reply [("orders", or_else orders (VArr [] []))]))%io
    admin_error.

(** PATCH /api/orders/:orderId *)
Definition patch_order (req : request) : filesys -> response * filesys :=
  try_catch
    (ok <- lift (isAuthorized req) ;;
     if negb ok then ret (refuse 401 "Unauthorized")
     else
       let orderId := param_orderId req in
       st <- lift (get (or_else (req_body req) (VObj [])) "status") ;;
       if negb (truthy st) then ret (refuse 400 "Missing status")
       else
         db <- readOrders ;;
         orders <- lift (get db "orders") ;;
         es <- lift (array_elems "findIndex" (or_else orders (VArr [] []))) ;;
         idx <- lift (findIndex (has_id orderId) es) ;;
         match idx with
         | None => ret (refuse 404 "Not found")
         | Some i =>
             s <- lift (String_ st) ;;
             let es' := update_nth i (fun o => set_prop o "status" (VStr s)) es in
             let db' :=
               match orders with
               | VArr _ ps => set_prop db "orders" (VArr es' ps)
               | _ => db
               end in
             writeOrders db' ;;
             ret (reply [])
         end)%io
    admin_error.

(** DELETE /api/orders/:orderId *)
Definition delete_order (req : request) : filesys -> response * filesys :=
  try_catch
    (ok <- lift (isAuthorized req) ;;
     if negb ok then ret (refuse 401 "Unauthorized")
     else
       let orderId := param_orderId req in
       db <- readOrders ;;
       orders <- lift (get db "orders") ;;
       es <- lift (array_elems "length" orders) ;;
       let before := List.length es in
       kept <- lift (filterM (lacks_id orderId) es) ;;
       let db' := set_prop db "orders" (VArr kept []) in
       let after := List.length kept in
       if (before =? after)%nat then ret (refuse 404 "Not found")
       else
         writeOrders db' ;;
         ret (reply [("deleted", VNum 1)]))%io
    admin_error.

(** POST /api/orders/bulk-delete *)
Definition bulk_delete (req : request) : filesys -> response * filesys :=
  try_catch
    (ok <- lift (isAuthorized req) ;;
     if negb ok then ret (refuse 401 "Unauthorized")
     else
       ids <- lift (requested_ids (req_body req)) ;;
       if (List.length ids =? 0)%nat then ret (refuse 400 "orderIds required")
       else
         db <- readOrders ;;
         orders <- lift (get db "orders") ;;
         es <- lift (array_elems "length" orders) ;;
         let before := List.length es in
         kept <- lift (filterM (not_listed ids) es) ;;
         let db' := set_prop db "orders" (VArr kept []) in
         let deleted := before - List.length kept in
         writeOrders db' ;;
         ret (reply [("deleted", VNum (float_of_nat deleted))]))%io
    admin_error.

(** A request to one of the five order operations. *)
Inductive operation : Type :=
| Create (c : creation)
| ListOrders (req : request)
| UpdateStatus (req : request)
| DeleteOrder (req : request)
| BulkDelete (req : request).

Definition serve_one (op : operation) : filesys -> response * filesys :=
  match op with
  | Create c => post_order (draws c) (time c) (submitted c)
  | ListOrders req => get_orders req
  | UpdateStatus req => patch_order req
  | DeleteOrder req => delete_order req
  | BulkDelete req => bulk_delete req
  end.

(** The operations served one after the other, as the synchronous
    handlers are. *)
Fixpoint serve_all (ops : list operation) (fs : filesys) : list response * filesys :=
  match ops with
  | [] => ([], fs)
  | op :: ops' =>
      let (r, fs1) := serve_one op fs in
      let (rs, fs2) := serve_all ops' fs1 in
      (r :: rs, fs2)
  end.

(** GET /api/health.  The handler has no [try]: [Throw] is an exception
    that reaches the framework. *)
Definition get_health (now : string) : result response :=
  a <- String_ (or_else (opt_str ADMIN_TOKEN) (VStr "")) ;;
  let adminToken := trim a in
  Ok (reply [("time", VStr now);
             ("tokenRequired", VBool (negb (String.eqb adminToken "")))]).

(** [fs.statSync(p).size]; [size] is what the system reports. *)
Definition statSync (p : path) (size : float) : M float :=
  fun fs =>
    match file p fs with
    | Some _ => (Ok size, fs)
    | None => (Throw (SystemError "ENOENT: no such file or directory"), fs)
    end.

(** [Array.isArray(parsed?.orders) ? parsed.orders.length : 0] *)
Definition count_orders (parsed : value) : nat :=
  let orders :=
    match parsed with
    | VUndef | VNull => VUndef
    | _ => own parsed "orders"
    end in
  match orders with
  | VArr es _ => List.length es
  | _ => 0%nat
  end.

(** GET /api/debug.  [ordersFile] is the name of the data file, [hex] the
    text of [crypto.randomBytes(4).toString("hex")] and [size] the size the
    system reports for the file during the request. *)
Definition get_debug (ordersFile hex : string) (size : float)
  : filesys -> response * filesys :=
  try_catch
    (ensureOrdersFile ;;
     raw <- readFileSync DATA_FILE ;;
     let count :=
       match JSON_parse raw with
       | Ok parsed => count_orders parsed
       | Throw _ => 0%nat
       end in
     stat_size <- statSync DATA_FILE size ;;
     ret (reply [("serverInstance", VStr ("srv-" ++ hex));
                 ("ordersFile", VStr ordersFile);
                 ("fileSizeBytes", VNum stat_size);
                 ("ordersCount", VNum (float_of_nat count))]))%io
    (fun e =>
       refuse 500 (if String.eqb (message e) "" then "debug failed" else message e)).

End Server.

(** ** The create handler, call by call

    For the properties that depend on how simultaneous requests are
    interleaved, the store and the create handler are given a second time,
    as tasks: a [task] is the sequence of the calls a handler makes to the
    file system, each a step of its own, so that the calls of several
    requests can be interleaved.  [Await] marks a point where a handler would
    hand control back to the event loop (an [await], a callback); the code of
    the server has none.  The event loop of the runtime runs the handler of
    one request until it returns or awaits, then turns to another request;
    [interleaved] is the scheduling of a runtime that may switch after any
    call, as several server processes on one file would. *)

Module Steps.

Inductive task (A : Type) : Type :=
| Return (a : A)
| CallExists (p : path) (k : result bool -> task A)
| CallRead (p : path) (k : result content -> task A)
| CallWrite (p : path) (text : option content) (k : result unit -> task A)
| CallRename (src dst : path) (k : result unit -> task A)
| Await (k : task A).

Arguments Return {A} a.
Arguments CallExists {A} p k.
Arguments CallRead {A} p k.
Arguments CallWrite {A} p text k.
Arguments CallRename {A} src dst k.
Arguments Await {A} k.

(** The next call of a task. *)
Definition step {A} (t : task A) (fs : filesys) : task A * filesys :=
  match t with
  | Return a => (Return a, fs)
  | CallExists p k => let (r, fs') := existsSync p fs in (k r, fs')
  | CallRead p k => let (r, fs') := readFileSync p fs in (k r, fs')
  | CallWrite p text k => let (r, fs') := writeFileSync p text fs in (k r, fs')
  | CallRename src dst k => let (r, fs') := renameSync src dst fs in (k r, fs')
  | Await k => (k, fs)
  end.

(** A turn of the event loop: the task runs until it returns or awaits. *)
Fixpoint run_until_await {A} (t : task A) (fs : filesys) : task A * filesys :=
  match t with
  | Return a => (Return a, fs)
  | CallExists p k =>
      let (r, fs') := existsSync p fs in run_until_await (k r) fs'
  | CallRead p k =>
      let (r, fs') := readFileSync p fs in run_until_await (k r) fs'
  | CallWrite p text k =>
      let (r, fs') := writeFileSync p text fs in run_until_await (k r) fs'
  | CallRename src dst k =>
      let (r, fs') := renameSync src dst fs in run_until_await (k r) fs'
  | Await k => (k, fs)
  end.

(** The [i]-th task of the pool advances by [run]. *)
Fixpoint advance {A} (run : task A -> filesys -> task A * filesys) (i : nat)
  (pool : list (task A)) (fs : filesys) : list (task A) * filesys :=
  match pool, i with
  | [], _ => ([], fs)
  | t :: ts, O => let (t', fs') := run t fs in (t' :: ts, fs')
  | t :: ts, S i' => let (ts', fs') := advance run i' ts fs in (t :: ts', fs')
  end.

(** The pool of pending requests under a schedule, the list of the tasks
    chosen one after the other. *)
Fixpoint scheduled {A} (run : task A -> filesys -> task A * filesys)
  (schedule : list nat) (pool : list (task A)) (fs : filesys)
  : list (task A) * filesys :=
  match schedule with
  | [] => (pool, fs)
  | i :: rest =>
      let (pool', fs') := advance run i pool fs in scheduled run rest pool' fs'
  end.

Definition event_loop {A} := @scheduled A run_until_await.

Definition interleaved {A} := @scheduled A step.

(** Tasks that may throw. *)
Definition ret {A} (a : A) : task (result A) := Return (Ok a).

Definition lift {A} (r : result A) : task (result A) := Return r.

Fixpoint bind {A B} (m : task (result A)) (k : A -> task (result B))
  : task (result B) :=
  match m with
  | Return (Ok a) => k a
  | Return (Throw e) => Return (Throw e)
  | CallExists p c => CallExists p (fun r => bind (c r) k)
  | CallRead p c => CallRead p (fun r => bind (c r) k)
  | CallWrite p text c => CallWrite p text (fun r => bind (c r) k)
  | CallRename src dst c => CallRename src dst (fun r => bind (c r) k)
  | Await c => Await (bind c k)
  end.

Declare Scope task_scope.
Delimit Scope task_scope with task.
Notation "x <- m ;; k" := (bind m (fun x => k))
  (at level 61, m at next level, right associativity) : task_scope.
Notation "m ;; k" := (bind m (fun _ => k))
  (at level 61, right associativity) : task_scope.

Definition existsSync (p : path) : task (result bool) := CallExists p Return.

Definition readFileSync (p : path) : task (result content) := CallRead p Return.

Definition writeFileSync (p : path) (text : option content) : task (result unit) :=
  CallWrite p text Return.

Definition renameSync (src dst : path) : task (result unit) :=
  CallRename src dst Return.

Definition ensureOrdersFile : task (result unit) :=
  (e <- existsSync DATA_FILE ;;
   if negb e then writeFileSync DATA_FILE (JSON_stringify empty_db)
   else ret tt)%task.

Definition readOrders : task (result value) :=
  (ensureOrdersFile ;;
   raw <- readFileSync DATA_FILE ;;
   match JSON_parse raw with
   | Ok parsed =>
       if negb (truthy parsed) || negb (typeof_object parsed) then ret empty_db
       else if negb (isArray (own parsed "orders"))
            then ret (set_prop parsed "orders" (VArr [] []))
            else ret parsed
   | Throw _ => ret empty_db
   end)%task.

Definition writeOrders (db : value) : task (result unit) :=
  (writeFileSync DATA_FILE_tmp (JSON_stringify db) ;;
   renameSync DATA_FILE_tmp DATA_FILE)%task.

Fixpoint try_catch (m : task (result response)) (handler : exn -> response)
  : task response :=
  match m with
  | Return (Ok r) => Return r
  | Return (Throw e) => Return (handler e)
  | CallExists p c => CallExists p (fun r => try_catch (c r) handler)
  | CallRead p c => CallRead p (fun r => try_catch (c r) handler)
  | CallWrite p text c => CallWrite p text (fun r => try_catch (c r) handler)
  | CallRename src dst c => CallRename src dst (fun r => try_catch (c r) handler)
  | Await c => Await (try_catch c handler)
  end.

Section Handler.

Variable NumberToString : float -> string.
Variable StringToNumber : string -> float.

(** POST /api/order *)
Definition post_order (rnd : nat -> Q) (now : string) (req : request)
  : task response :=
  try_catch
    (let body := or_else (req_body req) (VObj []) in
     f <- lift (read_fields NumberToString StringToNumber body) ;;
     match check f with
     | Some refusal => ret refusal
     | None =>
         let orderId := makeOrderId rnd in
         size <- lift (optional_field NumberToString body "size") ;;
         let order := make_order f orderId now size in
         db <- readOrders ;;
         db' <- lift (unshift db order) ;;
         writeOrders db' ;;
         ret (reply [("orderId", VStr orderId)])
     end)%task
    (server_error).

(** The task of a creation request. *)
Definition creating (c : creation) : task response :=
  post_order (draws c) (time c) (submitted c).

End Handler.

End Steps.

(** ** The manifest script (the second source file)

    The script lists the product folders of the products directory and, for
    each, the images it holds, and writes the result to [manifest.json] in
    that directory.  A directory is the list of its entries in the order
    [readdirSync] returns them.  The order [localeCompare] sorts the names in
    is the parameter [sortNames].  The manifest is the object the assignments
    build; a folder named [__proto__] sets the prototype and adds no property.
    Property order is assignment order; the statements use lookup only. *)

#[warnings="-register-all"] Inductive node : Type :=
| File
| Dir (entries : list (string * node)).

(** The letters of the pattern under the [i] flag: ASCII case is folded. *)
Definition fold_case (c : ascii) : ascii :=
  let n := nat_of_ascii c in
  if ((65 <=? n) && (n <=? 90))%nat then ascii_of_nat (n + 32) else c.

Fixpoint fold_string (s : string) : string :=
  match s with
  | EmptyString => EmptyString
  | String c s' => String (fold_case c) (fold_string s')
  end.

(** [t] matches at the end of [s]. *)
Definition endsWith (s t : string) : bool :=
  let n := String.length s in
  let m := String.length t in
  (m <=? n)%nat && String.eqb (substring (n - m) m s) t.

Definition image_extensions : list string := ["png"; "jpg"; "jpeg"; "webp"].

(** [/\.(png|jpg|jpeg|webp)$/i.test(file)] *)
Definition isImage (file : string) : bool :=
  existsb (fun ext => endsWith (fold_string file) ("." ++ ext)) image_extensions.

Fixpoint lookup_entry (es : list (string * node)) (name : string) : option node :=
  match es with
  | [] => None
  | (n, x) :: es' => if String.eqb n name then Some x else lookup_entry es' name
  end.

(** What [path.join(dir, name)] holds, for [dir] holding [d]. *)
Definition child (d : option node) (name : string) : option node :=
  match d with
  | Some (Dir es) => lookup_entry es name
  | _ => None
  end.

(** [safeList(dir)], for [dir] holding [d]. *)
Definition safeList (d : option node) : result (list string) :=
  match d with
  | None => Ok []
  | Some (Dir es) => Ok (map fst es)
  | Some File => Throw (SystemError "ENOTDIR: not a directory, scandir")
  end.

(** [fs.existsSync(full) && fs.statSync(full).isDirectory()] *)
Definition isFolder (d : option node) : bool :=
  match d with Some (Dir _) => true | _ => false end.

(** [manifest[folder] = files] *)
Definition assign (manifest : value) (folder : string) (files : value) : value :=
  if String.eqb folder "__proto__" then manifest else set_prop manifest folder files.

(** [fs.writeFileSync(OUT_FILE, text)] in the products directory. *)
Definition write_manifest (products : option node) : result node :=
  match products with
  | None => Throw (SystemError "ENOENT: no such file or directory, open")
  | Some File => Throw (SystemError "ENOTDIR: not a directory, open")
  | Some (Dir es) =>
      match lookup_entry es "manifest.json" with
      | Some (Dir _) =>
          Throw (SystemError "EISDIR: illegal operation on a directory, open")
      | Some File => Ok (Dir es)
      | None => Ok (Dir (es ++ [("manifest.json", File)]))
      end
  end.

Section Manifest.

Variable sortNames : list string -> list string.

(** [safeList(full).filter(isImage).sort(...)] *)
Definition images_of (folder : option node) : result (list string) :=
  names <- safeList folder ;;
  Ok (sortNames (filter isImage names)).

(** The loop over the product folders. *)
Fixpoint fill_manifest (products : option node) (folders : list string)
  (manifest : value) : result value :=
  match folders with
  | [] => Ok manifest
  | folder :: rest =>
      files <- images_of (child products folder) ;;
      fill_manifest products rest
        (assign manifest folder (VArr (map VStr files) []))
  end.

(** The script: the manifest it writes and the products directory
    afterwards. *)
Definition generate_manifest (products : option node) : result (value * node) :=
  names <- safeList products ;;
  let productFolders := filter (fun f => isFolder (child products f)) names in
  manifest <- fill_manifest products productFolders (VObj []) ;;
  match JSON_stringify manifest with
  | Some _ => after <- write_manifest products ;; Ok (manifest, after)
  | None => Throw (TypeError "The data argument must be of type string")
  end.

End Manifest.

(** ** Notions used by the statements *)

(** The orders of a document. *)
Definition orders_of (db : value) : list value :=
  match own db "orders" with VArr es _ => es | _ => [] end.

(** The collection the store holds: what a load returns. *)
Definition stored_orders (fs : filesys) : list value :=
  match fst (readOrders fs) with
  | Ok db => orders_of db
  | Throw _ => []
  end.

Definition order_ids (fs : filesys) : list value :=
  map (fun o => own o "orderId") (stored_orders fs).

(** A value that the text written for it reads back as. *)
Definition json_ok (v : value) : Prop := to_json v = Some v.

(** An order record: an object with a string [orderId]. *)
Definition is_order (o : value) : bool :=
  match o with
  | VObj ps => match assoc ps "orderId" with Some (VStr _) => true | _ => false end
  | _ => false
  end.

Definition id_of (o : value) : string :=
  match own o "orderId" with VStr s => s | _ => "" end.

(** The documents the server leaves behind: no file yet, or a document
    that is not a top-level array, reads back as written and holds order
    records.  Unparsable text is allowed: the store recovers from it. *)
Definition store_ok (fs : filesys) : Prop :=
  match data_file fs with
  | Some (Doc v) =>
      json_ok v /\ isArray v = false /\ forallb is_order (orders_of v) = true
  | _ => True
  end.

(** What [readOrders] makes of the text of the file. *)
Definition recover (c : content) : value :=
  match c with
  | Corrupt => empty_db
  | Doc v =>
      if negb (truthy v) || negb (typeof_object v) then empty_db
      else if negb (isArray (own v "orders")) then set_prop v "orders" (VArr [] [])
      else v
  end.

Definition loaded (fs : filesys) : value :=
  match data_file fs with Some c => recover c | None => empty_db end.

Definition ensured (fs : filesys) : filesys :=
  match data_file fs with
  | Some _ => fs
  | None => mkfs (Some (Doc empty_db)) (tmp_file fs)
  end.

(** Saving a loaded document with a new list of orders. *)
Definition saved (ps : list (string * value)) (es : list value) : filesys :=
  mkfs (Some (Doc (VObj (assoc_set ps "orders" (VArr (map json_elem es) []))))) None.

(** The symbols of [chars]. *)
Definition alphabet : list ascii := list_ascii_of_string chars.

(** A draw of [Math.random()]: at least zero, less than one. *)
Definition draw_ok (r : Q) : Prop := (0 <= r)%Q /\ (r < 1)%Q.

(** Upper-case letters and digits, without the look-alikes 0, O, 1 and I. *)
Definition unambiguous (c : ascii) : bool :=
  let n := nat_of_ascii c in
  ((((65 <=? n) && (n <=? 90)) || ((48 <=? n) && (n <=? 57)))
   && negb ((n =? 48) || (n =? 79) || (n =? 49) || (n =? 73)))%nat.

(** The index [findIndex] returns for a predicate that does not throw. *)
Fixpoint first_index (g : value -> bool) (l : list value) : option nat :=
  match l with
  | [] => None
  | o :: l' => if g o then Some 0%nat else option_map S (first_index g l')
  end.

(** [req.body || {}] *)
Definition payload (req : request) : value := or_else (req_body req) (VObj []).

(** The token a request presents: the header when it is not empty, the
    query parameter otherwise, as text. *)
Definition presented (NumberToString : float -> string) (req : request)
  : result string :=
  ToString NumberToString
    (or_else (or_else (opt_str (x_admin_token req)) (query_token req)) (VStr "")).

(** The configured secret, empty when there is none. *)
Definition secret (ADMIN_TOKEN : option string) : string :=
  match ADMIN_TOKEN with Some s => s | None => "" end.

(** [req.body.status] as the PATCH handler destructures it. *)
Definition new_status (req : request) : value := own (payload req) "status".

(** [o.status = s] *)
Definition set_status (s : string) (o : value) : value :=
  set_prop o "status" (VStr s).

(** The order has the given identifier. *)
Definition id_is (id : string) (o : value) : bool := String.eqb (id_of o) id.

(** The identifier of the order is among the given ones. *)
Definition id_listed (ids : list string) (o : value) : bool := Set_has ids (id_of o).

(** What delete and bulk-delete keep of a list of order records. *)
Definition keep_others (id : string) (es : list value) : list value :=
  filter (fun o => negb (id_is id o)) es.

Definition keep_unlisted (ids : list string) (es : list value) : list value :=
  filter (fun o => negb (id_listed ids o)) es.

(** The task is a request answered with 200. *)
Definition answered_200 (t : Steps.task response) : bool :=
  match t with
  | Steps.Return r => (status r =? 200)%nat
  | _ => false
  end.

(** The identifiers generated for the requests of [l] that the pool shows
    answered with 200. *)
Definition accepted_ids (l : list creation) (pool : list (Steps.task response))
  : list value :=
  map (fun ct => VStr (makeOrderId (draws (fst ct))))
      (filter (fun ct => answered_200 (snd ct)) (combine l pool)).

(** The property [k] of [o] is a string that is not empty. *)
Definition filled (o : value) (k : string) : bool :=
  match own o k with
  | VStr s => negb (String.eqb s "")
  | _ => false
  end.

(** An order as the create operation makes them: text fields filled, a
    quantity of at least one, a positive unit price, both finite, and the
    shipping cost of its area. *)
Definition valid_order (o : value) : bool :=
  is_order o
  && filled o "productId" && filled o "productName"
  && filled (own o "customer") "name"
  && filled (own o "customer") "phone"
  && filled (own o "customer") "address"
  && match own o "qty" with
     | VNum q => PrimFloat.is_finite q && negb (PrimFloat.ltb q 1)
     | _ => false
     end
  && match own o "unitPrice" with
     | VNum u => PrimFloat.is_finite u && negb (PrimFloat.leb u 0)
     | _ => false
     end
  && match own o "area", own o "shipping" with
     | VStr a, VNum s =>
         (String.eqb a "dhaka" && PrimFloat.eqb s 70)
         || (String.eqb a "outside" && PrimFloat.eqb s 130)
     | _, _ => false
     end.

(** ** Data of the examples *)

(** The examples convert no number to text and no text to a number,
    so any pair of conversions serves. *)
Definition sample_NumberToString (_ : float) : string := "NaN".
Definition sample_StringToNumber (_ : string) : float := PrimFloat.nan.

Definition no_files : filesys := mkfs None None.
Definition zero_draws : nat -> Q := fun _ => 0%Q.
Definition sample_time : string := "2024-01-01T00:00:00.000Z".

Definition sample_body : value :=
  VObj [("productId", VStr "p1"); ("productName", VStr "Jacket");
        ("name", VStr "A"); ("phone", VStr "017"); ("address", VStr "X");
        ("qty", VNum 2); ("unitPrice", VNum 500); ("area", VStr "Dhaka")].

Definition sample_req : request := mkreq None VUndef "" sample_body.

Definition sample_fields : fields :=
  mkfields "p1" "Jacket" "" "A" "017" "X" 2 500 "dhaka".

(** The store after the sample order was created in an empty directory. *)
Definition one_order_store : filesys :=
  Eval vm_compute in
    snd (post_order sample_NumberToString sample_StringToNumber zero_draws
           sample_time sample_req no_files).

Definition one_order_db : value :=
  match data_file one_order_store with
  | Some (Doc v) => v
  | _ => VUndef
  end.

(** A request with [?token=%20s3cret%20], and one with a wrong header next
    to the right query parameter. *)
Definition secret_req : request := mkreq None (VStr " s3cret ") "" VUndef.
Definition guess_req : request := mkreq (Some "guess") (VStr "s3cret") "" VUndef.

(** A payload whose quantity and unit price are finite numbers with a
    product beyond the largest binary64 number. *)
#[warnings="-inexact-float"] Definition overflow_body : value :=
  VObj [("productId", VStr "p1"); ("productName", VStr "Jacket");
        ("name", VStr "A"); ("phone", VStr "017"); ("address", VStr "X");
        ("qty", VNum 1e200); ("unitPrice", VNum 1e200); ("area", VStr "dhaka")].

Definition overflow_req : request := mkreq None VUndef "" overflow_body.

#[warnings="-inexact-float"] Definition overflow_order : value :=
  make_order (mkfields "p1" "Jacket" "" "A" "017" "X" 1e200 1e200 "dhaka")
             "GG-AAAAAAAAAA" sample_time "".

Definition overflow_db : value := VObj [("orders", VArr [overflow_order] [])].

Definition ship_req : request :=
  mkreq None VUndef "GG-AAAAAAAAAA" (VObj [("status", VStr "shipped")]).

Definition bulk_req : request :=
  mkreq None VUndef ""
    (VObj [("orderIds", VArr [VStr "GG-AAAAAAAAAA"; VStr "GG-BBB"] [])]).

Definition half_draws : nat -> Q := fun _ => Qmake 1 2.

Definition first_creation : creation := mkcreation zero_draws sample_time sample_req.
Definition second_creation : creation := mkcreation half_draws sample_time sample_req.

(** A request without payload, the fields read from it, a second update for
    the sample order, a request naming an order that does not exist, and a
    data file that cannot be parsed. *)
(** A request with [?token[toString]=1]: the token is an object whose
    [toString] is data. *)
Definition textless_req : request :=
  mkreq None (VObj [("toString", VStr "1")]) "" VUndef.

(** Updates of the sample order with a status of 0 and with a status that is
    an object whose [toString] is data. *)
Definition zero_status_req : request :=
  mkreq None VUndef "GG-AAAAAAAAAA" (VObj [("status", VNum 0)]).
Definition textless_status_req : request :=
  mkreq None VUndef "GG-AAAAAAAAAA"
    (VObj [("status", VObj [("toString", VNum 1)])]).

(** Bulk-deletes whose [orderIds] is a string, and an array with an element
    that is an object whose [toString] is data. *)
Definition lone_id_req : request :=
  mkreq None VUndef "" (VObj [("orderIds", VStr "GG-AAAAAAAAAA")]).
Definition textless_id_req : request :=
  mkreq None VUndef ""
    (VObj [("orderIds",
            VArr [VStr "GG-AAAAAAAAAA"; VObj [("toString", VNum 1)]] [])]).

Definition deliver_req : request :=
  mkreq None VUndef "GG-AAAAAAAAAA" (VObj [("status", VStr "delivered")]).
Definition absent_req : request := mkreq None VUndef "GG-BBB" VUndef.
Definition unreadable_store : filesys := mkfs (Some Corrupt) None.

(** A products directory with one folder and one file, and a sort that finds
    the names already in order. *)
Definition sample_products : list (string * node) :=
  [("hoodie", Dir [("1.JPG", File); ("2.png", File); ("notes.txt", File)]);
   ("readme.md", File)].
Definition in_order (names : list string) : list string := names.

Arguments json_props : simpl never.

(** ** Induction on values *)

Definition value_nested_ind (P : value -> Prop)
  (Hundef : P VUndef) (Hnull : P VNull)
  (Hbool : forall b, P (VBool b))
  (Hnum : forall n, P (VNum n))
  (Hstr : forall s, P (VStr s))
  (Harr : forall es ps, Forall P es -> Forall (fun kx => P (snd kx)) ps -> P (VArr es ps))
  (Hobj : forall ps, Forall (fun kx => P (snd kx)) ps -> P (VObj ps))
  : forall v, P v :=
  fix F (v : value) : P v :=
    let all :=
      fix G (l : list value) : Forall P l :=
        match l with
        | [] => Forall_nil _
        | e :: l' => Forall_cons e (F e) (G l')
        end in
    let allp :=
      fix H (l : list (string * value)) : Forall (fun kx => P (snd kx)) l :=
        match l with
        | [] => Forall_nil _
        | kx :: l' => Forall_cons kx (F (snd kx)) (H l')
        end in
    match v with
    | VUndef => Hundef
    | VNull => Hnull
    | VBool b => Hbool b
    | VNum n => Hnum n
    | VStr s => Hstr s
    | VArr es ps => Harr es ps (all es) (allp ps)
    | VObj ps => Hobj ps (allp ps)
    end.

(** ** Properties of objects *)

Lemma assoc_set_same ps k x : assoc (assoc_set ps k x) k = Some x.
Proof.
  induction ps as [|[k' v'] ps IH]; simpl.
  - now rewrite String.eqb_refl.
  - destruct (String.eqb k' k) eqn:E; simpl; rewrite E; auto.
Qed.

Lemma assoc_set_other ps k x k' :
  k <> k' -> assoc (assoc_set ps k x) k' = assoc ps k'.
Proof.
  intros Hk. induction ps as [|[k0 v0] ps IH]; simpl.
  - destruct (String.eqb k k') eqn:E; auto.
    apply String.eqb_eq in E. contradiction.
  - destruct (String.eqb k0 k) eqn:E; simpl.
    + apply String.eqb_eq in E. subst k0.
      destruct (String.eqb k k') eqn:E'; auto.
      apply String.eqb_eq in E'. contradiction.
    + now rewrite IH.
Qed.

Lemma own_set_same v k x :
  (exists ps, v = VObj ps) \/ (exists es ps, v = VArr es ps) ->
  own (set_prop v k x) k = x.
Proof.
  intros [[ps ->]|[es [ps ->]]]; simpl; now rewrite assoc_set_same.
Qed.

Lemma own_set_other v k x k' : k <> k' -> own (set_prop v k x) k' = own v k'.
Proof.
  intros Hk. destruct v; simpl; auto; now rewrite assoc_set_other.
Qed.

(** ** Properties of the JSON image *)

Lemma to_json_arr es ps : to_json (VArr es ps) = Some (VArr (map json_elem es) []).
Proof. reflexivity. Qed.

Lemma to_json_obj ps : to_json (VObj ps) = Some (VObj (json_props ps)).
Proof.
  simpl. do 2 f_equal. unfold json_props.
  induction ps as [|[k x] ps IH]; simpl; [reflexivity|now rewrite IH].
Qed.

Lemma json_props_cons k x ps :
  json_props ((k, x) :: ps) =
  match to_json x with
  | Some j => (k, j) :: json_props ps
  | None => json_props ps
  end.
Proof. unfold json_props. simpl. now destruct (to_json x). Qed.

Lemma to_json_none v : to_json v = None -> v = VUndef.
Proof. destruct v; simpl; congruence. Qed.

Lemma to_json_num_idem n j : to_json (VNum n) = Some j -> to_json j = Some j.
Proof.
  simpl. intros H. injection H as <-.
  destruct (PrimFloat.is_finite n) eqn:Hf; [|reflexivity].
  destruct (PrimFloat.eqb n 0) eqn:Hz.
  - reflexivity.
  - simpl. now rewrite Hf, Hz.
Qed.

Lemma json_props_idem ps :
  Forall (fun kx => forall j, to_json (snd kx) = Some j -> to_json j = Some j) ps ->
  json_props (json_props ps) = json_props ps.
Proof.
  induction 1 as [|[k x] ps Hx _ IH]; [reflexivity|].
  rewrite json_props_cons. simpl in Hx.
  destruct (to_json x) as [j|] eqn:E; [|exact IH].
  rewrite json_props_cons, (Hx j eq_refl). now rewrite IH.
Qed.

Lemma json_elem_idem es :
  Forall (fun e => forall j, to_json e = Some j -> to_json j = Some j) es ->
  map json_elem (map json_elem es) = map json_elem es.
Proof.
  induction 1 as [|e es He _ IH]; [reflexivity|].
  simpl. rewrite IH. f_equal.
  unfold json_elem. destruct (to_json e) as [j|] eqn:E.
  - now rewrite (He j eq_refl).
  - reflexivity.
Qed.

(** Writing what was read from written text changes nothing. *)
Lemma to_json_idem v j : to_json v = Some j -> json_ok j.
Proof.
  unfold json_ok. revert j.
  induction v as [| |b|n|s|es ps IHes _|ps IH] using value_nested_ind; intros j H.
  - discriminate.
  - injection H as <-. reflexivity.
  - injection H as <-. reflexivity.
  - now apply (to_json_num_idem n).
  - injection H as <-. reflexivity.
  - rewrite to_json_arr in H. injection H as <-.
    rewrite to_json_arr. now rewrite json_elem_idem.
  - rewrite to_json_obj in H. injection H as <-.
    rewrite to_json_obj. now rewrite json_props_idem.
Qed.

Lemma json_props_length ps : (List.length (json_props ps) <= List.length ps)%nat.
Proof.
  induction ps as [|[k x] ps IH]; [apply Nat.le_refl|].
  rewrite json_props_cons. destruct (to_json x); simpl; lia.
Qed.

Lemma json_props_fix ps :
  json_props ps = ps <-> Forall (fun kx => json_ok (snd kx)) ps.
Proof.
  split.
  - induction ps as [|[k x] ps IH]; intros H; [constructor|].
    rewrite json_props_cons in H.
    destruct (to_json x) as [j|] eqn:E.
    + injection H as -> H. constructor; [exact E|auto].
    + pose proof (json_props_length ps) as L. rewrite H in L. simpl in L. lia.
  - induction 1 as [|[k x] ps Hx _ IH]; [reflexivity|].
    rewrite json_props_cons. simpl in Hx. unfold json_ok in Hx. now rewrite Hx, IH.
Qed.

Lemma json_elem_fix es :
  map json_elem es = es <-> Forall json_ok es.
Proof.
  split.
  - induction es as [|e es IH]; intros H; [constructor|].
    simpl in H. injection H as He H. constructor; [|auto].
    unfold json_elem in He. unfold json_ok.
    destruct (to_json e) as [j|] eqn:E; [now subst|].
    apply to_json_none in E. congruence.
  - induction 1 as [|e es He _ IH]; [reflexivity|].
    simpl. unfold json_elem at 1. unfold json_ok in He. now rewrite He, IH.
Qed.

Lemma json_ok_obj ps : json_ok (VObj ps) <-> Forall (fun kx => json_ok (snd kx)) ps.
Proof.
  unfold json_ok at 1. rewrite to_json_obj, <- json_props_fix.
  split; [now intros [= ->]|now intros ->].
Qed.

Lemma json_ok_arr es ps : json_ok (VArr es ps) <-> ps = [] /\ Forall json_ok es.
Proof.
  unfold json_ok at 1. rewrite to_json_arr, <- json_elem_fix.
  split; [intros [= -> ->]; auto|now intros [-> ->]].
Qed.

Lemma json_props_set ps k x j :
  Forall (fun kx => json_ok (snd kx)) ps ->
  to_json x = Some j ->
  json_props (assoc_set ps k x) = assoc_set ps k j.
Proof.
  intros Hps Hx. induction Hps as [|[k' v'] ps Hv Hps IH]; cbn [assoc_set].
  - rewrite json_props_cons, Hx. reflexivity.
  - destruct (String.eqb k' k).
    + rewrite json_props_cons, Hx. f_equal. now apply json_props_fix.
    + rewrite json_props_cons. simpl in Hv. unfold json_ok in Hv.
      now rewrite Hv, IH.
Qed.

Lemma assoc_json_props ps k x j :
  assoc ps k = Some x -> to_json x = Some j -> assoc (json_props ps) k = Some j.
Proof.
  induction ps as [|[k' v'] ps IH]; simpl; [discriminate|].
  intros Ha Hx. rewrite json_props_cons.
  destruct (String.eqb k' k) eqn:E.
  - injection Ha as ->. rewrite Hx. simpl. now rewrite E.
  - destruct (to_json v'); simpl; [rewrite E|]; auto.
Qed.

Lemma assoc_Forall (P : value -> Prop) ps k x :
  Forall (fun kx => P (snd kx)) ps -> assoc ps k = Some x -> P x.
Proof.
  induction 1 as [|[k' v'] ps Hv _ IH]; simpl; [discriminate|].
  destruct (String.eqb k' k); [now intros [= <-]|auto].
Qed.

Lemma assoc_set_Forall (P : value -> Prop) ps k x :
  Forall (fun kx => P (snd kx)) ps -> P x ->
  Forall (fun kx => P (snd kx)) (assoc_set ps k x).
Proof.
  intros Hps Hx. induction Hps as [|[k' v'] ps Hv Hps IH]; simpl.
  - constructor; [exact Hx|constructor].
  - destruct (String.eqb k' k); constructor; auto.
Qed.

Lemma is_order_json_elem o : is_order o = true -> is_order (json_elem o) = true.
Proof.
  destruct o as [| | | | | |ps]; try discriminate. unfold is_order at 1.
  destruct (assoc ps "orderId") as [[| | | |s| |]|] eqn:E; try discriminate.
  intros _. unfold json_elem. rewrite to_json_obj. cbn [is_order].
  now rewrite (assoc_json_props ps "orderId" (VStr s) (VStr s) E eq_refl).
Qed.

Lemma forallb_is_order_json es :
  forallb is_order es = true -> forallb is_order (map json_elem es) = true.
Proof.
  induction es as [|e es IH]; simpl; [auto|].
  intros H. apply andb_true_iff in H as [He Hes].
  now rewrite is_order_json_elem, IH.
Qed.

(** ** The store, equationally *)

Ltac run_io :=
  unfold try_catch, bind, lift, ret, throw, existsSync, readFileSync,
    writeFileSync, renameSync; simpl.

Lemma readOrders_eq fs : readOrders fs = (Ok (loaded fs), ensured fs).
Proof.
  unfold readOrders, ensureOrdersFile, loaded, ensured. run_io.
  destruct fs as [[c|] t]; simpl; [|reflexivity].
  destruct c as [|v]; simpl; [reflexivity|].
  destruct (negb (truthy v) || negb (typeof_object v)); [reflexivity|].
  now destruct (negb (isArray (own v "orders"))).
Qed.

Lemma writeOrders_eq db j fs :
  to_json db = Some j -> writeOrders db fs = (Ok tt, mkfs (Some (Doc j)) None).
Proof.
  intros H. unfold writeOrders, JSON_stringify. rewrite H. run_io.
  now destruct fs.
Qed.

Arguments readOrders : simpl never.
Arguments writeOrders : simpl never.

Ltac io := unfold try_catch, bind, lift, ret, throw; cbv beta.

Lemma stored_orders_eq fs : stored_orders fs = orders_of (loaded fs).
Proof. unfold stored_orders. now rewrite readOrders_eq. Qed.

Lemma stored_orders_ensured fs : stored_orders (ensured fs) = stored_orders fs.
Proof.
  rewrite !stored_orders_eq. unfold loaded, ensured.
  destruct (data_file fs) eqn:E; [now rewrite E|reflexivity].
Qed.

Lemma truthy_object v :
  negb (truthy v) || negb (typeof_object v) = false ->
  (exists ps, v = VObj ps) \/ (exists es ps, v = VArr es ps).
Proof.
  destruct v; simpl; intros E; eauto;
    try discriminate; rewrite orb_true_r in E; discriminate.
Qed.

Lemma recover_shape c :
  (exists ps, recover c = VObj ps) \/ (exists es ps, recover c = VArr es ps).
Proof.
  destruct c as [|v]; simpl; [left; eexists; reflexivity|].
  destruct (negb (truthy v) || negb (typeof_object v)) eqn:E;
    [left; eexists; reflexivity|].
  apply truthy_object in E as [[ps ->]|[es [ps ->]]];
    destruct (negb (isArray _)); simpl; eauto.
Qed.

Lemma loaded_shape fs :
  (exists ps, loaded fs = VObj ps) \/ (exists es ps, loaded fs = VArr es ps).
Proof.
  unfold loaded. destruct (data_file fs); [apply recover_shape|].
  left. eexists. reflexivity.
Qed.

Lemma recover_orders c : exists es ps, own (recover c) "orders" = VArr es ps.
Proof.
  destruct c as [|v]; simpl; [eauto|].
  destruct (negb (truthy v) || negb (typeof_object v)) eqn:E; [simpl; eauto|].
  destruct (isArray (own v "orders")) eqn:A; simpl.
  - destruct (own v "orders"); try discriminate. eauto.
  - exists [], []. apply own_set_same. now apply truthy_object.
Qed.

Lemma loaded_orders fs : exists es ps, own (loaded fs) "orders" = VArr es ps.
Proof.
  unfold loaded. destruct (data_file fs); [apply recover_orders|].
  simpl. eauto.
Qed.

Lemma store_ok_loaded fs :
  store_ok fs ->
  exists ps es,
    loaded fs = VObj ps /\ Forall (fun kx => json_ok (snd kx)) ps /\
    assoc ps "orders" = Some (VArr es []) /\
    forallb is_order es = true /\ Forall json_ok es /\ stored_orders fs = es.
Proof.
  intros Hok. rewrite stored_orders_eq. unfold store_ok, loaded in *.
  assert (Hempty : exists ps es,
    empty_db = VObj ps /\ Forall (fun kx => json_ok (snd kx)) ps /\
    assoc ps "orders" = Some (VArr es []) /\
    forallb is_order es = true /\ Forall json_ok es /\ orders_of empty_db = es).
  { exists [("orders", VArr [] [])], []. repeat split; auto.
    constructor; [reflexivity|constructor]. }
  destruct (data_file fs) as [[|v]|]; simpl; try exact Hempty.
  destruct Hok as (Hj & Ha & Ho).
  destruct (negb (truthy v) || negb (typeof_object v)) eqn:E; [exact Hempty|].
  apply truthy_object in E as [[ps ->]|[es [ps ->]]]; [|discriminate].
  apply json_ok_obj in Hj.
  unfold orders_of in *. simpl in *.
  destruct (assoc ps "orders") as [x|] eqn:A.
  - destruct x as [| | | | |es aps|]; simpl.
    6:{ pose proof (assoc_Forall _ _ _ _ Hj A) as Hx.
        apply json_ok_arr in Hx as [-> Hes].
        exists ps, es. rewrite A. repeat split; auto. }
    all: exists (assoc_set ps "orders" (VArr [] [])), [];
      rewrite assoc_set_same; repeat split; auto;
      apply assoc_set_Forall; auto; reflexivity.
  - simpl. exists (assoc_set ps "orders" (VArr [] [])), [].
    rewrite assoc_set_same. repeat split; auto.
    apply assoc_set_Forall; auto. reflexivity.
Qed.

Lemma writeOrders_orders ps es aps fs :
  Forall (fun kx => json_ok (snd kx)) ps ->
  writeOrders (set_prop (VObj ps) "orders" (VArr es aps)) fs = (Ok tt, saved ps es).
Proof.
  intros Hps. apply writeOrders_eq. simpl set_prop.
  rewrite to_json_obj. do 2 f_equal.
  now apply json_props_set.
Qed.

Lemma stored_orders_saved ps es : stored_orders (saved ps es) = map json_elem es.
Proof.
  rewrite stored_orders_eq. unfold loaded, saved, orders_of. simpl.
  now rewrite assoc_set_same; simpl; rewrite assoc_set_same.
Qed.

Lemma store_ok_saved ps es :
  Forall (fun kx => json_ok (snd kx)) ps ->
  forallb is_order es = true ->
  store_ok (saved ps es).
Proof.
  intros Hps Hes. unfold store_ok, saved, orders_of. simpl.
  rewrite assoc_set_same. repeat split.
  - apply json_ok_obj, assoc_set_Forall; auto.
    apply (to_json_idem (VArr es [])). apply to_json_arr.
  - now apply forallb_is_order_json.
Qed.

(** ** The identifier generator *)

Lemma random_index_range r :
  draw_ok r -> (0 <= random_index r < Z.of_nat (String.length chars))%Z.
Proof.
  intros [H0 H1]. unfold random_index. change (String.length chars) with 32%nat.
  destruct r as [n d]. unfold Qle, Qlt in *. simpl in *.
  rewrite Z.mul_1_r in H0, H1.
  rewrite Pos.mul_1_r. split.
  - apply Z.div_pos; lia.
  - apply Z.div_lt_upper_bound; lia.
Qed.

Lemma get_In n s c : String.get n s = Some c -> In c (list_ascii_of_string s).
Proof.
  revert n. induction s as [|a s IH]; intros [|n]; simpl; try discriminate.
  - intros [= ->]. now left.
  - intros H. right. eauto.
Qed.

Lemma get_Some n s : (n < String.length s)%nat -> exists c, String.get n s = Some c.
Proof.
  revert n. induction s as [|a s IH]; intros [|n]; simpl; try lia; eauto.
  intros H. apply IH. lia.
Qed.

Lemma In_get c s :
  In c (list_ascii_of_string s) ->
  exists k, (k < String.length s)%nat /\ String.get k s = Some c.
Proof.
  induction s as [|a s IH]; simpl; [contradiction|].
  intros [->|Hin].
  - exists 0%nat. split; [lia|reflexivity].
  - destruct (IH Hin) as (k & Hk & Hget). exists (S k). split; [lia|exact Hget].
Qed.

Lemma char_at_alphabet r :
  draw_ok r ->
  exists c, char_at chars (random_index r) = String c EmptyString /\ In c alphabet.
Proof.
  intros Hr. apply random_index_range in Hr. unfold char_at.
  destruct (Z.ltb_spec (random_index r) 0) as [?|_]; [lia|].
  destruct (get_Some (Z.to_nat (random_index r)) chars) as [c Hc]; [lia|].
  rewrite Hc. exists c. split; [reflexivity|]. eapply get_In; eauto.
Qed.

Lemma append_assoc (a b c : string) : (a ++ b) ++ c = a ++ (b ++ c).
Proof. induction a; simpl; congruence. Qed.

Lemma makeOrderId_loop_format rnd n i s :
  (forall k, draw_ok (rnd k)) ->
  exists suffix,
    makeOrderId_loop rnd n i s = s ++ suffix /\
    String.length suffix = n /\
    Forall (fun c => In c alphabet) (list_ascii_of_string suffix).
Proof.
  intros Hrnd. revert i s. induction n as [|n IH]; intros i s; simpl.
  - exists EmptyString. split; [|split; [reflexivity|constructor]].
    induction s; simpl; congruence.
  - destruct (char_at_alphabet (rnd i) (Hrnd i)) as (c & Hc & Hin).
    destruct (IH (S i) (s ++ char_at chars (random_index (rnd i))))
      as (suf & Heq & Hlen & Hall).
    exists (String c suf). rewrite Heq, Hc, append_assoc. simpl.
    repeat split; auto.
Qed.

Lemma makeOrderId_format rnd :
  (forall k, draw_ok (rnd k)) ->
  exists suffix,
    makeOrderId rnd = "GG-" ++ suffix /\
    String.length suffix = 10%nat /\
    Forall (fun c => In c alphabet) (list_ascii_of_string suffix).
Proof. apply makeOrderId_loop_format. Qed.

Lemma alphabet_facts :
  List.length alphabet = 32%nat /\ NoDup alphabet /\
  forallb unambiguous alphabet = true.
Proof.
  split; [reflexivity|]. split; [|reflexivity].
  unfold alphabet. simpl.
  repeat (constructor; [simpl; intuition discriminate|]). constructor.
Qed.

(** Every symbol of [chars] is drawn by some outcome. *)
Lemma alphabet_drawn c :
  In c alphabet ->
  exists r, draw_ok r /\ char_at chars (random_index r) = String c EmptyString.
Proof.
  intros Hin.
  destruct (In_get c chars Hin) as (k & Hk & Hget).
  change (String.length chars) with 32%nat in Hk.
  exists (Qmake (Z.of_nat k) 32). split.
  - unfold draw_ok, Qle, Qlt. simpl. lia.
  - assert (E : random_index (Qmake (Z.of_nat k) 32) = Z.of_nat k).
    { unfold random_index. change (String.length chars) with 32%nat.
      unfold Qfloor, Qmult, inject_Z. cbn [Qnum Qden].
      change (Z.of_nat 32) with 32%Z. change (Z.pos (32 * 1)) with 32%Z.
      apply Z.div_mul. lia. }
    unfold char_at. rewrite E.
    destruct (Z.ltb_spec (Z.of_nat k) 0) as [?|_]; [lia|].
    now rewrite Nat2Z.id, Hget.
Qed.

(** ** The handlers, equationally *)

Lemma get_truthy v k : truthy v = true -> get v k = Ok (own v k).
Proof. destruct v; simpl; auto; discriminate. Qed.

Lemma or_else_truthy a b : truthy b = true -> truthy (or_else a b) = true.
Proof. unfold or_else. destruct (truthy a) eqn:E; auto. Qed.

Lemma findIndex_pure f g l :
  Forall (fun o => f o = Ok (g o)) l ->
  findIndex f l = Ok (first_index g l).
Proof.
  induction 1 as [|o l Ho _ IH]; simpl; [reflexivity|].
  rewrite Ho. simpl. destruct (g o); [reflexivity|]. now rewrite IH.
Qed.

Lemma filterM_pure f g l :
  Forall (fun o => f o = Ok (g o)) l -> filterM f l = Ok (filter g l).
Proof.
  induction 1 as [|o l Ho _ IH]; simpl; [reflexivity|].
  rewrite Ho, IH. reflexivity.
Qed.

Lemma is_order_own_id o : is_order o = true -> own o "orderId" = VStr (id_of o).
Proof.
  destruct o as [| | | | | |ps]; try discriminate. unfold is_order, id_of. simpl.
  destruct (assoc ps "orderId") as [[| | | |s| |]|]; try discriminate. reflexivity.
Qed.

Lemma is_order_get_id o : is_order o = true -> get o "orderId" = Ok (VStr (id_of o)).
Proof.
  intros H. rewrite <- (is_order_own_id o H).
  destruct o; try discriminate. reflexivity.
Qed.

Lemma is_order_json_ok_set o k s :
  is_order o = true -> json_ok o -> k <> "orderId" ->
  is_order (set_prop o k (VStr s)) = true /\ json_ok (set_prop o k (VStr s)).
Proof.
  destruct o as [| | | | | |ps]; try discriminate. intros Ho Hj Hk. simpl. split.
  - rewrite assoc_set_other by exact Hk. exact Ho.
  - apply json_ok_obj, assoc_set_Forall; [now apply json_ok_obj|reflexivity].
Qed.

Lemma check_status f r : check f = Some r -> status r = 400%nat.
Proof.
  unfold check.
  repeat match goal with
         | |- context [if ?b then _ else _] => destruct b
         end; intros [= <-]; reflexivity.
Qed.

Section Handlers.

Variable NumberToString : float -> string.
Variable StringToNumber : string -> float.
Variable ADMIN_TOKEN : option string.

Abbreviation String_ := (ToString NumberToString).
Abbreviation read := (read_fields NumberToString StringToNumber).
Abbreviation size_of := (fun body => optional_field NumberToString body "size").
Abbreviation POST_order := (post_order NumberToString StringToNumber).
Abbreviation authorized := (isAuthorized NumberToString ADMIN_TOKEN).
Abbreviation GET_orders := (get_orders NumberToString ADMIN_TOKEN).
Abbreviation PATCH_order := (patch_order NumberToString ADMIN_TOKEN).
Abbreviation DELETE_order := (delete_order NumberToString ADMIN_TOKEN).
Abbreviation POST_bulk_delete := (bulk_delete NumberToString ADMIN_TOKEN).

Lemma post_order_throws rnd now req fs e :
  read (payload req) = Throw e ->
  POST_order rnd now req fs = (server_error e, fs).
Proof.
  intros H. unfold post_order. fold (payload req). run_io. now rewrite H.
Qed.

Lemma post_order_refuses rnd now req fs f r :
  read (payload req) = Ok f -> check f = Some r ->
  POST_order rnd now req fs = (r, fs).
Proof.
  intros H C. unfold post_order. fold (payload req). run_io. now rewrite H, C.
Qed.

Lemma post_order_size_throws rnd now req fs f e :
  read (payload req) = Ok f -> check f = None ->
  size_of (payload req) = Throw e ->
  POST_order rnd now req fs = (server_error e, fs).
Proof.
  intros H C S. unfold post_order. fold (payload req). run_io.
  now rewrite H, C, S.
Qed.

(** An accepted request saves the loaded document with the order in front. *)
Lemma post_order_saves rnd now req fs f size :
  read (payload req) = Ok f -> check f = None ->
  size_of (payload req) = Ok size ->
  exists es aps j,
    own (loaded fs) "orders" = VArr es aps /\
    to_json (set_prop (loaded fs) "orders"
               (VArr (make_order f (makeOrderId rnd) now size :: es) aps)) = Some j /\
    POST_order rnd now req fs =
      (reply [("orderId", VStr (makeOrderId rnd))], mkfs (Some (Doc j)) None).
Proof.
  intros H C S. destruct (loaded_orders fs) as (es & aps & Ho).
  exists es, aps.
  set (order := make_order f (makeOrderId rnd) now size).
  assert (Hj : exists j,
    to_json (set_prop (loaded fs) "orders" (VArr (order :: es) aps)) = Some j).
  { destruct (loaded_shape fs) as [[ps ->]|[xs [ps ->]]]; simpl set_prop.
    - rewrite to_json_obj. eauto.
    - rewrite to_json_arr. eauto. }
  destruct Hj as [j Hj]. exists j. repeat split; auto.
  unfold post_order. fold (payload req).
  unfold try_catch, bind at 1, lift at 1. rewrite H, C.
  unfold bind at 1, lift at 1. rewrite S.
  unfold bind at 1. rewrite readOrders_eq.
  unfold bind at 1, lift at 1, unshift.
  assert (Hget : get (loaded fs) "orders" = Ok (VArr es aps)).
  { rewrite <- Ho. destruct (loaded_shape fs) as [[ps ->]|[xs [ps ->]]]; reflexivity. }
  rewrite Hget. simpl rbind. fold order.
  unfold bind. rewrite (writeOrders_eq _ j _ Hj). reflexivity.
Qed.

Lemma post_order_accepted rnd now req fs res fs' :
  POST_order rnd now req fs = (res, fs') -> status res = 200%nat ->
  exists f size,
    read (payload req) = Ok f /\ check f = None /\
    size_of (payload req) = Ok size.
Proof.
  intros Hrun Hst.
  destruct (read (payload req)) as [f|e] eqn:H.
  2:{ rewrite (post_order_throws _ _ _ _ e H) in Hrun.
      injection Hrun as <- _. discriminate. }
  destruct (check f) as [r|] eqn:C.
  { rewrite (post_order_refuses _ _ _ _ f r H C) in Hrun.
    injection Hrun as <- _. apply check_status in C. congruence. }
  destruct (size_of (payload req)) as [size|e] eqn:S.
  2:{ rewrite (post_order_size_throws _ _ _ _ f e H C S) in Hrun.
      injection Hrun as <- _. discriminate. }
  eauto.
Qed.

(** On a document of the server the order lands in front of the others. *)
Lemma post_order_prepends rnd now req fs f size :
  read (payload req) = Ok f -> check f = None ->
  size_of (payload req) = Ok size ->
  store_ok fs ->
  exists fs',
    POST_order rnd now req fs =
      (reply [("orderId", VStr (makeOrderId rnd))], fs') /\
    stored_orders fs' =
      json_elem (make_order f (makeOrderId rnd) now size) :: stored_orders fs /\
    store_ok fs'.
Proof.
  intros H C S Hok.
  destruct (store_ok_loaded fs Hok) as (ps & es & Hl & Hps & Ha & Hord & Hes & Hst).
  destruct (post_order_saves rnd now req fs f size H C S)
    as (es' & aps & j & Ho & Hj & Hrun).
  rewrite Hl in Ho, Hj. simpl in Ho. rewrite Ha in Ho. injection Ho as <- <-.
  set (order := make_order f (makeOrderId rnd) now size) in *.
  pose proof (writeOrders_orders ps (order :: es) [] fs Hps) as Hw.
  rewrite (writeOrders_eq _ j _ Hj) in Hw.
  assert (Hfs : mkfs (Some (Doc j)) None = saved ps (order :: es)) by congruence.
  rewrite Hfs in Hrun.
  exists (saved ps (order :: es)). split; [exact Hrun|]. split.
  - rewrite stored_orders_saved, Hst. cbn [map]. f_equal. now apply json_elem_fix.
  - apply store_ok_saved; auto.
Qed.

Lemma isAuthorized_eq req :
  authorized req =
  (t <- presented NumberToString req ;;
   Ok (String.eqb (trim (secret ADMIN_TOKEN)) "" || String.eqb (trim t) (trim (secret ADMIN_TOKEN)))).
Proof.
  unfold isAuthorized, presented, secret.
  assert (E : String_ (or_else (opt_str ADMIN_TOKEN) (VStr "")) =
              Ok (match ADMIN_TOKEN with Some s => s | None => "" end)).
  { destruct ADMIN_TOKEN as [s|]; [|reflexivity].
    unfold or_else. simpl. destruct (String.eqb_spec s ""); subst; reflexivity. }
  rewrite E. clear E. cbn [rbind].
  destruct (String_ (or_else (or_else _ _) _)) as [t|e]; cbn [rbind]; [|reflexivity].
  now destruct (String.eqb (trim _) "").
Qed.

Lemma has_id_orders id es :
  forallb is_order es = true ->
  Forall (fun o => has_id id o = Ok (id_is id o)) es.
Proof.
  rewrite forallb_forall, Forall_forall. intros H o Ho.
  unfold has_id, id_is. now rewrite (is_order_get_id o (H o Ho)).
Qed.

Lemma lacks_id_orders id es :
  forallb is_order es = true ->
  Forall (fun o => lacks_id id o = Ok (negb (id_is id o))) es.
Proof.
  rewrite forallb_forall, Forall_forall. intros H o Ho.
  unfold lacks_id, id_is. now rewrite (is_order_get_id o (H o Ho)).
Qed.

Lemma not_listed_orders ids es :
  forallb is_order es = true ->
  Forall (fun o => not_listed NumberToString ids o = Ok (negb (id_listed ids o))) es.
Proof.
  rewrite forallb_forall, Forall_forall. intros H o Ho.
  unfold not_listed, id_listed. now rewrite (is_order_get_id o (H o Ho)).
Qed.

Lemma filter_Forall (P : value -> Prop) g l : Forall P l -> Forall P (filter g l).
Proof.
  induction 1 as [|o l Ho _ IH]; simpl; [constructor|].
  destruct (g o); [constructor|]; auto.
Qed.

Lemma filter_forallb p g (l : list value) :
  forallb p l = true -> forallb p (filter g l) = true.
Proof.
  induction l as [|o l IH]; simpl; [auto|].
  intros H. apply andb_true_iff in H as [Ho Hl].
  destruct (g o); simpl; [rewrite Ho|]; auto.
Qed.

Lemma update_nth_Forall (P : value -> Prop) f i l :
  (forall o, P o -> P (f o)) -> Forall P l -> Forall P (update_nth i f l).
Proof.
  intros Hf H. revert i. induction H as [|o l Ho Hl IH]; intros [|i]; simpl;
    constructor; auto.
Qed.

Lemma unauthorized req fs :
  authorized req = Ok false ->
  GET_orders req fs = (refuse 401 "Unauthorized", fs) /\
  PATCH_order req fs = (refuse 401 "Unauthorized", fs) /\
  DELETE_order req fs = (refuse 401 "Unauthorized", fs) /\
  POST_bulk_delete req fs = (refuse 401 "Unauthorized", fs).
Proof.
  intros H. unfold get_orders, patch_order, delete_order, bulk_delete.
  unfold try_catch, bind, lift. rewrite H. simpl. auto.
Qed.

Lemma gate_throws req fs e :
  authorized req = Throw e ->
  GET_orders req fs = (refuse 500 "Server error", fs) /\
  PATCH_order req fs = (refuse 500 "Server error", fs) /\
  DELETE_order req fs = (refuse 500 "Server error", fs) /\
  POST_bulk_delete req fs = (refuse 500 "Server error", fs).
Proof.
  intros H. unfold get_orders, patch_order, delete_order, bulk_delete.
  unfold try_catch, bind, lift. rewrite H. simpl. auto.
Qed.

Lemma get_loaded_orders fs : get (loaded fs) "orders" = Ok (own (loaded fs) "orders").
Proof. destruct (loaded_shape fs) as [[ps ->]|[xs [ps ->]]]; reflexivity. Qed.

Lemma get_orders_lists req fs :
  authorized req = Ok true ->
  exists aps,
    GET_orders req fs =
      (reply [("orders", VArr (stored_orders fs) aps)], ensured fs).
Proof.
  intros H. unfold get_orders. io. rewrite H. cbn [negb].
  rewrite readOrders_eq, get_loaded_orders, stored_orders_eq.
  unfold orders_of. destruct (loaded_orders fs) as (es & aps & ->).
  exists aps. reflexivity.
Qed.

Lemma get_payload req k : get (payload req) k = Ok (own (payload req) k).
Proof. apply get_truthy, or_else_truthy. reflexivity. Qed.

Lemma patch_order_missing_status req fs :
  authorized req = Ok true -> truthy (new_status req) = false ->
  PATCH_order req fs = (refuse 400 "Missing status", fs).
Proof.
  intros H T. unfold patch_order. io. rewrite H. cbn [negb].
  fold (payload req). rewrite get_payload. fold (new_status req). now rewrite T.
Qed.

Lemma patch_order_not_found req fs :
  store_ok fs -> authorized req = Ok true -> truthy (new_status req) = true ->
  first_index (id_is (param_orderId req)) (stored_orders fs) = None ->
  PATCH_order req fs = (refuse 404 "Not found", ensured fs).
Proof.
  intros Hok H T Hidx.
  destruct (store_ok_loaded fs Hok) as (ps & es & Hl & Hps & Ha & Hord & Hes & Hst).
  rewrite Hst in Hidx.
  unfold patch_order. io. rewrite H. cbn [negb].
  fold (payload req). rewrite get_payload. fold (new_status req). rewrite T.
  cbn [negb]. rewrite readOrders_eq, Hl. simpl get. rewrite Ha.
  unfold or_else. simpl array_elems. cbv beta iota.
  rewrite (findIndex_pure _ _ _ (has_id_orders (param_orderId req) es Hord)).
  now rewrite Hidx.
Qed.

Lemma patch_order_updates req fs i s :
  store_ok fs -> authorized req = Ok true -> truthy (new_status req) = true ->
  first_index (id_is (param_orderId req)) (stored_orders fs) = Some i ->
  String_ (new_status req) = Ok s ->
  exists fs',
    PATCH_order req fs = (reply [], fs') /\
    stored_orders fs' = update_nth i (set_status s) (stored_orders fs) /\
    store_ok fs'.
Proof.
  intros Hok H T Hidx Hs.
  destruct (store_ok_loaded fs Hok) as (ps & es & Hl & Hps & Ha & Hord & Hes & Hst).
  rewrite Hst in *.
  assert (Hboth : Forall (fun o => is_order o = true /\ json_ok o)
                         (update_nth i (set_status s) es)).
  { apply update_nth_Forall.
    - intros o [Ho Hj]. apply is_order_json_ok_set; auto. discriminate.
    - rewrite Forall_forall. rewrite forallb_forall in Hord.
      rewrite Forall_forall in Hes. auto. }
  exists (saved ps (update_nth i (set_status s) es)). split; [|split].
  - unfold patch_order. io. rewrite H. cbn [negb].
    fold (payload req). rewrite get_payload. fold (new_status req). rewrite T.
    cbn [negb]. rewrite readOrders_eq, Hl. simpl get. rewrite Ha.
    unfold or_else. simpl array_elems. cbv beta iota.
    rewrite (findIndex_pure _ _ _ (has_id_orders (param_orderId req) es Hord)).
    rewrite Hidx. cbv beta iota. rewrite Hs. fold (set_status s).
    now rewrite (writeOrders_orders ps _ [] _ Hps).
  - rewrite stored_orders_saved. apply json_elem_fix.
    eapply Forall_impl; [|exact Hboth]. now intros o [_ Hj].
  - apply store_ok_saved; auto. apply forallb_forall. intros o Ho.
    rewrite Forall_forall in Hboth. now apply Hboth.
Qed.

Lemma delete_order_eq req fs :
  store_ok fs -> authorized req = Ok true ->
  let kept := keep_others (param_orderId req) (stored_orders fs) in
  if (List.length (stored_orders fs) =? List.length kept)%nat
  then DELETE_order req fs = (refuse 404 "Not found", ensured fs)
  else exists fs',
      DELETE_order req fs = (reply [("deleted", VNum 1)], fs') /\
      stored_orders fs' = kept /\ store_ok fs'.
Proof.
  intros Hok H kept.
  destruct (store_ok_loaded fs Hok) as (ps & es & Hl & Hps & Ha & Hord & Hes & Hst).
  subst kept. rewrite Hst.
  assert (Hrun : DELETE_order req fs =
    if (List.length es =? List.length (keep_others (param_orderId req) es))%nat
    then (refuse 404 "Not found", ensured fs)
    else (reply [("deleted", VNum 1)], saved ps (keep_others (param_orderId req) es))).
  { unfold delete_order. io. rewrite H. cbn [negb].
    rewrite readOrders_eq, Hl. simpl get. rewrite Ha. simpl array_elems.
    cbv beta iota.
    rewrite (filterM_pure _ _ _ (lacks_id_orders (param_orderId req) es Hord)).
    cbv beta iota. fold (keep_others (param_orderId req) es).
    destruct (_ =? _)%nat; [reflexivity|].
    now rewrite (writeOrders_orders ps _ [] _ Hps). }
  rewrite Hrun. destruct (_ =? _)%nat; [reflexivity|].
  eexists. split; [reflexivity|]. split.
  - rewrite stored_orders_saved. apply json_elem_fix. now apply filter_Forall.
  - apply store_ok_saved; auto. now apply filter_forallb.
Qed.

Lemma bulk_delete_no_ids req fs :
  authorized req = Ok true ->
  requested_ids NumberToString (req_body req) = Ok [] ->
  POST_bulk_delete req fs = (refuse 400 "orderIds required", fs).
Proof.
  intros H Hids. unfold bulk_delete. io. now rewrite H, Hids.
Qed.

Lemma bulk_delete_removes req fs ids :
  store_ok fs -> authorized req = Ok true ->
  requested_ids NumberToString (req_body req) = Ok ids -> ids <> [] ->
  let kept := keep_unlisted ids (stored_orders fs) in
  exists fs',
    POST_bulk_delete req fs =
      (reply [("deleted",
               VNum (float_of_nat (List.length (stored_orders fs) - List.length kept)))],
       fs') /\
    writeOrders (set_prop (loaded fs) "orders" (VArr kept [])) (ensured fs) =
      (Ok tt, fs') /\
    stored_orders fs' = kept /\ store_ok fs'.
Proof.
  intros Hok H Hids Hne kept.
  destruct (store_ok_loaded fs Hok) as (ps & es & Hl & Hps & Ha & Hord & Hes & Hst).
  subst kept. rewrite Hst, Hl.
  exists (saved ps (keep_unlisted ids es)). split; [|split; [|split]].
  - unfold bulk_delete. io. rewrite H, Hids. cbn [negb].
    destruct ids as [|id ids]; [contradiction|]. cbn [List.length Nat.eqb].
    rewrite readOrders_eq, Hl. simpl get. rewrite Ha. simpl array_elems.
    cbv beta iota.
    rewrite (filterM_pure _ _ _ (not_listed_orders (id :: ids) es Hord)).
    cbv beta iota. fold (keep_unlisted (id :: ids) es).
    now rewrite (writeOrders_orders ps _ [] _ Hps).
  - now apply writeOrders_orders.
  - rewrite stored_orders_saved. apply json_elem_fix. now apply filter_Forall.
  - apply store_ok_saved; auto. now apply filter_forallb.
Qed.

End Handlers.

(** * Properties of the order service *)

Lemma unambiguous_alphabet c : unambiguous c = true -> In c alphabet.
Proof.
  destruct c as [[] [] [] [] [] [] [] []]; intros H; try discriminate H;
    unfold alphabet; simpl; tauto.
Qed.

Lemma read_fields_area n2s s2n body f :
  read_fields n2s s2n body = Ok f ->
  exists a, text_field n2s body "area" = Ok a /\ areaRaw f = toLowerCase a.
Proof.
  unfold read_fields.
  repeat match goal with
         | |- context [rbind ?r _] =>
             lazymatch r with
             | text_field _ _ "area" => fail
             | _ => destruct r; cbn [rbind]; [|discriminate]
             end
         end.
  destruct (text_field n2s body "area") as [txt|]; cbn [rbind]; [|discriminate].
  intros [= <-]. eauto.
Qed.

Lemma area_of_cases areaRaw :
  (areaRaw = "dhaka" /\ area_of areaRaw = "dhaka") \/
  ((areaRaw = "outside" \/ areaRaw = "outside dhaka") /\ area_of areaRaw = "outside") \/
  (areaRaw <> "dhaka" /\ areaRaw <> "outside" /\ areaRaw <> "outside dhaka" /\
   area_of areaRaw = "").
Proof.
  unfold area_of.
  destruct (String.eqb_spec areaRaw "dhaka") as [->|H1]; [now left|].
  destruct (String.eqb_spec areaRaw "outside") as [->|H2]; [right; left; auto|].
  destruct (String.eqb_spec areaRaw "outside dhaka") as [->|H3];
    [right; left; auto|].
  right. right. auto.
Qed.

Lemma check_area f : check f = None -> area_of (areaRaw f) <> "".
Proof.
  unfold check.
  repeat match goal with
         | |- context [if ?b then _ else _] =>
             lazymatch b with
             | String.eqb (area_of _) _ => fail
             | _ => destruct b; [discriminate|]
             end
         end.
  destruct (String.eqb_spec (area_of (areaRaw f)) ""); [discriminate|auto].
Qed.

Lemma check_bad_area f :
  area_of (areaRaw f) = "" -> exists r, check f = Some r.
Proof.
  intros H. destruct (check f) eqn:C; [eauto|].
  apply check_area in C. contradiction.
Qed.

Lemma own_json_elem ps k x j :
  assoc ps k = Some x -> to_json x = Some j -> own (json_elem (VObj ps)) k = j.
Proof.
  intros Ha Hx. unfold json_elem. rewrite to_json_obj. unfold own.
  now rewrite (assoc_json_props ps k x j Ha Hx).
Qed.

Lemma finite_eqb_refl x : PrimFloat.is_finite x = true -> PrimFloat.eqb x x = true.
Proof.
  unfold PrimFloat.is_finite, PrimFloat.is_nan.
  destruct (PrimFloat.eqb x x); [reflexivity|]. simpl. discriminate.
Qed.

Lemma eqb_zero_sym x : PrimFloat.eqb x 0 = true -> PrimFloat.eqb 0 x = true.
Proof.
  rewrite !FloatAxioms.eqb_spec.
  destruct (Prim2SF x) as [s|s| |s m e]; try destruct s; vm_compute; auto.
Qed.

(** A finite number is written as a number equal to it, any other as null. *)
Lemma to_json_finite n :
  PrimFloat.is_finite n = true ->
  exists t, to_json (VNum n) = Some (VNum t) /\ PrimFloat.eqb t n = true.
Proof.
  intros Hf. simpl. rewrite Hf. destruct (PrimFloat.eqb n 0) eqn:Hz.
  - exists 0%float. split; [reflexivity|now apply eqb_zero_sym].
  - exists n. split; [reflexivity|now apply finite_eqb_refl].
Qed.

Lemma to_json_not_finite n :
  PrimFloat.is_finite n = false -> to_json (VNum n) = Some VNull.
Proof. intros Hf. simpl. now rewrite Hf. Qed.

(** ** Representable values *)

Lemma zero_or_negative_zero n :
  PrimFloat.eqb n 0 = true -> n = 0%float \/ is_negative_zero n = true.
Proof.
  unfold is_negative_zero.
  rewrite FloatAxioms.eqb_spec, FloatAxioms.classify_spec.
  change (Prim2SF 0) with (S754_zero false).
  destruct (Prim2SF n) as [sg|sg| |sg m e] eqn:E; try destruct sg; intros H;
    try discriminate H.
  - now right.
  - left. apply FloatAxioms.Prim2SF_inj. now rewrite E.
Qed.

Lemma negative_zero_equals_zero n :
  is_negative_zero n = true -> PrimFloat.eqb n 0 = true /\ n <> 0%float.
Proof.
  unfold is_negative_zero.
  rewrite FloatAxioms.eqb_spec, FloatAxioms.classify_spec.
  change (Prim2SF 0) with (S754_zero false).
  destruct (Prim2SF n) as [sg|sg| |sg m e] eqn:E; try destruct sg;
    unfold SF64classify, SFclassify;
    try destruct (Z.pos (digits2_pos m) =? prec)%Z; intros H;
    try discriminate H.
  split; [reflexivity|]. intros ->. discriminate E.
Qed.

(** A number is written as itself exactly when it is finite and not the
    negative zero. *)
Lemma json_ok_num n :
  json_ok (VNum n) <->
  PrimFloat.is_finite n = true /\ is_negative_zero n = false.
Proof.
  unfold json_ok. cbn [to_json]. split.
  - intros H. destruct (PrimFloat.is_finite n); [|discriminate H].
    split; [reflexivity|]. destruct (is_negative_zero n) eqn:Z; [|reflexivity].
    apply negative_zero_equals_zero in Z as [Z N]. rewrite Z in H.
    injection H as H. now contradiction N.
  - intros [-> Z]. destruct (PrimFloat.eqb n 0) eqn:E; [|reflexivity].
    destruct (zero_or_negative_zero n E) as [->|Z']; [reflexivity|congruence].
Qed.

(** The representable values are those the written text reads back as. *)
Lemma representable_json_ok v : representable v = true <-> json_ok v.
Proof.
  induction v as [| |b|n|s|es ps IHes _|ps IH] using value_nested_ind.
  - split; discriminate.
  - split; reflexivity.
  - split; reflexivity.
  - rewrite json_ok_num. cbn [representable].
    rewrite andb_true_iff, negb_true_iff. reflexivity.
  - split; reflexivity.
  - rewrite json_ok_arr. cbn [representable]. rewrite andb_true_iff, forallb_forall.
    rewrite Forall_forall in IHes. rewrite Forall_forall. split.
    + intros [He Hp]. destruct ps; [|discriminate]. split; [reflexivity|].
      intros e Hin. apply IHes; auto.
    + intros [-> He]. split; [|reflexivity]. intros e Hin. apply IHes; auto.
  - rewrite json_ok_obj. cbn [representable]. rewrite forallb_forall.
    rewrite Forall_forall in IH. rewrite Forall_forall. split.
    + intros H [k x] Hin. apply (IH (k, x) Hin). exact (H (k, x) Hin).
    + intros H [k x] Hin. apply (IH (k, x) Hin). exact (H (k, x) Hin).
Qed.

(** What is loaded after a collection document was saved: the text written
    for it, as it is. *)
Lemma load_saved_collection ps es aps :
  assoc ps "orders" = Some (VArr es aps) ->
  readOrders (mkfs (Some (Doc (VObj (json_props ps)))) None) =
    (Ok (VObj (json_props ps)), mkfs (Some (Doc (VObj (json_props ps)))) None) /\
  orders_of (VObj (json_props ps)) = map json_elem es.
Proof.
  intros Ha.
  assert (A : assoc (json_props ps) "orders" = Some (VArr (map json_elem es) [])).
  { apply (assoc_json_props ps "orders" (VArr es aps)); [exact Ha|reflexivity]. }
  split.
  - rewrite readOrders_eq. unfold loaded, ensured, recover, own. cbn.
    now rewrite A.
  - unfold orders_of, own. now rewrite A.
Qed.

Section Service.

Variable NumberToString : float -> string.
Variable StringToNumber : string -> float.

Abbreviation read := (read_fields NumberToString StringToNumber).
Abbreviation size_of := (fun body => optional_field NumberToString body "size").
Abbreviation POST_order := (post_order NumberToString StringToNumber).

(** C1 (as amended).  For every creation request whose payload passes all
    validation rules (and whose optional size converts to text), the response
    is 200 with an orderId made of [GG-] and exactly 10 characters of the
    alphabet [chars], which has 32 symbols, upper-case letters and digits
    without 0, O, 1 and I; on a document of the server the stored collection
    afterwards is the one before with the new order, carrying that orderId,
    in front. *)
Theorem create_returns_id_and_prepends rnd now req fs f size :
  read (payload req) = Ok f -> check f = None ->
  size_of (payload req) = Ok size ->
  (forall k, draw_ok (rnd k)) ->
  store_ok fs ->
  exists suffix order fs',
    POST_order rnd now req fs =
      (reply [("orderId", VStr ("GG-" ++ suffix))], fs') /\
    String.length suffix = 10%nat /\
    Forall (fun c => In c alphabet) (list_ascii_of_string suffix) /\
    List.length alphabet = 32%nat /\ NoDup alphabet /\
    forallb unambiguous alphabet = true /\
    stored_orders fs' = order :: stored_orders fs /\
    own order "orderId" = VStr ("GG-" ++ suffix).
Proof.
  intros H C S Hrnd Hok.
  destruct (makeOrderId_format rnd Hrnd) as (suffix & Hid & Hlen & Hall).
  destruct (post_order_prepends NumberToString StringToNumber rnd now req fs f size
              H C S Hok) as (fs' & Hrun & Hst & _).
  destruct alphabet_facts as (A1 & A2 & A3).
  exists suffix, (json_elem (make_order f (makeOrderId rnd) now size)), fs'.
  rewrite <- Hid. repeat split; auto.
Qed.

(** C2 (as amended).  For every order accepted and stored by the create
    operation: the area, trimmed and lower-cased, is [dhaka] and shipping is
    70, or it is [outside] or [outside dhaka] and shipping is 130; the order
    the handler adds in front of the collection it saves has
    total = qty * unitPrice + shipping, computed in binary64; in the stored
    document that order has the same shipping and, when the total is finite, a
    total equal to it, and [null] for a total when the product overflowed.  A
    payload with any other area is refused with a 400 validation error and
    nothing is stored. *)
Theorem create_shipping_and_total rnd now req fs res fs' :
  POST_order rnd now req fs = (res, fs') ->
  (status res = 200%nat ->
   exists f a order aps ship,
     read (payload req) = Ok f /\
     text_field NumberToString (payload req) "area" = Ok a /\
     areaRaw f = toLowerCase a /\
     writeOrders (set_prop (loaded fs) "orders" (VArr (order :: stored_orders fs) aps))
                 (ensured fs) = (Ok tt, fs') /\
     own order "qty" = VNum (qty f) /\
     own order "unitPrice" = VNum (unitPrice f) /\
     own order "shipping" = VNum ship /\
     own order "total" = VNum (qty f * unitPrice f + ship)%float /\
     ((toLowerCase a = "dhaka" /\ ship = 70%float /\ own order "area" = VStr "dhaka") \/
      ((toLowerCase a = "outside" \/ toLowerCase a = "outside dhaka") /\
       ship = 130%float /\ own order "area" = VStr "outside")) /\
     (store_ok fs ->
      exists stored,
        stored_orders fs' = stored :: stored_orders fs /\
        own stored "shipping" = VNum ship /\
        (PrimFloat.is_finite (qty f * unitPrice f + ship)%float = true ->
         exists t, own stored "total" = VNum t /\
                   PrimFloat.eqb t (qty f * unitPrice f + ship)%float = true) /\
        (PrimFloat.is_finite (qty f * unitPrice f + ship)%float = false ->
         own stored "total" = VNull))) /\
  (forall f,
     read (payload req) = Ok f ->
     areaRaw f <> "dhaka" -> areaRaw f <> "outside" -> areaRaw f <> "outside dhaka" ->
     status res = 400%nat /\ fs' = fs).
Proof.
  intros Hrun. split.
  - intros Hst.
    destruct (post_order_accepted _ _ _ _ _ _ _ _ Hrun Hst) as (f & size & H & C & S).
    destruct (read_fields_area _ _ _ _ H) as (a & Ha & Hraw).
    destruct (post_order_saves NumberToString StringToNumber rnd now req fs f size
                H C S) as (es & aps & j & Ho & Hj & Hrun').
    rewrite Hrun in Hrun'. injection Hrun' as _ ->.
    set (order := make_order f (makeOrderId rnd) now size) in *.
    set (ship := shipping_of (area_of (areaRaw f))).
    assert (Hship : ship = 70%float \/ ship = 130%float).
    { unfold ship, shipping_of. destruct (String.eqb _ "dhaka"); auto. }
    exists f, a, order, aps, ship.
    rewrite stored_orders_eq. unfold orders_of. rewrite Ho.
    rewrite (writeOrders_eq _ j _ Hj).
    split; [exact H|]. split; [exact Ha|]. split; [exact Hraw|].
    split; [reflexivity|]. split; [reflexivity|]. split; [reflexivity|].
    split; [reflexivity|]. split; [reflexivity|]. split.
    + rewrite <- Hraw.
      destruct (area_of_cases (areaRaw f)) as [[E1 E2]|[[E1 E2]|(_ & _ & _ & E)]].
      * left. subst order ship. unfold make_order. rewrite E2. simpl. auto.
      * right. subst order ship. unfold make_order. rewrite E2. simpl. auto.
      * apply check_area in C. contradiction.
    + intros Hok.
      destruct (post_order_prepends NumberToString StringToNumber rnd now req fs
                  f size H C S Hok) as (fs1 & Hrun1 & Hstored & _).
      rewrite Hrun in Hrun1. injection Hrun1 as _ Hfs. rewrite <- Hfs in Hstored.
      rewrite (stored_orders_eq fs) in Hstored. unfold orders_of in Hstored.
      rewrite Ho in Hstored. fold order in Hstored.
      exists (json_elem order). split; [|split; [|split]].
      * exact Hstored.
      * apply (own_json_elem _ "shipping" (VNum ship)); [reflexivity|].
        destruct Hship as [-> | ->]; reflexivity.
      * intros Hfin. destruct (to_json_finite _ Hfin) as (t & Ht & Heq).
        exists t. split; [|exact Heq].
        now apply (own_json_elem _ "total" (VNum (qty f * unitPrice f + ship)%float)).
      * intros Hinf.
        apply (own_json_elem _ "total" (VNum (qty f * unitPrice f + ship)%float));
          [reflexivity|now apply to_json_not_finite].
  - intros f H N1 N2 N3.
    destruct (area_of_cases (areaRaw f)) as [[E _]|[[[E|E] _]|(_ & _ & _ & E)]];
      try contradiction.
    destruct (check_bad_area f E) as [r C].
    rewrite (post_order_refuses _ _ _ _ _ _ f r H C) in Hrun.
    injection Hrun as <- <-. split; [now apply check_status in C|reflexivity].
Qed.

Variable ADMIN_TOKEN : option string.

Abbreviation authorized := (isAuthorized NumberToString ADMIN_TOKEN).
Abbreviation GET_orders := (get_orders NumberToString ADMIN_TOKEN).
Abbreviation PATCH_order := (patch_order NumberToString ADMIN_TOKEN).
Abbreviation DELETE_order := (delete_order NumberToString ADMIN_TOKEN).
Abbreviation POST_bulk_delete := (bulk_delete NumberToString ADMIN_TOKEN).

(** Case analysis on the innermost scrutinee first. *)
Ltac split_matches :=
  repeat (match goal with
          | |- context [match ?x with _ => _ end] =>
              lazymatch x with
              | context [match _ with _ => _ end] => fail
              | _ => destruct x
              end
          end; cbv beta iota).

Lemma authorized_passes req fs :
  authorized req = Ok true ->
  status (fst (PATCH_order req fs)) <> 401%nat /\
  status (fst (DELETE_order req fs)) <> 401%nat /\
  status (fst (POST_bulk_delete req fs)) <> 401%nat.
Proof.
  intros H. unfold patch_order, delete_order, bulk_delete. io. rewrite H.
  cbn [negb]. rewrite !readOrders_eq.
  repeat split; split_matches; simpl; discriminate.
Qed.

Lemma presented_header req h :
  x_admin_token req = Some h -> h <> "" -> presented NumberToString req = Ok h.
Proof.
  intros Hh Hne. unfold presented, or_else. rewrite Hh. simpl.
  destruct (String.eqb_spec h ""); [contradiction|]. simpl.
  destruct (String.eqb_spec h ""); [contradiction|reflexivity].
Qed.

Lemma presented_query req :
  x_admin_token req = None \/ x_admin_token req = Some "" ->
  presented NumberToString req =
    ToString NumberToString (or_else (query_token req) (VStr "")).
Proof. intros [H|H]; unfold presented; rewrite H; reflexivity. Qed.

(** C3 (as amended).  With no admin secret configured (unset, or empty once
    trimmed) every request passes the gate.  With a secret configured a
    request passes if and only if the token it presents, the x-admin-token
    header when that is not empty and the token query parameter otherwise,
    equals the secret after both are trimmed.  A request that passes gets the
    collection from the list operation and no 401 from update-status, delete
    and bulk-delete; a request that does not pass gets 401 with ok:false
    from all four and the files are untouched. *)
Theorem gate_compares_trimmed_token req fs t :
  presented NumberToString req = Ok t ->
  (forall h, x_admin_token req = Some h -> h <> "" -> t = h) /\
  (x_admin_token req = None \/ x_admin_token req = Some "" ->
   ToString NumberToString (or_else (query_token req) (VStr "")) = Ok t) /\
  (trim (secret ADMIN_TOKEN) = "" -> authorized req = Ok true) /\
  (trim (secret ADMIN_TOKEN) <> "" ->
   (trim t = trim (secret ADMIN_TOKEN) -> authorized req = Ok true) /\
   (trim t <> trim (secret ADMIN_TOKEN) -> authorized req = Ok false)) /\
  (authorized req = Ok true ->
   (exists aps, GET_orders req fs =
                  (reply [("orders", VArr (stored_orders fs) aps)], ensured fs)) /\
   status (fst (PATCH_order req fs)) <> 401%nat /\
   status (fst (DELETE_order req fs)) <> 401%nat /\
   status (fst (POST_bulk_delete req fs)) <> 401%nat) /\
  (authorized req = Ok false ->
   GET_orders req fs = (refuse 401 "Unauthorized", fs) /\
   PATCH_order req fs = (refuse 401 "Unauthorized", fs) /\
   DELETE_order req fs = (refuse 401 "Unauthorized", fs) /\
   POST_bulk_delete req fs = (refuse 401 "Unauthorized", fs)).
Proof.
  intros Ht.
  assert (Hauth : authorized req =
            Ok (String.eqb (trim (secret ADMIN_TOKEN)) ""
                || String.eqb (trim t) (trim (secret ADMIN_TOKEN)))).
  { rewrite isAuthorized_eq, Ht. reflexivity. }
  split; [|split; [|split; [|split; [|split]]]].
  - intros h Hh Hne. rewrite (presented_header req h Hh Hne) in Ht. congruence.
  - intros Hh. now rewrite <- presented_query.
  - intros E. rewrite Hauth, E. reflexivity.
  - intros Hne. rewrite Hauth.
    destruct (String.eqb_spec (trim (secret ADMIN_TOKEN)) ""); [contradiction|].
    simpl. split; intros E.
    + rewrite E, String.eqb_refl. reflexivity.
    + destruct (String.eqb_spec (trim t) (trim (secret ADMIN_TOKEN)));
        [contradiction|reflexivity].
  - intros H. split; [now apply get_orders_lists|now apply authorized_passes].
  - apply unauthorized.
Qed.

(** C10 (as amended).  The gate trims both the configured secret and the
    presented token before comparing them.  A secret of white space only
    behaves exactly as no secret, on the gate and on the four gated
    operations, so that every request whose token has a text passes.  With a
    secret that is not empty once trimmed, a request passes exactly when the
    token it presents equals the secret once both are trimmed: such a token is
    accepted and every other one is turned away.  A token without a text makes
    the gate throw, with a secret, with a blank one and with none. *)
Theorem gate_trims_secret_and_token req s :
  (trim s = "" ->
   isAuthorized NumberToString (Some s) req = isAuthorized NumberToString None req /\
   (forall fs,
      get_orders NumberToString (Some s) req fs = get_orders NumberToString None req fs /\
      patch_order NumberToString (Some s) req fs = patch_order NumberToString None req fs /\
      delete_order NumberToString (Some s) req fs = delete_order NumberToString None req fs /\
      bulk_delete NumberToString (Some s) req fs = bulk_delete NumberToString None req fs) /\
   (forall t, presented NumberToString req = Ok t ->
              isAuthorized NumberToString (Some s) req = Ok true)) /\
  (forall t, presented NumberToString req = Ok t -> trim t = trim s ->
             isAuthorized NumberToString (Some s) req = Ok true) /\
  (forall t, presented NumberToString req = Ok t ->
             trim s <> "" -> trim t <> trim s ->
             isAuthorized NumberToString (Some s) req = Ok false) /\
  (forall e, presented NumberToString req = Throw e ->
             isAuthorized NumberToString (Some s) req = Throw e /\
             isAuthorized NumberToString None req = Throw e /\
             forall fs,
               get_orders NumberToString (Some s) req fs =
                 (refuse 500 "Server error", fs)).
Proof.
  split; [|split; [|split]].
  - intros Hs.
    assert (E : isAuthorized NumberToString (Some s) req =
                isAuthorized NumberToString None req).
    { rewrite !isAuthorized_eq. simpl secret. rewrite Hs.
      now destruct (presented NumberToString req). }
    split; [exact E|]. split.
    + intros fs. unfold get_orders, patch_order, delete_order, bulk_delete.
      rewrite E. auto.
    + intros t Ht. rewrite isAuthorized_eq, Ht. simpl. now rewrite Hs.
  - intros t Ht E. rewrite isAuthorized_eq, Ht. simpl.
    rewrite E, String.eqb_refl. apply f_equal, orb_true_r.
  - intros t Ht Hs Hne. rewrite isAuthorized_eq, Ht. simpl.
    destruct (String.eqb_spec (trim s) ""); [contradiction|].
    destruct (String.eqb_spec (trim t) (trim s)); [contradiction|reflexivity].
  - intros e He.
    assert (E : forall tok, isAuthorized NumberToString tok req = Throw e).
    { intros tok. now rewrite isAuthorized_eq, He. }
    split; [apply E|]. split; [apply E|].
    intros fs. now destruct (gate_throws NumberToString (Some s) req fs e (E _)).
Qed.

(** C4.  The load operation is total and never throws: whatever the files
    hold it returns a document whose [orders] is an array.  With no document
    it first writes the empty collection and returns it; for unparsable text,
    for a value that is not an object, and for an object whose [orders] is
    not an array, the orders it returns are empty. *)
Theorem load_is_total fs :
  exists db es aps,
    readOrders fs =
      (Ok db, match data_file fs with
              | Some _ => fs
              | None => mkfs (Some (Doc empty_db)) (tmp_file fs)
              end) /\
    own db "orders" = VArr es aps /\
    (data_file fs = None -> db = empty_db /\ es = []) /\
    (data_file fs = Some Corrupt -> db = empty_db /\ es = []) /\
    (forall v, data_file fs = Some (Doc v) ->
               truthy v = false \/ typeof_object v = false ->
               db = empty_db /\ es = []) /\
    (forall v, data_file fs = Some (Doc v) ->
               truthy v = true -> typeof_object v = true ->
               isArray (own v "orders") = false ->
               db = set_prop v "orders" (VArr [] []) /\ es = []) /\
    (forall v, data_file fs = Some (Doc v) ->
               truthy v = true -> typeof_object v = true ->
               isArray (own v "orders") = true ->
               db = v).
Proof.
  destruct (loaded_orders fs) as (es & aps & Ho).
  exists (loaded fs), es, aps. rewrite readOrders_eq. unfold ensured.
  split; [reflexivity|]. split; [exact Ho|].
  unfold loaded in *.
  split; [|split; [|split; [|split]]].
  - intros E. rewrite E in *. split; [reflexivity|]. now injection Ho as <- _.
  - intros E. rewrite E in *. split; [reflexivity|]. now injection Ho as <- _.
  - intros v E Hv. rewrite E in *. simpl in *.
    assert (T : negb (truthy v) || negb (typeof_object v) = true)
      by (destruct Hv as [-> | ->]; auto using orb_true_r).
    rewrite T in *. split; [reflexivity|]. now injection Ho as <- _.
  - intros v E T1 T2 A. rewrite E in *. simpl in *.
    rewrite T1, T2, A in *. simpl in *. split; [reflexivity|].
    rewrite own_set_same in Ho; [now injection Ho as <- _|].
    apply truthy_object. now rewrite T1, T2.
  - intros v E T1 T2 A. rewrite E. simpl. now rewrite T1, T2, A.
Qed.

(** C5 (as amended).  For every collection document, an object with an
    [orders] array, the save succeeds and the next load returns a document
    without touching the files; that document is identical to the one saved,
    with the same orders in the same sequence with the same fields and
    values, exactly when the saved one is representable in JSON: it holds no
    undefined, its numbers are finite and not the negative zero, and its
    arrays have no named property. *)
Theorem save_then_load db fs ps :
  db = VObj ps -> isArray (own db "orders") = true ->
  exists fs1 db1,
    writeOrders db fs = (Ok tt, fs1) /\
    readOrders fs1 = (Ok db1, fs1) /\
    stored_orders fs1 = orders_of db1 /\
    (representable db = true -> db1 = db /\ stored_orders fs1 = orders_of db) /\
    (db1 = db -> representable db = true).
Proof.
  intros -> A.
  destruct (assoc ps "orders") as [[| | | | |es aps|]|] eqn:Ha;
    unfold own in A; rewrite Ha in A; try discriminate A.
  destruct (load_saved_collection ps es aps Ha) as [R Ho].
  exists (mkfs (Some (Doc (VObj (json_props ps)))) None), (VObj (json_props ps)).
  assert (S : stored_orders (mkfs (Some (Doc (VObj (json_props ps)))) None) =
              orders_of (VObj (json_props ps))).
  { unfold stored_orders. now rewrite R. }
  split; [apply writeOrders_eq, to_json_obj|]. split; [exact R|].
  split; [exact S|]. split.
  - intros Hr. apply representable_json_ok in Hr. unfold json_ok in Hr.
    rewrite to_json_obj in Hr. injection Hr as Hr. rewrite S, Hr. auto.
  - intros E. apply representable_json_ok. unfold json_ok.
    now rewrite to_json_obj, E.
Qed.

Abbreviation String_ := (ToString NumberToString).

Lemma store_ok_ensured fs : store_ok fs -> store_ok (ensured fs).
Proof.
  unfold store_ok, ensured. destruct (data_file fs) eqn:E; [now rewrite E|].
  intros _. simpl. repeat split.
Qed.

Lemma order_ids_ensured fs : order_ids (ensured fs) = order_ids fs.
Proof. unfold order_ids. now rewrite stored_orders_ensured. Qed.

Lemma first_index_none g l :
  first_index g l = None <-> (forall o, In o l -> g o = false).
Proof.
  induction l as [|o l IH]; simpl.
  - split; [intros _ o []|reflexivity].
  - destruct (g o) eqn:E.
    + split; [discriminate|]. intros H. rewrite (H o) in E by now left. discriminate.
    + destruct (first_index g l) as [i|]; simpl.
      * split; [discriminate|]. intros H.
        assert (Some i = None) by (apply IH; intros; apply H; now right).
        discriminate.
      * split; [|reflexivity]. intros _ o' [<-|Hin]; [exact E|].
        now apply IH.
Qed.

Lemma first_index_some g l i :
  first_index g l = Some i ->
  exists o, nth_error l i = Some o /\ g o = true /\
            forall j o', (j < i)%nat -> nth_error l j = Some o' -> g o' = false.
Proof.
  revert i. induction l as [|o l IH]; simpl; [discriminate|].
  intros i. destruct (g o) eqn:E.
  - intros [= <-]. exists o. repeat split; auto. intros j o' Hj. lia.
  - destruct (first_index g l) as [i'|]; simpl; [|discriminate].
    intros [= <-]. destruct (IH i' eq_refl) as (x & Hx & Hg & Hbefore).
    exists x. repeat split; auto.
    intros [|j] o' Hj; simpl; [now intros [= <-]|].
    apply Hbefore. lia.
Qed.

Lemma update_nth_length i f l : List.length (update_nth i f l) = List.length l.
Proof.
  revert i. induction l as [|o l IH]; intros [|i]; simpl; auto.
Qed.

Lemma update_nth_same i f l o :
  nth_error l i = Some o -> nth_error (update_nth i f l) i = Some (f o).
Proof.
  revert i. induction l as [|x l IH]; intros [|i]; simpl; try discriminate.
  - now intros [= ->].
  - apply IH.
Qed.

Lemma update_nth_other i j f l :
  i <> j -> nth_error (update_nth i f l) j = nth_error l j.
Proof.
  revert i j. induction l as [|x l IH]; intros [|i] [|j] H; simpl; auto.
  - congruence.
Qed.

Lemma update_nth_ids i s l :
  map (fun o => own o "orderId") (update_nth i (set_status s) l) =
  map (fun o => own o "orderId") l.
Proof.
  revert i. induction l as [|x l IH]; intros [|i]; simpl; auto.
  - f_equal. unfold set_status. apply own_set_other. discriminate.
  - now rewrite IH.
Qed.

Lemma NoDup_map_filter (h : value -> value) g l :
  NoDup (map h l) -> NoDup (map h (filter g l)).
Proof.
  induction l as [|o l IH]; simpl; [auto|].
  intros H. inversion H as [|? ? Hnin Hnd]; subst.
  destruct (g o); simpl; [|auto].
  constructor; [|auto]. intros Hin. apply Hnin.
  apply in_map_iff in Hin as (x & Hx & Hin). apply filter_In in Hin as [Hin _].
  apply in_map_iff. eauto.
Qed.

Lemma patch_order_status_throws req fs i e :
  store_ok fs -> authorized req = Ok true -> truthy (new_status req) = true ->
  first_index (id_is (param_orderId req)) (stored_orders fs) = Some i ->
  String_ (new_status req) = Throw e ->
  PATCH_order req fs = (refuse 500 "Server error", ensured fs).
Proof.
  intros Hok H T Hidx Hs.
  destruct (store_ok_loaded fs Hok) as (ps & es & Hl & Hps & Ha & Hord & Hes & Hst).
  rewrite Hst in Hidx.
  unfold patch_order. io. rewrite H. cbn [negb].
  fold (payload req). rewrite get_payload. fold (new_status req). rewrite T.
  cbn [negb]. rewrite readOrders_eq, Hl. simpl get. rewrite Ha.
  unfold or_else. simpl array_elems. cbv beta iota.
  rewrite (findIndex_pure _ _ _ (has_id_orders (param_orderId req) es Hord)).
  rewrite Hidx. cbv beta iota. now rewrite Hs.
Qed.

Lemma bulk_delete_ids_throw req fs e :
  authorized req = Ok true ->
  requested_ids NumberToString (req_body req) = Throw e ->
  POST_bulk_delete req fs = (refuse 500 "Server error", fs).
Proof.
  intros H Hids. unfold bulk_delete. io. now rewrite H, Hids.
Qed.

(** What each administrative operation leaves in the store. *)
Lemma patch_order_store req fs :
  store_ok fs ->
  store_ok (snd (PATCH_order req fs)) /\
  order_ids (snd (PATCH_order req fs)) = order_ids fs.
Proof.
  intros Hok.
  destruct (authorized req) as [[|]|e] eqn:H.
  2:{ destruct (unauthorized _ _ req fs H) as (_ & -> & _). auto. }
  2:{ destruct (gate_throws _ _ req fs e H) as (_ & -> & _). auto. }
  destruct (truthy (new_status req)) eqn:T.
  2:{ rewrite (patch_order_missing_status _ _ req fs H T). auto. }
  destruct (first_index (id_is (param_orderId req)) (stored_orders fs)) as [i|] eqn:I.
  2:{ rewrite (patch_order_not_found _ _ req fs Hok H T I). simpl.
      split; [now apply store_ok_ensured|apply order_ids_ensured]. }
  destruct (String_ (new_status req)) as [s|e] eqn:S.
  2:{ rewrite (patch_order_status_throws req fs i e Hok H T I S). simpl.
      split; [now apply store_ok_ensured|apply order_ids_ensured]. }
  destruct (patch_order_updates _ _ req fs i s Hok H T I S) as (fs' & -> & Hst & Hok').
  simpl. split; [exact Hok'|]. unfold order_ids. rewrite Hst. apply update_nth_ids.
Qed.

Lemma delete_order_store req fs :
  store_ok fs ->
  store_ok (snd (DELETE_order req fs)) /\
  (stored_orders (snd (DELETE_order req fs)) = stored_orders fs \/
   stored_orders (snd (DELETE_order req fs)) =
     keep_others (param_orderId req) (stored_orders fs)).
Proof.
  intros Hok.
  destruct (authorized req) as [[|]|e] eqn:H.
  2:{ destruct (unauthorized _ _ req fs H) as (_ & _ & -> & _). auto. }
  2:{ destruct (gate_throws _ _ req fs e H) as (_ & _ & -> & _). auto. }
  pose proof (delete_order_eq _ _ req fs Hok H) as D. cbv zeta in D.
  destruct (_ =? _)%nat.
  - rewrite D. simpl. split; [now apply store_ok_ensured|].
    left. apply stored_orders_ensured.
  - destruct D as (fs' & -> & Hst & Hok'). simpl. auto.
Qed.

Lemma bulk_delete_store req fs :
  store_ok fs ->
  store_ok (snd (POST_bulk_delete req fs)) /\
  (stored_orders (snd (POST_bulk_delete req fs)) = stored_orders fs \/
   exists ids, stored_orders (snd (POST_bulk_delete req fs)) =
                 keep_unlisted ids (stored_orders fs)).
Proof.
  intros Hok.
  destruct (authorized req) as [[|]|e] eqn:H.
  2:{ destruct (unauthorized _ _ req fs H) as (_ & _ & _ & ->). auto. }
  2:{ destruct (gate_throws _ _ req fs e H) as (_ & _ & _ & ->). auto. }
  destruct (requested_ids NumberToString (req_body req)) as [ids|e] eqn:R.
  2:{ rewrite (bulk_delete_ids_throw req fs e H R). auto. }
  destruct ids as [|id ids].
  { rewrite (bulk_delete_no_ids _ _ req fs H R). auto. }
  destruct (bulk_delete_removes _ _ req fs (id :: ids) Hok H R)
    as (fs' & -> & _ & Hst & Hok'); [discriminate|].
  simpl. split; [exact Hok'|]. right. eauto.
Qed.

(** The documents of the server are an invariant of the five operations;
    a directory without the file is one of them. *)
Lemma store_ok_preserved req rnd now fs :
  store_ok fs ->
  store_ok (snd (POST_order rnd now req fs)) /\
  store_ok (snd (GET_orders req fs)) /\
  store_ok (snd (PATCH_order req fs)) /\
  store_ok (snd (DELETE_order req fs)) /\
  store_ok (snd (POST_bulk_delete req fs)).
Proof.
  intros Hok. split; [|split; [|split; [|split]]].
  - destruct (read (payload req)) as [f|e] eqn:H.
    2:{ now rewrite (post_order_throws _ _ _ _ _ _ e H). }
    destruct (check f) as [r|] eqn:C.
    { now rewrite (post_order_refuses _ _ _ _ _ _ f r H C). }
    destruct (size_of (payload req)) as [size|e] eqn:S.
    2:{ now rewrite (post_order_size_throws _ _ _ _ _ _ f e H C S). }
    destruct (post_order_prepends NumberToString StringToNumber rnd now req fs
                f size H C S Hok) as (fs1 & -> & _ & Hok1).
    exact Hok1.
  - destruct (authorized req) as [[|]|e] eqn:H.
    + destruct (get_orders_lists _ _ req fs H) as [aps ->].
      now apply store_ok_ensured.
    + destruct (unauthorized _ _ req fs H) as (-> & _). exact Hok.
    + destruct (gate_throws _ _ req fs e H) as (-> & _). exact Hok.
  - now apply patch_order_store.
  - now apply delete_order_store.
  - now apply bulk_delete_store.
Qed.

(** C6 (as amended).  Starting from a collection of the server whose
    orderIds are pairwise distinct, update-status, delete and bulk-delete leave
    them pairwise distinct.  Create puts the generated orderId in front of the
    others without comparing it with them: the orderIds stay pairwise distinct
    exactly when the generated one is not among them. *)
Theorem order_ids_stay_distinct req fs :
  store_ok fs -> NoDup (order_ids fs) ->
  NoDup (order_ids (snd (PATCH_order req fs))) /\
  NoDup (order_ids (snd (DELETE_order req fs))) /\
  NoDup (order_ids (snd (POST_bulk_delete req fs))) /\
  (forall rnd now res fs',
     POST_order rnd now req fs = (res, fs') ->
     (status res <> 200%nat -> fs' = fs) /\
     (status res = 200%nat ->
      order_ids fs' = VStr (makeOrderId rnd) :: order_ids fs /\
      (NoDup (order_ids fs') <-> ~ In (VStr (makeOrderId rnd)) (order_ids fs)))).
Proof.
  intros Hok Hnd. split; [|split; [|split]].
  - destruct (patch_order_store req fs Hok) as [_ ->]. exact Hnd.
  - destruct (delete_order_store req fs Hok) as [_ [E|E]]; unfold order_ids;
      rewrite E; [exact Hnd|]. now apply NoDup_map_filter.
  - destruct (bulk_delete_store req fs Hok) as [_ [E|[ids E]]]; unfold order_ids;
      rewrite E; [exact Hnd|]. now apply NoDup_map_filter.
  - intros rnd now res fs' Hrun. split.
    + intros Hst.
      destruct (read (payload req)) as [f|e] eqn:H.
      2:{ rewrite (post_order_throws _ _ _ _ _ _ e H) in Hrun. congruence. }
      destruct (check f) as [r|] eqn:C.
      { rewrite (post_order_refuses _ _ _ _ _ _ f r H C) in Hrun. congruence. }
      destruct (size_of (payload req)) as [size|e] eqn:S.
      2:{ rewrite (post_order_size_throws _ _ _ _ _ _ f e H C S) in Hrun.
          congruence. }
      destruct (post_order_saves NumberToString StringToNumber rnd now req fs f size
                  H C S) as (es & aps & j & _ & _ & Hrun').
      rewrite Hrun in Hrun'. injection Hrun' as -> _. contradiction Hst. reflexivity.
    + intros Hst.
      destruct (post_order_accepted _ _ _ _ _ _ _ _ Hrun Hst) as (f & size & H & C & S).
      destruct (post_order_prepends NumberToString StringToNumber rnd now req fs
                  f size H C S Hok) as (fs1 & Hrun' & Hstored & _).
      rewrite Hrun in Hrun'. injection Hrun' as _ ->.
      assert (E : order_ids fs1 = VStr (makeOrderId rnd) :: order_ids fs).
      { unfold order_ids. rewrite Hstored. reflexivity. }
      split; [exact E|]. rewrite E. split.
      * intros N. now inversion N.
      * intros N. now constructor.
Qed.

(** C7 (as amended).  For every authorized update-status request on a
    collection of the server: a status that is missing or falsy (empty, null,
    zero, false) gets 400 and the files are unchanged; otherwise, when no
    order has the given orderId the answer is 404 and the stored collection is
    unchanged; otherwise, when the status has a text, the first order with
    that orderId gets that text for a status, its other fields are unchanged,
    and every other order of the collection is unchanged; and when the status
    has no text the answer is 500 and the stored collection is unchanged. *)
Theorem update_status_frame req fs res fs' :
  store_ok fs -> authorized req = Ok true ->
  PATCH_order req fs = (res, fs') ->
  (truthy (new_status req) = false ->
   res = refuse 400 "Missing status" /\ fs' = fs) /\
  (truthy (new_status req) = true ->
   (forall o, In o (stored_orders fs) -> id_of o <> param_orderId req) ->
   res = refuse 404 "Not found" /\
   stored_orders fs' = stored_orders fs /\
   (data_file fs <> None -> fs' = fs)) /\
  (truthy (new_status req) = true ->
   forall s, String_ (new_status req) = Ok s ->
   (exists o, In o (stored_orders fs) /\ id_of o = param_orderId req) ->
   exists i o,
     nth_error (stored_orders fs) i = Some o /\
     id_of o = param_orderId req /\
     (forall j o', (j < i)%nat -> nth_error (stored_orders fs) j = Some o' ->
                   id_of o' <> param_orderId req) /\
     res = reply [] /\
     List.length (stored_orders fs') = List.length (stored_orders fs) /\
     nth_error (stored_orders fs') i = Some (set_prop o "status" (VStr s)) /\
     own (set_prop o "status" (VStr s)) "status" = VStr s /\
     (forall k, k <> "status" -> own (set_prop o "status" (VStr s)) k = own o k) /\
     (forall j, j <> i ->
                nth_error (stored_orders fs') j = nth_error (stored_orders fs) j)) /\
  (truthy (new_status req) = true ->
   forall e, String_ (new_status req) = Throw e ->
   (exists o, In o (stored_orders fs) /\ id_of o = param_orderId req) ->
   res = refuse 500 "Server error" /\
   stored_orders fs' = stored_orders fs /\
   (data_file fs <> None -> fs' = fs)).
Proof.
  intros Hok H Hrun. split; [|split; [|split]].
  - intros T. rewrite (patch_order_missing_status _ _ req fs H T) in Hrun.
    now injection Hrun as <- <-.
  - intros T Hnone.
    assert (I : first_index (id_is (param_orderId req)) (stored_orders fs) = None).
    { apply first_index_none. intros o Ho. unfold id_is.
      destruct (String.eqb_spec (id_of o) (param_orderId req)); [|reflexivity].
      now apply Hnone in Ho. }
    rewrite (patch_order_not_found _ _ req fs Hok H T I) in Hrun.
    injection Hrun as <- <-. split; [reflexivity|].
    split; [apply stored_orders_ensured|].
    intros Hf. unfold ensured. destruct (data_file fs); [reflexivity|contradiction].
  - intros T s Hs (x & Hx & Hid).
    destruct (first_index (id_is (param_orderId req)) (stored_orders fs))
      as [i|] eqn:I.
    2:{ rewrite first_index_none in I. specialize (I x Hx). unfold id_is in I.
        rewrite Hid, String.eqb_refl in I. discriminate. }
    destruct (first_index_some _ _ _ I) as (o & Hnth & Hg & Hbefore).
    destruct (patch_order_updates _ _ req fs i s Hok H T I Hs)
      as (fs1 & Hrun' & Hst & _).
    rewrite Hrun in Hrun'. injection Hrun' as -> ->.
    destruct (store_ok_loaded fs Hok) as (ps & es & _ & _ & _ & Hord & _ & Hes).
    assert (Ho : is_order o = true).
    { rewrite forallb_forall in Hord. apply Hord. rewrite <- Hes.
      eapply nth_error_In; eauto. }
    exists i, o. rewrite Hst. unfold id_is in *.
    split; [exact Hnth|]. split; [now apply String.eqb_eq|].
    split.
    { intros j o' Hj Hj'. specialize (Hbefore j o' Hj Hj').
      now apply String.eqb_neq. }
    split; [reflexivity|]. split; [apply update_nth_length|].
    split; [now apply (update_nth_same i (set_status s))|].
    split.
    { apply own_set_same. destruct o; try discriminate. eauto. }
    split.
    { intros k Hk. apply own_set_other. congruence. }
    intros j Hj. apply update_nth_other. congruence.
  - intros T e He (x & Hx & Hid).
    destruct (first_index (id_is (param_orderId req)) (stored_orders fs))
      as [i|] eqn:I.
    2:{ rewrite first_index_none in I. specialize (I x Hx). unfold id_is in I.
        rewrite Hid, String.eqb_refl in I. discriminate. }
    rewrite (patch_order_status_throws req fs i e Hok H T I He) in Hrun.
    injection Hrun as <- <-. split; [reflexivity|].
    split; [apply stored_orders_ensured|].
    intros Hf. unfold ensured. destruct (data_file fs); [reflexivity|contradiction].
Qed.

Lemma requested_ids_eq body :
  requested_ids NumberToString body =
  match own body "orderIds" with
  | VArr xs _ => mapM String_ xs
  | _ => Ok []
  end.
Proof. destruct body; reflexivity. Qed.

Lemma removed_count (g : value -> bool) l :
  (List.length l - List.length (filter (fun o => negb (g o)) l))%nat =
  List.length (filter g l).
Proof.
  induction l as [|o l IH]; [reflexivity|].
  assert (L : (List.length (filter (fun o => negb (g o)) l) <= List.length l)%nat)
    by apply filter_length_le.
  cbn [filter]. destruct (g o); cbn [negb List.length]; lia.
Qed.

Lemma Set_has_In ids s : Set_has ids s = true <-> In s ids.
Proof.
  unfold Set_has. rewrite existsb_exists. split.
  - intros (x & Hx & E). apply String.eqb_eq in E. now subst.
  - intros H. exists s. split; [exact H|apply String.eqb_refl].
Qed.

Lemma mapM_length {B} (f : value -> result B) xs : forall ys,
  mapM f xs = Ok ys -> List.length ys = List.length xs.
Proof.
  induction xs as [|x xs IH]; simpl; intros ys H.
  - now injection H as <-.
  - destruct (f x) as [y|]; [|discriminate]. simpl in H.
    destruct (mapM f xs) as [r|]; [|discriminate]. simpl in H.
    injection H as <-. simpl. f_equal. now apply IH.
Qed.

(** C8 (as amended).  For every authorized bulk-delete request on a
    collection of the server: when [orderIds] is not an array (absent, or a
    string, a number, an object) or is an empty array the answer is 400 and
    the files are unchanged; when it is an array with an element that has no
    text the answer is 500 and the files are unchanged; otherwise every order
    whose orderId is the text of one of the elements is removed and the others
    are kept in their order, by one save of the loaded document, and the
    answer is 200 with [deleted] the number of orders removed, which may be
    zero: identifiers that no order has are ignored. *)
Theorem bulk_delete_removes_listed req fs res fs' :
  store_ok fs -> authorized req = Ok true ->
  POST_bulk_delete req fs = (res, fs') ->
  (isArray (own (req_body req) "orderIds") = false \/
   (exists aps, own (req_body req) "orderIds" = VArr [] aps) ->
   res = refuse 400 "orderIds required" /\ fs' = fs) /\
  (forall xs aps e,
     own (req_body req) "orderIds" = VArr xs aps ->
     mapM String_ xs = Throw e ->
     res = refuse 500 "Server error" /\ fs' = fs) /\
  (forall xs aps ids,
     own (req_body req) "orderIds" = VArr xs aps ->
     mapM String_ xs = Ok ids -> xs <> [] ->
     res = reply [("deleted",
                   VNum (float_of_nat
                           (List.length (filter (id_listed ids) (stored_orders fs)))))] /\
     stored_orders fs' =
       filter (fun o => negb (id_listed ids o)) (stored_orders fs) /\
     (forall o, In o (stored_orders fs') <->
                In o (stored_orders fs) /\ ~ In (id_of o) ids) /\
     writeOrders (set_prop (loaded fs) "orders" (VArr (stored_orders fs') []))
                 (ensured fs) = (Ok tt, fs')).
Proof.
  intros Hok H Hrun. split; [|split].
  - intros Habs.
    assert (R : requested_ids NumberToString (req_body req) = Ok []).
    { rewrite requested_ids_eq. destruct Habs as [Hn | [aps ->]]; [|reflexivity].
      destruct (own (req_body req) "orderIds"); try reflexivity. discriminate. }
    rewrite (bulk_delete_no_ids _ _ req fs H R) in Hrun. now injection Hrun as <- <-.
  - intros xs aps e Hown Hmap.
    assert (R : requested_ids NumberToString (req_body req) = Throw e).
    { rewrite requested_ids_eq, Hown. exact Hmap. }
    rewrite (bulk_delete_ids_throw req fs e H R) in Hrun. now injection Hrun as <- <-.
  - intros xs aps ids Hown Hmap Hxs.
    assert (Hne : ids <> []).
    { intros ->. apply mapM_length in Hmap. destruct xs; [contradiction|discriminate]. }
    assert (R : requested_ids NumberToString (req_body req) = Ok ids).
    { rewrite requested_ids_eq, Hown. exact Hmap. }
    destruct (bulk_delete_removes _ _ req fs ids Hok H R Hne)
      as (fs1 & Hrun' & Hw & Hst & _).
    rewrite Hrun in Hrun'. injection Hrun' as -> ->.
    unfold keep_unlisted in *. rewrite removed_count. rewrite Hst.
    split; [reflexivity|]. split; [reflexivity|]. split; [|exact Hw].
    intros o. rewrite filter_In. unfold id_listed.
    rewrite negb_true_iff, <- not_true_iff_false, Set_has_In. reflexivity.
Qed.

Lemma NoDup_map_VStr l : NoDup l -> NoDup (map VStr l).
Proof.
  induction 1 as [|s l Hnin _ IH]; simpl; constructor; [|exact IH].
  intros Hin. apply in_map_iff in Hin as (x & [= ->] & Hx). contradiction.
Qed.

(** *** Simultaneous requests *)

Abbreviation creating := (Steps.creating NumberToString StringToNumber).
Abbreviation order_id := (fun o => own o "orderId").
Abbreviation generated := (fun c => VStr (makeOrderId (draws c))).

(** A turn of the event loop that starts with a load. *)
Lemma run_readOrders (k : value -> Steps.task (result response)) h fs :
  Steps.run_until_await (Steps.try_catch (Steps.bind Steps.readOrders k) h) fs =
  Steps.run_until_await (Steps.try_catch (k (loaded fs)) h) (ensured fs).
Proof.
  unfold loaded, ensured. destruct fs as [[c|] t]; cbn.
  - destruct c as [|v]; cbn; [reflexivity|].
    destruct (negb (truthy v) || negb (typeof_object v)); cbn; [reflexivity|].
    now destruct (negb (isArray (own v "orders"))).
  - reflexivity.
Qed.

Lemma run_writeOrders db j (k : unit -> Steps.task (result response)) h fs :
  to_json db = Some j ->
  Steps.run_until_await (Steps.try_catch (Steps.bind (Steps.writeOrders db) k) h) fs =
  Steps.run_until_await (Steps.try_catch (k tt) h) (mkfs (Some (Doc j)) None).
Proof.
  intros Hj. unfold Steps.writeOrders, JSON_stringify. rewrite Hj.
  destruct fs as [d t]. reflexivity.
Qed.

(** The handler has no point where it hands control back: a turn of the
    event loop takes the task of a creation request from its first call to
    its answer, and does to the files what the handler does. *)
Lemma run_creating c fs :
  Steps.run_until_await (creating c) fs =
  (Steps.Return (fst (POST_order (draws c) (time c) (submitted c) fs)),
   snd (POST_order (draws c) (time c) (submitted c) fs)).
Proof.
  unfold Steps.creating, Steps.post_order. fold (payload (submitted c)).
  destruct (read (payload (submitted c))) as [f|e] eqn:H.
  2:{ now rewrite (post_order_throws _ _ _ _ _ _ e H). }
  cbn [Steps.lift Steps.bind].
  destruct (check f) as [r|] eqn:C.
  { now rewrite (post_order_refuses _ _ _ _ _ _ f r H C). }
  destruct (size_of (payload (submitted c))) as [size|e] eqn:S.
  2:{ now rewrite (post_order_size_throws _ _ _ _ _ _ f e H C S). }
  cbn [Steps.lift Steps.bind].
  destruct (post_order_saves NumberToString StringToNumber (draws c) (time c)
              (submitted c) fs f size H C S) as (es & aps & j & Ho & Hj & ->).
  rewrite run_readOrders. unfold unshift.
  rewrite get_loaded_orders, Ho. cbn [rbind].
  now rewrite (run_writeOrders _ j _ _ _ Hj).
Qed.

Lemma creating_not_answered c : answered_200 (creating c) = false.
Proof.
  unfold Steps.creating, Steps.post_order.
  destruct (read_fields _ _ _) as [f|e]; [|reflexivity].
  cbn [Steps.lift Steps.bind].
  destruct (check f) as [r|] eqn:C.
  { apply check_status in C. cbn. now rewrite C. }
  now destruct (optional_field _ _ _).
Qed.

(** What a create does to a collection of the server. *)
Lemma post_order_outcome rnd now req fs :
  store_ok fs ->
  store_ok (snd (POST_order rnd now req fs)) /\
  ((status (fst (POST_order rnd now req fs)) = 200%nat /\
    exists o, stored_orders (snd (POST_order rnd now req fs)) = o :: stored_orders fs /\
              own o "orderId" = VStr (makeOrderId rnd)) \/
   (status (fst (POST_order rnd now req fs)) <> 200%nat /\
    snd (POST_order rnd now req fs) = fs)).
Proof.
  intros Hok.
  destruct (read (payload req)) as [f|e] eqn:H.
  2:{ rewrite (post_order_throws _ _ _ _ _ _ e H). split; [exact Hok|].
      right. split; [discriminate|reflexivity]. }
  destruct (check f) as [r|] eqn:C.
  { rewrite (post_order_refuses _ _ _ _ _ _ f r H C). split; [exact Hok|].
    right. split; [|reflexivity]. apply check_status in C. cbn. now rewrite C. }
  destruct (size_of (payload req)) as [size|e] eqn:S.
  2:{ rewrite (post_order_size_throws _ _ _ _ _ _ f e H C S). split; [exact Hok|].
      right. split; [discriminate|reflexivity]. }
  destruct (post_order_prepends NumberToString StringToNumber rnd now req fs
              f size H C S Hok) as (fs1 & -> & Hst & Hok1).
  split; [exact Hok1|]. left. split; [reflexivity|].
  eexists. split; [exact Hst|]. unfold make_order.
  now rewrite (own_json_elem _ "orderId" (VStr (makeOrderId rnd))
                 (VStr (makeOrderId rnd))).
Qed.

Lemma accepted_ids_cons c l t ts :
  accepted_ids (c :: l) (t :: ts) =
  ((if answered_200 t then [generated c] else []) ++ accepted_ids l ts)%list.
Proof.
  unfold accepted_ids. cbn [combine filter snd].
  now destruct (answered_200 t).
Qed.

(** A turn leaves every request either untouched or answered, and adds
    the order of the request it answers with 200, if any. *)
Lemma advance_turn l : forall pool,
  Forall2 (fun c t => t = creating c \/ exists r, t = Steps.Return r) l pool ->
  forall i fs1 pool2 fs2,
  store_ok fs1 ->
  Steps.advance Steps.run_until_await i pool fs1 = (pool2, fs2) ->
  Forall2 (fun c t => t = creating c \/ exists r, t = Steps.Return r) l pool2 /\
  store_ok fs2 /\
  exists added,
    stored_orders fs2 = (added ++ stored_orders fs1)%list /\
    Permutation (map order_id added ++ accepted_ids l pool) (accepted_ids l pool2).
Proof.
  induction 1 as [|c t l ts HR HF IH]; intros i fs1 pool2 fs2 Hok Hrun.
  - destruct i; cbn in Hrun; injection Hrun as <- <-;
      (split; [constructor|]; split; [exact Hok|]; exists []; split;
       [reflexivity|apply Permutation_refl]).
  - destruct i as [|i]; cbn [Steps.advance] in Hrun.
    + destruct HR as [->|[r ->]].
      * rewrite run_creating in Hrun. injection Hrun as <- <-.
        destruct (post_order_outcome (draws c) (time c) (submitted c) fs1 Hok)
          as [Hok2 [[Hst (o & Ho & Hid)]|[Hst Hfs]]].
        -- split; [constructor; [right; eauto|exact HF]|]. split; [exact Hok2|].
           exists [o]. split; [exact Ho|].
           rewrite !accepted_ids_cons, creating_not_answered. cbn [answered_200].
           rewrite Hst. cbn. rewrite Hid. apply Permutation_refl.
        -- split; [constructor; [right; eauto|exact HF]|]. split; [exact Hok2|].
           exists []. rewrite Hfs. split; [reflexivity|].
           rewrite !accepted_ids_cons, creating_not_answered. cbn [answered_200].
           apply Nat.eqb_neq in Hst. rewrite Hst. apply Permutation_refl.
      * cbn in Hrun. injection Hrun as <- <-.
        split; [constructor; [right; eauto|exact HF]|]. split; [exact Hok|].
        exists []. split; [reflexivity|apply Permutation_refl].
    + destruct (Steps.advance Steps.run_until_await i ts fs1) as [ts' fs'] eqn:Hts.
      injection Hrun as <- <-.
      destruct (IH i fs1 ts' fs' Hok Hts) as (HF' & Hok' & added & Hst & Hp).
      split; [constructor; [exact HR|exact HF']|]. split; [exact Hok'|].
      exists added. split; [exact Hst|].
      rewrite !accepted_ids_cons.
      eapply Permutation_trans; [apply Permutation_app_swap_app|].
      now apply Permutation_app_head.
Qed.

Lemma event_loop_turns l schedule : forall pool fs1 pool' fs',
  Forall2 (fun c t => t = creating c \/ exists r, t = Steps.Return r) l pool ->
  store_ok fs1 ->
  Steps.event_loop schedule pool fs1 = (pool', fs') ->
  Forall2 (fun c t => t = creating c \/ exists r, t = Steps.Return r) l pool' /\
  store_ok fs' /\
  exists new,
    stored_orders fs' = (new ++ stored_orders fs1)%list /\
    Permutation (map order_id new ++ accepted_ids l pool) (accepted_ids l pool').
Proof.
  induction schedule as [|i rest IH]; intros pool fs1 pool' fs' HF Hok Hrun.
  - cbn in Hrun. injection Hrun as <- <-. split; [exact HF|]. split; [exact Hok|].
    exists []. split; [reflexivity|apply Permutation_refl].
  - unfold Steps.event_loop in Hrun. cbn [Steps.scheduled] in Hrun.
    destruct (Steps.advance Steps.run_until_await i pool fs1) as [pool1 fs2] eqn:Ht.
    destruct (advance_turn l pool HF i fs1 pool1 fs2 Hok Ht)
      as (HF1 & Hok1 & added & Hst1 & Hp1).
    destruct (IH pool1 fs2 pool' fs' HF1 Hok1 Hrun) as (HF' & Hok' & new & Hst & Hp).
    split; [exact HF'|]. split; [exact Hok'|].
    exists (new ++ added)%list. split; [now rewrite Hst, Hst1, app_assoc|].
    rewrite map_app, <- app_assoc.
    eapply Permutation_trans; [|exact Hp]. now apply Permutation_app_head.
Qed.

Lemma pending_pool l :
  Forall2 (fun c t => t = creating c \/ exists r, t = Steps.Return r)
          l (map creating l) /\
  accepted_ids l (map creating l) = [].
Proof.
  induction l as [|c l [IH1 IH2]]; [split; [constructor|reflexivity]|].
  split; [constructor; auto|].
  cbn [map]. now rewrite accepted_ids_cons, creating_not_answered, IH2.
Qed.

Lemma answered_pool l : forall rs,
  List.length l = List.length rs ->
  Forall (fun r => status r = 200%nat) rs ->
  accepted_ids l (map Steps.Return rs) = map generated l.
Proof.
  induction l as [|c l IH]; intros [|r rs] Hlen Hall; try discriminate Hlen.
  - reflexivity.
  - inversion Hall as [|? ? Hr Hrs]; subst. cbn [map].
    rewrite accepted_ids_cons. cbn [answered_200]. rewrite Hr. cbn.
    f_equal. apply IH; [now injection Hlen|exact Hrs].
Qed.

(** C9 (as amended).  The create handler makes its calls to the file system
    without handing control back to the event loop, so whatever the order in
    which the event loop turns to the simultaneous requests, and however
    often, no request is ever left between its load and its save: after every
    schedule each request is either untouched or answered, at most one
    load-mutate-save cycle being under way at a time.  On a collection of the
    server the stored collection is then the former one with, in front, one
    new order for each request answered with 200 so far, carrying the
    identifier generated for it, none lost; so N requests all answered with
    200 leave exactly N new orders, whose orderIds are the generated ones and
    are pairwise distinct exactly when the generated identifiers are. *)
Theorem creates_add_all_orders l schedule fs pool' fs' :
  store_ok fs ->
  Steps.event_loop schedule (map creating l) fs = (pool', fs') ->
  Forall2 (fun c t => t = creating c \/ exists r, t = Steps.Return r) l pool' /\
  store_ok fs' /\
  exists new,
    stored_orders fs' = (new ++ stored_orders fs)%list /\
    Permutation (map order_id new) (accepted_ids l pool') /\
    (forall rs,
       pool' = map Steps.Return rs ->
       Forall (fun r => status r = 200%nat) rs ->
       List.length new = List.length l /\
       Permutation (map order_id new) (map generated l) /\
       (NoDup (map order_id new) <->
        NoDup (map (fun c => makeOrderId (draws c)) l))).
Proof.
  intros Hok Hrun.
  destruct (pending_pool l) as [HF0 Hacc0].
  destruct (event_loop_turns l schedule _ fs pool' fs' HF0 Hok Hrun)
    as (HF & Hok' & new & Hst & Hp).
  rewrite Hacc0, app_nil_r in Hp.
  split; [exact HF|]. split; [exact Hok'|]. exists new.
  split; [exact Hst|]. split; [exact Hp|].
  intros rs -> Hall.
  assert (Hlen : List.length l = List.length rs).
  { apply Forall2_length in HF. now rewrite length_map in HF. }
  rewrite (answered_pool l rs Hlen Hall) in Hp.
  split; [|split; [exact Hp|]].
  - apply Permutation_length in Hp. now rewrite !length_map in Hp.
  - rewrite <- (map_map (fun c => makeOrderId (draws c)) VStr) in Hp. split.
    + intros N. apply (Permutation_NoDup Hp) in N.
      now apply NoDup_map_inv in N.
    + intros N. apply (Permutation_NoDup (Permutation_sym Hp)).
      now apply NoDup_map_VStr.
Qed.

End Service.

(** * Instances and counterexamples *)

Lemma zero_draws_ok k : draw_ok (zero_draws k).
Proof. split; [apply Qle_refl|reflexivity]. Qed.

Lemma create_returns_id_and_prepends_witness :
  exists suffix order fs',
    post_order sample_NumberToString sample_StringToNumber zero_draws sample_time
      sample_req no_files =
      (reply [("orderId", VStr ("GG-" ++ suffix))], fs') /\
    String.length suffix = 10%nat /\
    Forall (fun c => In c alphabet) (list_ascii_of_string suffix) /\
    List.length alphabet = 32%nat /\ NoDup alphabet /\
    forallb unambiguous alphabet = true /\
    stored_orders fs' = order :: stored_orders no_files /\
    own order "orderId" = VStr ("GG-" ++ suffix).
Proof.
  apply (create_returns_id_and_prepends sample_NumberToString sample_StringToNumber
           zero_draws sample_time sample_req no_files sample_fields "").
  - reflexivity.
  - reflexivity.
  - reflexivity.
  - exact zero_draws_ok.
  - exact I.
Defined.

(** An alphabet of 33 symbols as described: distinct upper-case letters and
    digits other than 0, O, 1 and I, from which every generated character
    comes.  There is none, and no 33 distinct symbols can all be drawn: the
    characters come from the 32 of [chars]. *)
Lemma alphabet_has_32_symbols_not_33 :
  String.length chars = 32%nat /\
  ~ (exists A : list ascii,
       NoDup A /\ List.length A = 33%nat /\ forallb unambiguous A = true /\
       forall r, draw_ok r ->
                 exists c, char_at chars (random_index r) = String c EmptyString /\
                           In c A) /\
  ~ (exists A : list ascii,
       NoDup A /\ List.length A = 33%nat /\
       forall c, In c A ->
                 exists r, draw_ok r /\
                           char_at chars (random_index r) = String c EmptyString).
Proof.
  assert (Hmax : forall A, NoDup A -> incl A alphabet -> List.length A <> 33%nat).
  { intros A Hnd Hincl Hlen. pose proof (NoDup_incl_length Hnd Hincl) as Hle.
    rewrite Hlen in Hle. destruct alphabet_facts as (Hl & _).
    rewrite Hl in Hle. lia. }
  split; [reflexivity|]. split.
  - intros (A & Hnd & Hlen & Hun & _). apply (Hmax A Hnd); [|exact Hlen].
    intros c Hc. apply unambiguous_alphabet.
    rewrite forallb_forall in Hun. now apply Hun.
  - intros (A & Hnd & Hlen & Hdrawn). apply (Hmax A Hnd); [|exact Hlen].
    intros c Hc. destruct (Hdrawn c Hc) as (r & Hr & Hch).
    destruct (char_at_alphabet r Hr) as (c' & Hc' & Hin).
    rewrite Hch in Hc'. now injection Hc' as ->.
Qed.

Lemma one_order_store_ok : store_ok one_order_store.
Proof. unfold store_ok. simpl. repeat split. Qed.

Lemma one_order_ids : order_ids one_order_store = [VStr "GG-AAAAAAAAAA"].
Proof. reflexivity. Qed.

Lemma create_shipping_and_total_witness :
  exists order,
    own order "area" = VStr "dhaka" /\
    own order "shipping" = VNum 70 /\
    own order "total" = VNum 1070.
Proof.
  destruct (create_shipping_and_total sample_NumberToString sample_StringToNumber
              zero_draws sample_time sample_req no_files
              (reply [("orderId", VStr "GG-AAAAAAAAAA")]) one_order_store eq_refl)
    as [H _].
  destruct (H eq_refl)
    as (f & a & order & aps & ship & Hf & Ha & _ & _ & _ & _ & Hs & Ht & Hcase & _).
  change (Ok sample_fields = Ok f) in Hf. injection Hf as <-.
  change (Ok "Dhaka" = Ok a) in Ha. injection Ha as <-.
  exists order.
  destruct Hcase as [(_ & -> & Harea)|([E|E] & _)]; try discriminate E.
  repeat split; assumption.
Defined.

Lemma gate_compares_trimmed_token_witness :
  presented sample_NumberToString secret_req = Ok " s3cret " /\
  isAuthorized sample_NumberToString (Some "s3cret") secret_req = Ok true.
Proof.
  split; [reflexivity|].
  destruct (gate_compares_trimmed_token sample_NumberToString (Some "s3cret")
              secret_req no_files " s3cret " eq_refl) as (_ & _ & _ & H & _).
  apply H; [discriminate|reflexivity].
Defined.

(** The gate lets a token through that is not an exact match of the
    secret, and turns away a request whose query parameter is one. *)
Lemma gate_is_not_an_exact_match :
  x_admin_token secret_req <> Some "s3cret" /\
  query_token secret_req <> VStr "s3cret" /\
  status (fst (get_orders sample_NumberToString (Some "s3cret") secret_req no_files))
    = 200%nat /\
  query_token guess_req = VStr "s3cret" /\
  status (fst (get_orders sample_NumberToString (Some "s3cret") guess_req no_files))
    = 401%nat.
Proof. repeat split; discriminate. Qed.

Lemma gate_trims_secret_and_token_witness :
  isAuthorized sample_NumberToString (Some "   ") guess_req = Ok true /\
  isAuthorized sample_NumberToString (Some "s3cret") secret_req = Ok true.
Proof.
  split.
  - apply (proj1 (gate_trims_secret_and_token sample_NumberToString guess_req "   ")
             eq_refl) with (t := "guess"). reflexivity.
  - apply (proj1 (proj2 (gate_trims_secret_and_token sample_NumberToString secret_req
                           "s3cret")))
      with (t := " s3cret "); reflexivity.
Defined.

(** A blank secret, and a request with [?token[toString]=1], whose token is
    an object without a text: the gate throws and the list operation answers
    500 where a caller who is authorized gets the collection. *)
Lemma blank_secret_does_not_admit_every_caller :
  trim "   " = "" /\
  isAuthorized sample_NumberToString (Some "   ") textless_req
    = Throw not_primitive /\
  isAuthorized sample_NumberToString None textless_req = Throw not_primitive /\
  get_orders sample_NumberToString (Some "   ") textless_req one_order_store
    = (refuse 500 "Server error", one_order_store).
Proof. repeat split. Qed.

Lemma save_then_load_witness :
  exists fs1,
    writeOrders one_order_db no_files = (Ok tt, fs1) /\
    readOrders fs1 = (Ok one_order_db, fs1) /\
    stored_orders fs1 = orders_of one_order_db.
Proof.
  destruct (save_then_load one_order_db no_files
              [("orders", VArr (orders_of one_order_db) [])] eq_refl eq_refl)
    as (fs1 & db1 & W & R & _ & H & _).
  destruct (H eq_refl) as [E S]. exists fs1. rewrite E in R. auto.
Defined.

(** The create handler accepts the payload and saves [overflow_db], a
    collection of one order whose total is infinite; the text written for it
    holds [null] there, so what is loaded back is not the collection saved. *)
Lemma save_then_load_loses_an_infinite_total :
  fst (post_order sample_NumberToString sample_StringToNumber zero_draws
         sample_time overflow_req no_files)
    = reply [("orderId", VStr "GG-AAAAAAAAAA")] /\
  snd (post_order sample_NumberToString sample_StringToNumber zero_draws
         sample_time overflow_req no_files)
    = snd (writeOrders overflow_db (ensured no_files)) /\
  own overflow_order "total" = VNum PrimFloat.infinity /\
  fst (writeOrders overflow_db no_files) = Ok tt /\
  fst (readOrders (snd (writeOrders overflow_db no_files))) <> Ok overflow_db /\
  map (fun o => own o "total")
      (stored_orders (snd (writeOrders overflow_db no_files))) = [VNull] /\
  map (fun o => own o "total") (orders_of overflow_db) = [VNum PrimFloat.infinity].
Proof.
  split; [reflexivity|]. split; [reflexivity|]. split; [reflexivity|].
  split; [reflexivity|]. split; [|split; reflexivity].
  vm_compute. intros E. discriminate E.
Qed.

(** The payload is accepted, and the order in the stored document has
    [null] for a total, where qty * unitPrice + shipping is infinite. *)
Lemma stored_total_can_be_null :
  status (fst (post_order sample_NumberToString sample_StringToNumber zero_draws
                 sample_time overflow_req no_files)) = 200%nat /\
  exists o q u,
    stored_orders
      (snd (post_order sample_NumberToString sample_StringToNumber zero_draws
              sample_time overflow_req no_files)) = [o] /\
    own overflow_body "qty" = VNum q /\ own o "qty" = VNum q /\
    own overflow_body "unitPrice" = VNum u /\ own o "unitPrice" = VNum u /\
    own o "shipping" = VNum 70 /\
    own o "total" = VNull /\
    (q * u + 70)%float = PrimFloat.infinity.
Proof.
  split; [reflexivity|]. do 3 eexists.
  split; [reflexivity|]. repeat split.
Qed.

Lemma order_ids_stay_distinct_witness :
  NoDup (order_ids
           (snd (patch_order sample_NumberToString None ship_req one_order_store))) /\
  NoDup (order_ids
           (snd (delete_order sample_NumberToString None ship_req one_order_store))).
Proof.
  destruct (order_ids_stay_distinct sample_NumberToString sample_StringToNumber None
              ship_req one_order_store one_order_store_ok) as (H1 & H2 & _).
  - rewrite one_order_ids. constructor; [simpl; tauto|constructor].
  - split; assumption.
Defined.

(** Two creations with the same outcomes of the random source: the
    second inserts the orderId the first one stored. *)
Lemma create_can_repeat_an_order_id :
  (forall k, draw_ok (zero_draws k)) /\
  store_ok one_order_store /\
  NoDup (order_ids one_order_store) /\
  status (fst (post_order sample_NumberToString sample_StringToNumber zero_draws
                 sample_time sample_req one_order_store)) = 200%nat /\
  order_ids (snd (post_order sample_NumberToString sample_StringToNumber zero_draws
                    sample_time sample_req one_order_store))
    = [VStr "GG-AAAAAAAAAA"; VStr "GG-AAAAAAAAAA"] /\
  ~ NoDup (order_ids (snd (post_order sample_NumberToString sample_StringToNumber
                             zero_draws sample_time sample_req one_order_store))).
Proof.
  split; [exact zero_draws_ok|]. split; [exact one_order_store_ok|].
  split; [rewrite one_order_ids; constructor; [simpl; tauto|constructor]|].
  split; [reflexivity|]. split; [reflexivity|].
  change (~ NoDup [VStr "GG-AAAAAAAAAA"; VStr "GG-AAAAAAAAAA"]).
  intros N. inversion N as [|? ? Hnin _]. apply Hnin. now left.
Qed.

Lemma update_status_frame_witness :
  exists i o,
    nth_error (stored_orders one_order_store) i = Some o /\
    fst (patch_order sample_NumberToString None ship_req one_order_store) = reply [] /\
    nth_error (stored_orders
                 (snd (patch_order sample_NumberToString None ship_req one_order_store)))
              i = Some (set_prop o "status" (VStr "shipped")).
Proof.
  destruct (update_status_frame sample_NumberToString None ship_req one_order_store
              (fst (patch_order sample_NumberToString None ship_req one_order_store))
              (snd (patch_order sample_NumberToString None ship_req one_order_store))
              one_order_store_ok eq_refl eq_refl) as (_ & _ & H & _).
  destruct (H eq_refl "shipped" eq_refl) as (i & o & H1 & _ & _ & H2 & _ & H3 & _).
  - eexists. split; [left; reflexivity|reflexivity].
  - exists i, o. repeat split; assumption.
Defined.

(** An update of the sample order with the status 0, and one with a status
    that holds a [toString] of its own: the status is there and the order
    exists, yet the first is answered 400 and the second 500, and the order
    keeps its status. *)
Lemma update_with_status_zero_is_refused :
  new_status zero_status_req = VNum 0 /\
  (exists o, In o (stored_orders one_order_store) /\
             id_of o = param_orderId zero_status_req) /\
  patch_order sample_NumberToString None zero_status_req one_order_store
    = (refuse 400 "Missing status", one_order_store) /\
  patch_order sample_NumberToString None textless_status_req one_order_store
    = (refuse 500 "Server error", one_order_store) /\
  map (fun o => own o "status") (stored_orders one_order_store) = [VStr "new"].
Proof.
  split; [reflexivity|]. split.
  - eexists. split; [left; reflexivity|reflexivity].
  - repeat split.
Qed.

Lemma bulk_delete_removes_listed_witness :
  fst (bulk_delete sample_NumberToString None bulk_req one_order_store)
    = reply [("deleted", VNum 1)] /\
  stored_orders (snd (bulk_delete sample_NumberToString None bulk_req one_order_store))
    = [].
Proof.
  destruct (bulk_delete_removes_listed sample_NumberToString None bulk_req
              one_order_store
              (fst (bulk_delete sample_NumberToString None bulk_req one_order_store))
              (snd (bulk_delete sample_NumberToString None bulk_req one_order_store))
              one_order_store_ok eq_refl eq_refl) as (_ & _ & H).
  destruct (H [VStr "GG-AAAAAAAAAA"; VStr "GG-BBB"] [] ["GG-AAAAAAAAAA"; "GG-BBB"]
              eq_refl eq_refl) as (H1 & H2 & _).
  - discriminate.
  - split; [exact H1|exact H2].
Defined.

(** A bulk-delete whose [orderIds] is the identifier of the sample order as a
    string, not an array, and one whose array holds that identifier and an
    element without a text: [orderIds] is neither absent nor empty and names
    a stored order, yet the first is answered 400 and the second 500, and the
    order stays. *)
Lemma bulk_delete_wants_an_array_of_texts :
  own (req_body lone_id_req) "orderIds" = VStr "GG-AAAAAAAAAA" /\
  bulk_delete sample_NumberToString None lone_id_req one_order_store
    = (refuse 400 "orderIds required", one_order_store) /\
  own (req_body textless_id_req) "orderIds"
    = VArr [VStr "GG-AAAAAAAAAA"; VObj [("toString", VNum 1)]] [] /\
  bulk_delete sample_NumberToString None textless_id_req one_order_store
    = (refuse 500 "Server error", one_order_store) /\
  order_ids one_order_store = [VStr "GG-AAAAAAAAAA"].
Proof. repeat split. Qed.

Lemma creates_add_all_orders_witness :
  exists new,
    stored_orders
      (snd (Steps.event_loop [1; 0]%nat
              (map (Steps.creating sample_NumberToString sample_StringToNumber)
                   [first_creation; second_creation]) no_files))
      = (new ++ stored_orders no_files)%list /\
    List.length new = 2%nat /\
    NoDup (map (fun o => own o "orderId") new).
Proof.
  destruct (creates_add_all_orders sample_NumberToString sample_StringToNumber
              [first_creation; second_creation] [1; 0]%nat no_files
              (fst (Steps.event_loop [1; 0]%nat
                      (map (Steps.creating sample_NumberToString
                              sample_StringToNumber)
                           [first_creation; second_creation]) no_files))
              (snd (Steps.event_loop [1; 0]%nat
                      (map (Steps.creating sample_NumberToString
                              sample_StringToNumber)
                           [first_creation; second_creation]) no_files))
              I eq_refl) as (_ & _ & new & H1 & _ & H).
  destruct (H [reply [("orderId", VStr (makeOrderId zero_draws))];
               reply [("orderId", VStr (makeOrderId half_draws))]] eq_refl)
    as (H2 & _ & H3).
  - repeat constructor.
  - exists new. split; [exact H1|]. split; [exact H2|].
    apply H3. vm_compute.
    constructor; [simpl; intros [E|[]]; discriminate E|].
    constructor; [simpl; tauto|constructor].
Defined.

(** Two simultaneous submissions during which the random source yields the
    same outcomes, served by the event loop: both are answered with 200, two
    orders are added, and they carry the same orderId. *)
Lemma simultaneous_creates_can_share_an_order_id :
  (forall k, draw_ok (draws first_creation k)) /\
  fst (Steps.event_loop [0; 1]%nat
         (map (Steps.creating sample_NumberToString sample_StringToNumber)
              [first_creation; first_creation]) no_files)
    = [Steps.Return (reply [("orderId", VStr "GG-AAAAAAAAAA")]);
       Steps.Return (reply [("orderId", VStr "GG-AAAAAAAAAA")])] /\
  order_ids (snd (Steps.event_loop [0; 1]%nat
                    (map (Steps.creating sample_NumberToString sample_StringToNumber)
                         [first_creation; first_creation]) no_files))
    = [VStr "GG-AAAAAAAAAA"; VStr "GG-AAAAAAAAAA"] /\
  ~ NoDup (order_ids (snd (Steps.event_loop [0; 1]%nat
                             (map (Steps.creating sample_NumberToString
                                     sample_StringToNumber)
                                  [first_creation; first_creation]) no_files))).
Proof.
  split; [exact zero_draws_ok|]. split; [reflexivity|].
  split; [reflexivity|].
  change (~ NoDup [VStr "GG-AAAAAAAAAA"; VStr "GG-AAAAAAAAAA"]).
  intros N. inversion N as [|? ? Hnin _]. apply Hnin. now left.
Qed.

(** * Runs of the handlers *)

(** The sample payload, area [Dhaka], quantity 2 at 500: the answer is 200
    and the stored order has area [dhaka], shipping 70 and total 1070. *)
Example post_order_sample :
  post_order sample_NumberToString sample_StringToNumber zero_draws sample_time
    sample_req no_files
    = (reply [("orderId", VStr "GG-AAAAAAAAAA")], one_order_store) /\
  map (fun o => (own o "status", own o "area", own o "shipping", own o "total"))
      (stored_orders one_order_store)
    = [(VStr "new", VStr "dhaka", VNum 70, VNum 1070)].
Proof. split; reflexivity. Qed.

(** A unit price of zero is refused and nothing is written. *)
Example post_order_zero_price :
  post_order sample_NumberToString sample_StringToNumber zero_draws sample_time
    (mkreq None VUndef ""
       (set_prop sample_body "unitPrice" (VNum 0)))
    no_files
    = (refuse 400 "Invalid unitPrice", no_files).
Proof. reflexivity. Qed.

(** A payload field that is an object with a [toString] entry cannot be
    converted: the handler answers 500 and nothing is written. *)
Example post_order_unconvertible_area :
  post_order sample_NumberToString sample_StringToNumber zero_draws sample_time
    (mkreq None VUndef ""
       (set_prop sample_body "area" (VObj [("toString", VNum 1)])))
    no_files
    = (refuse 500 "Server error: Cannot convert object to primitive value",
       no_files).
Proof. reflexivity. Qed.

(** On a document that is a top-level array, [readOrders] attaches the orders
    to the array, and the text written for an array holds its elements only:
    the request is answered 200 and the order is not stored.  Such a document
    is not one the server writes. *)
Example post_order_on_an_array_document :
  let fs := mkfs (Some (Doc (VArr [] []))) None in
  ~ store_ok fs /\
  post_order sample_NumberToString sample_StringToNumber zero_draws sample_time
    sample_req fs
    = (reply [("orderId", VStr "GG-AAAAAAAAAA")], fs) /\
  stored_orders fs = [].
Proof.
  split; [intros (_ & H & _); discriminate H|]. split; reflexivity.
Qed.

(** Without a configured secret the list operation answers every caller. *)
Example get_orders_open :
  get_orders sample_NumberToString None guess_req one_order_store
    = (reply [("orders", VArr (stored_orders one_order_store) [])], one_order_store).
Proof. reflexivity. Qed.

(** Deleting an identifier twice: 200 with one deletion, then 404. *)
Example delete_order_twice :
  let run1 := delete_order sample_NumberToString None ship_req one_order_store in
  let run2 := delete_order sample_NumberToString None ship_req (snd run1) in
  fst run1 = reply [("deleted", VNum 1)] /\
  stored_orders (snd run1) = [] /\
  fst run2 = refuse 404 "Not found" /\
  snd run2 = snd run1.
Proof. repeat split. Qed.

(** Without the event loop the handler does not protect its cycle: when the
    calls of two creation requests are interleaved one by one, as they can be
    between two server processes on one file, both load the collection before
    either saves it; both are answered with 200 and only the order saved last
    is stored. *)
Example interleaved_creates_lose_an_order :
  fst (Steps.interleaved [0; 0; 1; 1; 0; 0; 1; 1]%nat
         (map (Steps.creating sample_NumberToString sample_StringToNumber)
              [first_creation; second_creation]) one_order_store)
    = [Steps.Return (reply [("orderId", VStr "GG-AAAAAAAAAA")]);
       Steps.Return (reply [("orderId", VStr "GG-SSSSSSSSSS")])] /\
  order_ids (snd (Steps.interleaved [0; 0; 1; 1; 0; 0; 1; 1]%nat
                    (map (Steps.creating sample_NumberToString sample_StringToNumber)
                         [first_creation; second_creation]) one_order_store))
    = [VStr "GG-SSSSSSSSSS"; VStr "GG-AAAAAAAAAA"].
Proof. split; reflexivity. Qed.

(** The event loop alone does not protect a cycle either: it is the handler
    that must not hand control back between its load and its save.  Two
    tasks that load, await, then add an order and save, a handler the server
    does not have, lose an order under the event loop. *)
Example awaiting_between_load_and_save_would_lose_an_order :
  let awaiting id :=
    Steps.try_catch
      (Steps.bind Steps.readOrders (fun db =>
       Steps.Await
         (Steps.bind (Steps.lift (unshift db (VObj [("orderId", VStr id)])))
            (fun db' =>
             Steps.bind (Steps.writeOrders db') (fun _ =>
             Steps.ret (reply [("orderId", VStr id)]))))))
      server_error in
  fst (Steps.event_loop [0; 1; 0; 1]%nat [awaiting "GG-X"; awaiting "GG-Y"]
         one_order_store)
    = [Steps.Return (reply [("orderId", VStr "GG-X")]);
       Steps.Return (reply [("orderId", VStr "GG-Y")])] /\
  order_ids (snd (Steps.event_loop [0; 1; 0; 1]%nat
                    [awaiting "GG-X"; awaiting "GG-Y"] one_order_store))
    = [VStr "GG-Y"; VStr "GG-AAAAAAAAAA"].
Proof. split; reflexivity. Qed.

(** * Further properties of the server *)

Lemma secret_text n2s token :
  ToString n2s (or_else (opt_str token) (VStr "")) = Ok (secret token).
Proof.
  destruct token as [s|]; [|reflexivity].
  unfold or_else. simpl. destruct (String.eqb_spec s ""); subst; reflexivity.
Qed.

Lemma count_orders_recover v :
  count_orders v = List.length (orders_of (recover (Doc v))).
Proof.
  unfold count_orders, orders_of, recover.
  destruct (negb (truthy v) || negb (typeof_object v)) eqn:E.
  - destruct v; simpl in *; try reflexivity; discriminate.
  - destruct (truthy_object v E) as [[ps ->]|[es [ps ->]]];
      unfold own, isArray, set_prop;
      destruct (assoc ps "orders") as [x|] eqn:A; try destruct x;
      cbn [negb]; rewrite ?assoc_set_same, ?A; reflexivity.
Qed.

Section Further.

Variable NumberToString : float -> string.
Variable StringToNumber : string -> float.
Variable ADMIN_TOKEN : option string.

Abbreviation String_ := (ToString NumberToString).
Abbreviation read := (read_fields NumberToString StringToNumber).
Abbreviation size_of := (fun body => optional_field NumberToString body "size").
Abbreviation POST_order := (post_order NumberToString StringToNumber).
Abbreviation authorized := (isAuthorized NumberToString ADMIN_TOKEN).
Abbreviation GET_orders := (get_orders NumberToString ADMIN_TOKEN).
Abbreviation PATCH_order := (patch_order NumberToString ADMIN_TOKEN).
Abbreviation DELETE_order := (delete_order NumberToString ADMIN_TOKEN).
Abbreviation POST_bulk_delete := (bulk_delete NumberToString ADMIN_TOKEN).

(** X1.  The health operation never throws, and its [tokenRequired] flag
    tells what the gate does: it is false exactly when every request whose
    token converts passes the gate, and when it is true a request without a
    token is turned away. *)
Theorem health_reports_the_gate now :
  exists b,
    get_health NumberToString ADMIN_TOKEN now =
      Ok (reply [("time", VStr now); ("tokenRequired", VBool b)]) /\
    (b = false <->
     forall req t, presented NumberToString req = Ok t -> authorized req = Ok true) /\
    (b = true -> authorized (mkreq None VUndef "" VUndef) = Ok false).
Proof.
  exists (negb (String.eqb (trim (secret ADMIN_TOKEN)) "")).
  split; [unfold get_health; now rewrite secret_text|].
  destruct (String.eqb_spec (trim (secret ADMIN_TOKEN)) "") as [E|N]; simpl.
  - split; [|discriminate]. split; [|reflexivity].
    intros _ req t Ht. rewrite isAuthorized_eq, Ht. simpl. now rewrite E.
  - split.
    + split; [discriminate|]. intros H.
      specialize (H (mkreq None VUndef "" VUndef) "" eq_refl).
      rewrite isAuthorized_eq in H. simpl in H.
      destruct (String.eqb_spec (trim (secret ADMIN_TOKEN)) ""); [contradiction|].
      simpl in H. injection H as H.
      destruct (trim (secret ADMIN_TOKEN)); [contradiction|discriminate].
    + intros _. rewrite isAuthorized_eq. simpl.
      destruct (String.eqb_spec (trim (secret ADMIN_TOKEN)) ""); [contradiction|].
      simpl. destruct (trim (secret ADMIN_TOKEN)); [contradiction|reflexivity].
Qed.

(** X2.  For every state of the files and without any token, the debug
    operation answers 200 with [ordersCount] the number of orders the list
    operation returns, also when the document is unparsable or is not a
    collection, and it leaves the files as a load does. *)
Theorem debug_counts_the_stored_orders ordersFile hex size fs :
  get_debug ordersFile hex size fs =
    (reply [("serverInstance", VStr ("srv-" ++ hex));
            ("ordersFile", VStr ordersFile);
            ("fileSizeBytes", VNum size);
            ("ordersCount", VNum (float_of_nat (List.length (stored_orders fs))))],
     snd (readOrders fs)).
Proof.
  rewrite stored_orders_eq, readOrders_eq. unfold loaded, ensured.
  unfold get_debug, ensureOrdersFile. run_io. unfold statSync.
  destruct fs as [[c|] t]; simpl.
  - destruct c as [|v]; simpl; [reflexivity|]. now rewrite count_orders_recover.
  - reflexivity.
Qed.


Lemma check_none f :
  check f = None <->
  productId f <> "" /\ productName f <> "" /\ name f <> "" /\ phone f <> "" /\
  address f <> "" /\
  PrimFloat.is_finite (qty f) = true /\ PrimFloat.ltb (qty f) 1 = false /\
  PrimFloat.is_finite (unitPrice f) = true /\ PrimFloat.leb (unitPrice f) 0 = false /\
  (areaRaw f = "dhaka" \/ areaRaw f = "outside" \/ areaRaw f = "outside dhaka").
Proof.
  unfold check.
  destruct (String.eqb_spec (productId f) "") as [E1|N1];
    [split; [discriminate|intros (H & _); contradiction]|].
  destruct (String.eqb_spec (productName f) "") as [E2|N2];
    [split; [discriminate|intros (_ & H & _); contradiction]|].
  destruct (String.eqb_spec (name f) "") as [E3|N3];
    [split; [discriminate|intros (_ & _ & H & _); contradiction]|].
  destruct (String.eqb_spec (phone f) "") as [E4|N4];
    [split; [discriminate|intros (_ & _ & _ & H & _); contradiction]|].
  destruct (String.eqb_spec (address f) "") as [E5|N5];
    [split; [discriminate|intros (_ & _ & _ & _ & H & _); contradiction]|].
  destruct (PrimFloat.is_finite (qty f)) eqn:F1; cbn [negb orb];
    [|split; [discriminate|intros (_ & _ & _ & _ & _ & H & _); discriminate]].
  destruct (PrimFloat.ltb (qty f) 1) eqn:L1;
    [split; [discriminate|intros (_ & _ & _ & _ & _ & _ & H & _); discriminate]|].
  destruct (PrimFloat.is_finite (unitPrice f)) eqn:F2; cbn [negb orb];
    [|split; [discriminate|intros (_ & _ & _ & _ & _ & _ & _ & H & _); discriminate]].
  destruct (PrimFloat.leb (unitPrice f) 0) eqn:L2;
    [split; [discriminate
            |intros (_ & _ & _ & _ & _ & _ & _ & _ & H & _); discriminate]|].
  destruct (area_of_cases (areaRaw f)) as [[A1 E]|[[A1 E]|(A1 & A2 & A3 & E)]];
    rewrite E; simpl.
  - split; [intros _; repeat split; auto|reflexivity].
  - split; [intros _; repeat split; auto; tauto|reflexivity].
  - split; [discriminate|].
    intros (_ & _ & _ & _ & _ & _ & _ & _ & _ & [H|[H|H]]); contradiction.
Qed.

(** X3.  The create operation answers 200 exactly for the payloads whose
    fields convert and pass the eight rules: the five text fields not empty
    once trimmed, a finite quantity not below one, a finite unit price above
    zero, a known area; whatever else it answers, it leaves the files as they
    were. *)
Theorem create_accepts_exactly_the_valid_payloads rnd now req fs :
  (status (fst (POST_order rnd now req fs)) = 200%nat <->
   exists f size,
     read (payload req) = Ok f /\ size_of (payload req) = Ok size /\
     productId f <> "" /\ productName f <> "" /\ name f <> "" /\ phone f <> "" /\
     address f <> "" /\
     PrimFloat.is_finite (qty f) = true /\ PrimFloat.ltb (qty f) 1 = false /\
     PrimFloat.is_finite (unitPrice f) = true /\
     PrimFloat.leb (unitPrice f) 0 = false /\
     (areaRaw f = "dhaka" \/ areaRaw f = "outside" \/ areaRaw f = "outside dhaka")) /\
  (status (fst (POST_order rnd now req fs)) <> 200%nat ->
   snd (POST_order rnd now req fs) = fs).
Proof.
  split.
  - split.
    + intros Hst.
      destruct (POST_order rnd now req fs) as [res fs'] eqn:Hrun.
      destruct (post_order_accepted _ _ _ _ _ _ _ _ Hrun Hst) as (f & size & H & C & S).
      exists f, size. split; [exact H|]. split; [exact S|]. now apply check_none.
    + intros (f & size & H & S & Hrules). apply check_none in Hrules.
      destruct (post_order_saves NumberToString StringToNumber rnd now req fs f size
                  H Hrules S) as (es & aps & j & _ & _ & ->).
      reflexivity.
  - intros Hst.
    destruct (read (payload req)) as [f|e] eqn:H.
    2:{ now rewrite (post_order_throws _ _ _ _ _ _ e H). }
    destruct (check f) as [r|] eqn:C.
    { now rewrite (post_order_refuses _ _ _ _ _ _ f r H C). }
    destruct (size_of (payload req)) as [size|e] eqn:S.
    2:{ now rewrite (post_order_size_throws _ _ _ _ _ _ f e H C S). }
    destruct (post_order_saves NumberToString StringToNumber rnd now req fs f size
                H C S) as (es & aps & j & _ & _ & Hrun).
    rewrite Hrun in Hst. contradiction Hst. reflexivity.
Qed.

Lemma eqb_empty_false s : s <> "" -> String.eqb s "" = false.
Proof. intros H. now apply String.eqb_neq. Qed.



Lemma filter_keeps_all (g : value -> bool) l :
  List.length l = List.length (filter g l) <-> (forall o, In o l -> g o = true).
Proof.
  split.
  - intros H. symmetry in H. apply filter_length_forallb in H.
    now rewrite forallb_forall in H.
  - intros H. induction l as [|o l IH]; [reflexivity|]. simpl.
    rewrite (H o) by now left. simpl. f_equal. apply IH.
    intros x Hx. apply H. now right.
Qed.

Lemma filter_all (g : value -> bool) l :
  (forall o, In o l -> g o = true) -> filter g l = l.
Proof.
  induction l as [|o l IH]; [reflexivity|]. intros H. simpl.
  rewrite (H o) by now left. f_equal. apply IH. intros x Hx. apply H. now right.
Qed.

Lemma filter_twice (g : value -> bool) l : filter g (filter g l) = filter g l.
Proof.
  apply filter_all. intros o Ho. now apply filter_In in Ho.
Qed.

Lemma ensured_twice fs : ensured (ensured fs) = ensured fs.
Proof. unfold ensured. destruct (data_file fs) eqn:E; [now rewrite E|reflexivity]. Qed.

(** The delete operation on a document of the server, with the state it
    leaves. *)
Lemma delete_order_run req fs :
  store_ok fs -> authorized req = Ok true ->
  exists ps,
    loaded fs = VObj ps /\
    DELETE_order req fs =
      if (List.length (stored_orders fs) =?
          List.length (keep_others (param_orderId req) (stored_orders fs)))%nat
      then (refuse 404 "Not found", ensured fs)
      else (reply [("deleted", VNum 1)],
            saved ps (keep_others (param_orderId req) (stored_orders fs))).
Proof.
  intros Hok H.
  destruct (store_ok_loaded fs Hok) as (ps & es & Hl & Hps & Ha & Hord & Hes & Hst).
  exists ps. split; [exact Hl|]. rewrite Hst.
  unfold delete_order. io. rewrite H. cbn [negb].
  rewrite readOrders_eq, Hl. simpl get. rewrite Ha. simpl array_elems.
  cbv beta iota.
  rewrite (filterM_pure _ _ _ (lacks_id_orders (param_orderId req) es Hord)).
  cbv beta iota. fold (keep_others (param_orderId req) es).
  destruct (_ =? _)%nat; [reflexivity|].
  now rewrite (writeOrders_orders ps _ [] _ Hps).
Qed.

Lemma kept_orders_ok ps es g :
  Forall (fun kx => json_ok (snd kx)) ps ->
  forallb is_order es = true -> Forall json_ok es ->
  store_ok (saved ps (filter g es)) /\
  stored_orders (saved ps (filter g es)) = filter g es.
Proof.
  intros Hps Hord Hes. split.
  - apply store_ok_saved; auto. now apply filter_forallb.
  - rewrite stored_orders_saved. apply json_elem_fix. now apply filter_Forall.
Qed.

(** X6.  On a collection of the server, an authorized delete removes every
    order that has the given orderId, keeps the others in their order and
    answers 200 with [deleted] 1 however many it removed; no stored order has
    the orderId afterwards, and repeating the request answers 404 and changes
    nothing.  When no order has the orderId the answer is 404 at once and the
    collection is unchanged. *)
Theorem delete_removes_every_match req fs res fs' :
  store_ok fs -> authorized req = Ok true ->
  DELETE_order req fs = (res, fs') ->
  ((exists o, In o (stored_orders fs) /\ id_of o = param_orderId req) ->
   res = reply [("deleted", VNum 1)] /\
   stored_orders fs' =
     filter (fun o => negb (String.eqb (id_of o) (param_orderId req)))
            (stored_orders fs)) /\
  ((forall o, In o (stored_orders fs) -> id_of o <> param_orderId req) ->
   res = refuse 404 "Not found" /\ stored_orders fs' = stored_orders fs) /\
  (forall o, In o (stored_orders fs') -> id_of o <> param_orderId req) /\
  DELETE_order req fs' = (refuse 404 "Not found", fs').
Proof.
  intros Hok H Hrun.
  destruct (store_ok_loaded fs Hok) as (ps0 & es & Hl0 & Hps & _ & Hord & Hes & Hst).
  destruct (delete_order_run req fs Hok H) as (ps & Hl & Hrun').
  rewrite Hl0 in Hl. injection Hl as Eps. subst ps0.
  rewrite Hrun in Hrun'. rewrite Hst in *.
  set (id := param_orderId req) in *.
  assert (Hnone : forall l, (forall o, In o l -> id_of o <> id) ->
                            keep_others id l = l).
  { intros l Hl. apply filter_all. intros o Ho. unfold id_is.
    apply negb_true_iff, String.eqb_neq. now apply Hl. }
  assert (Hgone : forall o, In o (keep_others id es) -> id_of o <> id).
  { intros o Ho. apply filter_In in Ho as [_ Ho]. unfold id_is in Ho.
    now apply negb_true_iff, String.eqb_neq in Ho. }
  destruct (Nat.eqb_spec (List.length es) (List.length (keep_others id es)))
    as [Elen|Nlen].
  - injection Hrun' as -> ->.
    assert (Hall : forall o, In o es -> id_of o <> id).
    { intros o Ho. apply (proj1 (filter_keeps_all _ _) Elen) in Ho.
      unfold id_is in Ho. now apply negb_true_iff, String.eqb_neq in Ho. }
    split; [intros (o & Ho & E); now apply Hall in Ho|].
    split; [intros _; split; [reflexivity|]; rewrite stored_orders_ensured; exact Hst|].
    rewrite stored_orders_ensured, Hst. split; [exact Hall|].
    destruct (delete_order_run req (ensured fs) (store_ok_ensured fs Hok) H)
      as (ps' & _ & Hrun2).
    rewrite stored_orders_ensured, Hst in Hrun2. fold id in Hrun2.
    rewrite Hrun2, (Hnone _ Hall), Nat.eqb_refl, ensured_twice. reflexivity.
  - injection Hrun' as -> ->.
    destruct (kept_orders_ok ps es (fun o => negb (id_is id o)) Hps Hord Hes)
      as [Hok' Hst'].
    fold (keep_others id es) in Hok', Hst'.
    split.
    { intros _. split; [reflexivity|exact Hst']. }
    split.
    { intros Hall. contradiction Nlen. now rewrite Hnone. }
    rewrite Hst'. split; [exact Hgone|].
    destruct (delete_order_run req _ Hok' H) as (ps' & _ & Hrun2).
    rewrite Hst' in Hrun2. fold id in Hrun2.
    rewrite Hrun2, (Hnone _ Hgone), Nat.eqb_refl. reflexivity.
Qed.

Lemma id_of_made_order f id now size :
  id_of (json_elem (make_order f id now size)) = id.
Proof.
  unfold id_of, make_order.
  now rewrite (own_json_elem _ "orderId" (VStr id) (VStr id)).
Qed.

(** What a delete leaves of a collection of the server, found or not. *)
Lemma delete_order_stored req fs :
  store_ok fs -> authorized req = Ok true ->
  store_ok (snd (DELETE_order req fs)) /\
  stored_orders (snd (DELETE_order req fs)) =
    keep_others (param_orderId req) (stored_orders fs).
Proof.
  intros Hok H.
  pose proof (delete_order_eq _ _ req fs Hok H) as D. cbv zeta in D.
  destruct (Nat.eqb_spec (List.length (stored_orders fs))
              (List.length (keep_others (param_orderId req) (stored_orders fs))))
    as [E|E].
  - rewrite D. simpl. split; [now apply store_ok_ensured|].
    rewrite stored_orders_ensured. symmetry. apply filter_all.
    now apply filter_keeps_all.
  - destruct D as (fs' & -> & Hst & Hok'). simpl. auto.
Qed.

(** X7.  Deleting the orderId that a create just returned undoes the create
    as far as the order is concerned: the delete answers 200 and the
    collection is the one before the create without the orders that already
    had that orderId, so it is exactly the one before when the orderId was
    new. *)
Theorem delete_undoes_create rnd now creq dreq fs fs1 :
  store_ok fs ->
  POST_order rnd now creq fs =
    (reply [("orderId", VStr (param_orderId dreq))], fs1) ->
  authorized dreq = Ok true ->
  exists fs2,
    DELETE_order dreq fs1 = (reply [("deleted", VNum 1)], fs2) /\
    stored_orders fs2 =
      filter (fun o => negb (String.eqb (id_of o) (param_orderId dreq)))
             (stored_orders fs) /\
    ((forall o, In o (stored_orders fs) -> id_of o <> param_orderId dreq) ->
     stored_orders fs2 = stored_orders fs).
Proof.
  intros Hok Hrun Hauth.
  destruct (post_order_accepted _ _ _ _ _ _ _ _ Hrun eq_refl)
    as (f & size & H & C & S).
  destruct (post_order_prepends NumberToString StringToNumber rnd now creq fs
              f size H C S Hok) as (fs' & Hrun' & Hst' & Hok').
  rewrite Hrun in Hrun'. injection Hrun' as Hid Efs. subst fs'.
  set (id := param_orderId dreq) in *.
  pose proof (delete_order_eq _ _ dreq fs1 Hok' Hauth) as D. cbv zeta in D.
  fold id in D. rewrite Hst', <- Hid in D.
  assert (K : keep_others id
                (json_elem (make_order f id now size) :: stored_orders fs) =
              keep_others id (stored_orders fs)).
  { unfold keep_others. cbn [filter]. unfold id_is at 1.
    now rewrite id_of_made_order, String.eqb_refl. }
  rewrite K in D.
  assert (L : (List.length (keep_others id (stored_orders fs))
               <= List.length (stored_orders fs))%nat) by apply filter_length_le.
  destruct (Nat.eqb_spec
              (List.length (json_elem (make_order f id now size) :: stored_orders fs))
              (List.length (keep_others id (stored_orders fs)))) as [E|_].
  { cbn [List.length] in E. lia. }
  destruct D as (fs2 & D & Hst2 & _). exists fs2.
  split; [exact D|]. split; [exact Hst2|].
  intros Hnew. rewrite Hst2. apply filter_all. intros o Ho. unfold id_is.
  apply negb_true_iff, String.eqb_neq. now apply Hnew.
Qed.

Lemma keep_unlisted_cons id ids es :
  keep_unlisted (id :: ids) es = keep_unlisted ids (keep_others id es).
Proof.
  unfold keep_unlisted, keep_others, id_listed, id_is, Set_has.
  induction es as [|o es IH]; [reflexivity|]. cbn [filter existsb] in *.
  destruct (String.eqb (id_of o) id); cbn [negb orb filter]; [exact IH|].
  destruct (existsb _ ids); cbn [negb]; [exact IH|]. f_equal. exact IH.
Qed.

Lemma deletes_in_turn dreqs : forall fs,
  store_ok fs -> Forall (fun r => authorized r = Ok true) dreqs ->
  stored_orders (fold_left (fun st r => snd (DELETE_order r st)) dreqs fs) =
    keep_unlisted (map param_orderId dreqs) (stored_orders fs).
Proof.
  induction dreqs as [|r dreqs IH]; intros fs Hok Hall.
  - simpl. unfold keep_unlisted, id_listed, Set_has. simpl. symmetry.
    now apply filter_all.
  - inversion Hall as [|? ? Hr Hrest]; subst.
    destruct (delete_order_stored r fs Hok Hr) as [Hok' Hst'].
    cbn [fold_left map]. rewrite (IH _ Hok' Hrest), Hst'.
    symmetry. apply keep_unlisted_cons.
Qed.

(** X8.  One bulk-delete leaves the same collection as deleting its
    identifiers one after the other with the single delete, identifiers that
    no order has included (the single delete answers 404 for those and the
    bulk-delete passes over them). *)
Theorem bulk_delete_is_the_deletes_in_turn breq dreqs fs :
  store_ok fs ->
  authorized breq = Ok true ->
  Forall (fun r => authorized r = Ok true) dreqs ->
  dreqs <> [] ->
  requested_ids NumberToString (req_body breq) = Ok (map param_orderId dreqs) ->
  status (fst (POST_bulk_delete breq fs)) = 200%nat /\
  stored_orders (snd (POST_bulk_delete breq fs)) =
    stored_orders (fold_left (fun st r => snd (DELETE_order r st)) dreqs fs).
Proof.
  intros Hok Hb Hall Hne Hids.
  destruct (bulk_delete_removes _ _ breq fs _ Hok Hb Hids)
    as (fs' & -> & _ & Hst & _).
  { destruct dreqs; [contradiction|discriminate]. }
  simpl. split; [reflexivity|]. rewrite Hst. symmetry.
  now apply deletes_in_turn.
Qed.

Lemma Prim2SF_zero : Prim2SF 0 = S754_zero false.
Proof. reflexivity. Qed.

Lemma eqb_zero_below_one q : PrimFloat.eqb q 0 = true -> PrimFloat.ltb q 1 = true.
Proof.
  rewrite FloatAxioms.eqb_spec, FloatAxioms.ltb_spec, Prim2SF_zero.
  destruct (Prim2SF q) as [s|s| |s m e]; try destruct s; intros H;
    try discriminate H; reflexivity.
Qed.

Lemma eqb_zero_not_above u : PrimFloat.eqb u 0 = true -> PrimFloat.leb u 0 = true.
Proof.
  rewrite FloatAxioms.eqb_spec, FloatAxioms.leb_spec, Prim2SF_zero.
  destruct (Prim2SF u) as [s|s| |s m e]; try destruct s; intros H;
    try discriminate H; reflexivity.
Qed.

(** The record written for an accepted payload is a valid order. *)
Lemma made_order_valid f id now size :
  check f = None -> valid_order (json_elem (make_order f id now size)) = true.
Proof.
  intros C. apply check_none in C
    as (P1 & P2 & P3 & P4 & P5 & Fq & Lq & Fu & Lu & A).
  assert (Zq : PrimFloat.eqb (qty f) 0 = false).
  { destruct (PrimFloat.eqb (qty f) 0) eqn:E; [|reflexivity].
    apply eqb_zero_below_one in E. congruence. }
  assert (Zu : PrimFloat.eqb (unitPrice f) 0 = false).
  { destruct (PrimFloat.eqb (unitPrice f) 0) eqn:E; [|reflexivity].
    apply eqb_zero_not_above in E. congruence. }
  unfold valid_order, json_elem, make_order.
  rewrite to_json_obj. unfold json_props. cbn [flat_map fst snd to_json app].
  rewrite Fq, Fu, Zq, Zu.
  unfold is_order, filled, own. cbn [assoc String.eqb Ascii.eqb Bool.eqb].
  rewrite !eqb_empty_false by assumption.
  rewrite Fq, Fu, Lq, Lu. cbn [negb andb].
  destruct A as [A|[A|A]]; rewrite A; reflexivity.
Qed.

Lemma set_status_valid s o : valid_order o = true -> valid_order (set_status s o) = true.
Proof.
  unfold valid_order, filled, set_status.
  rewrite !own_set_other by discriminate.
  assert (E : is_order (set_prop o "status" (VStr s)) = is_order o).
  { destruct o; try reflexivity. unfold is_order. simpl set_prop. cbv beta iota.
    now rewrite assoc_set_other by discriminate. }
  now rewrite E.
Qed.

Lemma update_nth_forallb p f i (l : list value) :
  (forall o, p o = true -> p (f o) = true) ->
  forallb p l = true -> forallb p (update_nth i f l) = true.
Proof.
  intros Hf H. apply forallb_forall. apply Forall_forall.
  apply update_nth_Forall with (P := fun o => p o = true); [exact Hf|].
  apply Forall_forall. now apply forallb_forall.
Qed.

(** What an update of the status leaves of a collection of the server. *)
Lemma patch_order_stored req fs :
  store_ok fs ->
  stored_orders (snd (PATCH_order req fs)) = stored_orders fs \/
  exists i s,
    stored_orders (snd (PATCH_order req fs)) =
      update_nth i (set_status s) (stored_orders fs).
Proof.
  intros Hok.
  destruct (authorized req) as [[|]|e] eqn:H.
  2:{ destruct (unauthorized _ _ req fs H) as (_ & -> & _). auto. }
  2:{ destruct (gate_throws _ _ req fs e H) as (_ & -> & _). auto. }
  destruct (truthy (new_status req)) eqn:T.
  2:{ rewrite (patch_order_missing_status _ _ req fs H T). auto. }
  destruct (first_index (id_is (param_orderId req)) (stored_orders fs)) as [i|] eqn:I.
  2:{ rewrite (patch_order_not_found _ _ req fs Hok H T I). simpl.
      left. apply stored_orders_ensured. }
  destruct (String_ (new_status req)) as [s|e] eqn:S.
  2:{ rewrite (patch_order_status_throws _ _ req fs i e Hok H T I S). simpl.
      left. apply stored_orders_ensured. }
  destruct (patch_order_updates _ _ req fs i s Hok H T I S) as (fs' & -> & Hst & _).
  simpl. right. eauto.
Qed.

Lemma get_orders_stored req fs :
  stored_orders (snd (GET_orders req fs)) = stored_orders fs.
Proof.
  destruct (authorized req) as [[|]|e] eqn:H.
  - destruct (get_orders_lists _ _ req fs H) as [aps ->]. apply stored_orders_ensured.
  - now destruct (unauthorized _ _ req fs H) as (-> & _).
  - now destruct (gate_throws _ _ req fs e H) as (-> & _).
Qed.

Lemma serve_one_valid op fs :
  store_ok fs -> forallb valid_order (stored_orders fs) = true ->
  store_ok (snd (serve_one NumberToString StringToNumber ADMIN_TOKEN op fs)) /\
  forallb valid_order
    (stored_orders (snd (serve_one NumberToString StringToNumber ADMIN_TOKEN op fs)))
    = true.
Proof.
  intros Hok Hv. destruct op as [c|req|req|req|req]; cbn [serve_one].
  - destruct (read (payload (submitted c))) as [f|e] eqn:H.
    2:{ now rewrite (post_order_throws _ _ _ _ _ _ e H). }
    destruct (check f) as [r|] eqn:C.
    { now rewrite (post_order_refuses _ _ _ _ _ _ f r H C). }
    destruct (size_of (payload (submitted c))) as [size|e] eqn:S.
    2:{ now rewrite (post_order_size_throws _ _ _ _ _ _ f e H C S). }
    destruct (post_order_prepends NumberToString StringToNumber (draws c) (time c)
                (submitted c) fs f size H C S Hok) as (fs1 & -> & Hst & Hok1).
    simpl. split; [exact Hok1|]. rewrite Hst. cbn [forallb].
    now rewrite made_order_valid.
  - split; [|now rewrite get_orders_stored].
    apply (store_ok_preserved NumberToString StringToNumber ADMIN_TOKEN
             req (fun _ => 0%Q) "" fs Hok).
  - split; [now apply patch_order_store|].
    destruct (patch_order_stored req fs Hok) as [->|(i & s & ->)]; [exact Hv|].
    apply update_nth_forallb; [|exact Hv]. intros o. apply set_status_valid.
  - destruct (delete_order_store NumberToString ADMIN_TOKEN req fs Hok)
      as [Hok' [->| ->]]; split; auto. now apply filter_forallb.
  - destruct (bulk_delete_store NumberToString ADMIN_TOKEN req fs Hok)
      as [Hok' [->|[ids ->]]]; split; auto. now apply filter_forallb.
Qed.

Lemma serve_all_snd ops : forall fs op,
  snd (serve_all NumberToString StringToNumber ADMIN_TOKEN (op :: ops) fs) =
  snd (serve_all NumberToString StringToNumber ADMIN_TOKEN ops
         (snd (serve_one NumberToString StringToNumber ADMIN_TOKEN op fs))).
Proof.
  intros fs op. cbn [serve_all].
  destruct (serve_one _ _ _ op fs) as [r fs1]. cbn [snd].
  now destruct (serve_all _ _ _ ops fs1).
Qed.

(** X9.  Whatever requests are served, in whatever order, every stored order
    keeps satisfying the validation rules of the create operation: its
    product and customer texts are filled, its quantity is finite and at
    least 1, its unit price finite and positive, and its area is [dhaka] with
    shipping 70 or [outside] with shipping 130.  Updates of the status and
    deletions never break this, and the document stays one of the server's. *)
Theorem stored_orders_stay_valid ops fs :
  store_ok fs -> forallb valid_order (stored_orders fs) = true ->
  store_ok (snd (serve_all NumberToString StringToNumber ADMIN_TOKEN ops fs)) /\
  forallb valid_order
    (stored_orders (snd (serve_all NumberToString StringToNumber ADMIN_TOKEN ops fs)))
    = true.
Proof.
  revert fs. induction ops as [|op ops IH]; intros fs Hok Hv.
  - simpl. auto.
  - rewrite serve_all_snd.
    destruct (serve_one_valid op fs Hok Hv) as [Hok1 Hv1]. now apply IH.
Qed.

(** X10.  On a document of the server the administrative operations answer
    500 only because of the request, never because of what is stored: list
    and delete exactly when the comparison of the token throws; the update of
    a status also when the order is found and the new status has no text; the
    bulk-delete also when an identifier has no text.  An unconvertible status
    for an order that is not found is a 404. *)
Theorem admin_errors_come_from_the_request req fs :
  store_ok fs ->
  (status (fst (GET_orders req fs)) = 500%nat <->
     exists e, authorized req = Throw e) /\
  (status (fst (PATCH_order req fs)) = 500%nat <->
     (exists e, authorized req = Throw e) \/
     (authorized req = Ok true /\ truthy (new_status req) = true /\
      (exists o, In o (stored_orders fs) /\ id_of o = param_orderId req) /\
      exists e, String_ (new_status req) = Throw e)) /\
  (status (fst (DELETE_order req fs)) = 500%nat <->
     exists e, authorized req = Throw e) /\
  (status (fst (POST_bulk_delete req fs)) = 500%nat <->
     (exists e, authorized req = Throw e) \/
     (authorized req = Ok true /\
      exists e, requested_ids NumberToString (req_body req) = Throw e)).
Proof.
  intros Hok.
  destruct (authorized req) as [[|]|e] eqn:H.
  3:{ destruct (gate_throws _ _ req fs e H) as (-> & -> & -> & ->). simpl.
      repeat split; eauto. }
  2:{ destruct (unauthorized _ _ req fs H) as (-> & -> & -> & ->). simpl.
      repeat split; try discriminate; intros; firstorder congruence. }
  split; [|split; [|split]].
  - destruct (get_orders_lists _ _ req fs H) as [aps ->]. simpl.
    split; [discriminate|intros [e E]; discriminate].
  - destruct (truthy (new_status req)) eqn:T.
    2:{ rewrite (patch_order_missing_status _ _ req fs H T). simpl.
        split; [discriminate|]. intros [[e E]|(_ & E & _)]; discriminate. }
    destruct (first_index (id_is (param_orderId req)) (stored_orders fs))
      as [i|] eqn:I.
    2:{ rewrite (patch_order_not_found _ _ req fs Hok H T I). simpl.
        split; [discriminate|]. intros [[e E]|(_ & _ & (o & Ho & Hid) & _)];
          [discriminate|].
        apply first_index_none with (o := o) in I; [|exact Ho].
        unfold id_is in I. rewrite Hid, String.eqb_refl in I. discriminate. }
    destruct (String_ (new_status req)) as [s|e] eqn:S.
    2:{ rewrite (patch_order_status_throws _ _ req fs i e Hok H T I S). simpl.
        split; [|reflexivity]. intros _. right. repeat split; eauto.
        apply first_index_some in I as (o & Hn & Hid & _).
        exists o. split; [now apply nth_error_In in Hn|].
        unfold id_is in Hid. now apply String.eqb_eq in Hid. }
    destruct (patch_order_updates _ _ req fs i s Hok H T I S) as (fs' & -> & _).
    simpl. split; [discriminate|].
    intros [[e E]|(_ & _ & _ & e & E)]; discriminate.
  - pose proof (delete_order_eq _ _ req fs Hok H) as D. cbv zeta in D.
    destruct (_ =? _)%nat.
    + rewrite D. simpl. split; [discriminate|intros [e E]; discriminate].
    + destruct D as (fs' & -> & _). simpl.
      split; [discriminate|intros [e E]; discriminate].
  - destruct (requested_ids NumberToString (req_body req)) as [ids|e] eqn:R.
    2:{ rewrite (bulk_delete_ids_throw _ _ req fs e H R). simpl.
        split; [|reflexivity]. intros _. right. eauto. }
    destruct ids as [|id ids].
    { rewrite (bulk_delete_no_ids _ _ req fs H R). simpl.
      split; [discriminate|]. intros [[e E]|(_ & e & E)]; discriminate. }
    destruct (bulk_delete_removes _ _ req fs (id :: ids) Hok H R)
      as (fs' & -> & _); [discriminate|].
    simpl. split; [discriminate|]. intros [[e E]|(_ & e & E)]; discriminate.
Qed.

Lemma get_unique n m s c :
  NoDup (list_ascii_of_string s) ->
  String.get n s = Some c -> String.get m s = Some c -> n = m.
Proof.
  revert n m. induction s as [|a s IH]; intros [|n] [|m] Hnd; simpl;
    try discriminate; inversion Hnd as [|? ? Hnin Hnd']; subst.
  - reflexivity.
  - intros [= ->] Hm. apply get_In in Hm. contradiction.
  - intros Hn [= ->]. apply get_In in Hn. contradiction.
  - intros Hn Hm. f_equal. eauto.
Qed.

Lemma char_at_one r :
  draw_ok r -> String.length (char_at chars (random_index r)) = 1%nat.
Proof.
  intros Hr. destruct (char_at_alphabet r Hr) as (c & -> & _). reflexivity.
Qed.

Lemma char_at_same r r' :
  draw_ok r -> draw_ok r' ->
  char_at chars (random_index r) = char_at chars (random_index r') ->
  random_index r = random_index r'.
Proof.
  intros Hr Hr'. apply random_index_range in Hr, Hr'. unfold char_at.
  destruct (Z.ltb_spec (random_index r) 0) as [?|_]; [lia|].
  destruct (Z.ltb_spec (random_index r') 0) as [?|_]; [lia|].
  destruct (get_Some (Z.to_nat (random_index r)) chars) as [c Hc]; [lia|].
  destruct (get_Some (Z.to_nat (random_index r')) chars) as [c' Hc']; [lia|].
  rewrite Hc, Hc'. intros [= <-].
  pose proof (get_unique _ _ chars c (proj1 (proj2 alphabet_facts)) Hc Hc'). lia.
Qed.

Lemma append_same_length (a a' b b' : string) :
  String.length a = String.length a' -> a ++ b = a' ++ b' -> a = a' /\ b = b'.
Proof.
  revert a'. induction a as [|x a IH]; intros [|x' a']; simpl; try discriminate.
  - auto.
  - intros [= L] [= -> E]. destruct (IH a' L E) as [-> ->]. auto.
Qed.

Lemma append_length (a b : string) :
  String.length (a ++ b) = (String.length a + String.length b)%nat.
Proof. induction a; simpl; auto. Qed.

Lemma makeOrderId_loop_same rnd rnd' n : forall i s s',
  (forall k, draw_ok (rnd k)) -> (forall k, draw_ok (rnd' k)) ->
  String.length s = String.length s' ->
  (makeOrderId_loop rnd n i s = makeOrderId_loop rnd' n i s' <->
   s = s' /\
   forall k, (k < n)%nat ->
             random_index (rnd (i + k)%nat) = random_index (rnd' (i + k)%nat)).
Proof.
  induction n as [|n IH]; intros i s s' Hr Hr' L; cbn [makeOrderId_loop].
  - split; [intros ->; split; [reflexivity|intros k Hk; lia]|now intros [-> _]].
  - rewrite IH; auto.
    2:{ rewrite !append_length, !char_at_one; auto. }
    split.
    + intros [E Hk]. apply append_same_length in E as [-> E]; [|exact L].
      split; [reflexivity|]. intros [|k] Hlt.
      * rewrite Nat.add_0_r. now apply char_at_same.
      * replace (i + S k)%nat with (S i + k)%nat by lia. apply Hk. lia.
    + intros [-> Hk]. split.
      * f_equal. f_equal. specialize (Hk 0%nat). rewrite Nat.add_0_r in Hk.
        apply Hk. lia.
      * intros k Hlt. replace (S i + k)%nat with (i + S k)%nat by lia.
        apply Hk. lia.
Qed.

(** X11.  Two generated orderIds are equal exactly when their ten draws
    select the same ten positions of the alphabet: the identifier determines
    the positions drawn, so the generator reaches 32^10 distinct identifiers
    and repeats one only by repeating all ten selections. *)
Theorem equal_ids_come_from_equal_draws rnd rnd' :
  (forall k, draw_ok (rnd k)) -> (forall k, draw_ok (rnd' k)) ->
  (makeOrderId rnd = makeOrderId rnd' <->
   forall k, (k < 10)%nat -> random_index (rnd k) = random_index (rnd' k)).
Proof.
  intros Hr Hr'. unfold makeOrderId.
  rewrite (makeOrderId_loop_same rnd rnd' 10 0 "GG-" "GG-" Hr Hr' eq_refl).
  split; [now intros [_ H]|auto].
Qed.


(** X13.  A data file that cannot be parsed counts as an empty collection
    and is left as it is by everything that does not save: the list is empty,
    an update of a status and a delete answer 404.  The first save replaces
    it: a bulk-delete with identifiers answers 200 with [deleted] 0 and writes
    the empty collection, and an accepted create writes a collection holding
    the new order alone. *)
Theorem unreadable_file_is_an_empty_collection req fs :
  data_file fs = Some Corrupt -> authorized req = Ok true ->
  GET_orders req fs = (reply [("orders", VArr [] [])], fs) /\
  (truthy (new_status req) = true ->
   PATCH_order req fs = (refuse 404 "Not found", fs)) /\
  DELETE_order req fs = (refuse 404 "Not found", fs) /\
  (forall ids,
     requested_ids NumberToString (req_body req) = Ok ids -> ids <> [] ->
     POST_bulk_delete req fs =
       (reply [("deleted", VNum 0)], mkfs (Some (Doc empty_db)) None)) /\
  (forall rnd now creq f size,
     read (payload creq) = Ok f -> check f = None ->
     size_of (payload creq) = Ok size ->
     POST_order rnd now creq fs =
       (reply [("orderId", VStr (makeOrderId rnd))],
        mkfs (Some (Doc (VObj [("orders",
                VArr [json_elem (make_order f (makeOrderId rnd) now size)] [])])))
             None)).
Proof.
  intros Hc H. destruct fs as [d t]. simpl in Hc. subst d.
  assert (Hok : store_ok (mkfs (Some Corrupt) t)) by exact I.
  split; [|split; [|split; [|split]]].
  - unfold get_orders. io. rewrite H. cbn [negb]. now rewrite readOrders_eq.
  - intros T. now rewrite (patch_order_not_found _ _ req _ Hok H T).
  - pose proof (delete_order_eq _ _ req _ Hok H) as D. exact D.
  - intros ids Hids Hne. unfold bulk_delete. io. rewrite H, Hids. cbn [negb].
    destruct ids as [|id ids]; [contradiction|]. cbn [List.length Nat.eqb].
    rewrite readOrders_eq. unfold loaded, ensured. cbn.
    now rewrite (writeOrders_eq _ empty_db).
  - intros rnd now creq f size Hf C S.
    destruct (post_order_saves NumberToString StringToNumber rnd now creq
                (mkfs (Some Corrupt) t) f size Hf C S)
      as (es & aps & j & Ho & Hj & ->).
    unfold loaded in Ho, Hj. cbn [data_file recover] in Ho, Hj.
    vm_compute in Ho. injection Ho as <- <-.
    assert (E : to_json (set_prop empty_db "orders"
                  (VArr [make_order f (makeOrderId rnd) now size] [])) =
                Some (VObj [("orders",
                  VArr [json_elem (make_order f (makeOrderId rnd) now size)] [])]))
      by reflexivity.
    rewrite E in Hj. now injection Hj as <-.
Qed.

Lemma assoc_set_twice ps k x y :
  assoc_set (assoc_set ps k x) k y = assoc_set ps k y.
Proof.
  induction ps as [|[k' v'] ps IH]; simpl.
  - now rewrite String.eqb_refl.
  - destruct (String.eqb k' k) eqn:E; simpl; rewrite E; [reflexivity|].
    now rewrite IH.
Qed.

Lemma set_status_twice s1 s2 o : set_status s2 (set_status s1 o) = set_status s2 o.
Proof.
  unfold set_status. destruct o; simpl; try reflexivity;
    now rewrite assoc_set_twice.
Qed.

Lemma update_nth_twice i f g (l : list value) :
  (forall o, f (g o) = f o) ->
  update_nth i f (update_nth i g l) = update_nth i f l.
Proof.
  intros H. revert i. induction l as [|o l IH]; intros [|i]; simpl;
    try reflexivity; [now rewrite H|now rewrite IH].
Qed.

Lemma first_index_update id i s l :
  first_index (id_is id) (update_nth i (set_status s) l) = first_index (id_is id) l.
Proof.
  assert (E : forall o, id_is id (set_status s o) = id_is id o).
  { intros o. unfold id_is, id_of, set_status.
    now rewrite own_set_other by discriminate. }
  revert i. induction l as [|o l IH]; intros [|i]; simpl; try reflexivity.
  - now rewrite E.
  - now rewrite IH.
Qed.

(** X14.  When the status of an existing order is updated twice, the second
    update decides: the collection is the one a single update with the second
    status leaves, and both updates address the same order, the first with
    that orderId. *)
Theorem last_status_wins r1 r2 fs s1 s2 :
  store_ok fs ->
  authorized r1 = Ok true -> authorized r2 = Ok true ->
  param_orderId r1 = param_orderId r2 ->
  truthy (new_status r1) = true -> String_ (new_status r1) = Ok s1 ->
  truthy (new_status r2) = true -> String_ (new_status r2) = Ok s2 ->
  (exists o, In o (stored_orders fs) /\ id_of o = param_orderId r1) ->
  fst (PATCH_order r1 fs) = reply [] /\
  fst (PATCH_order r2 (snd (PATCH_order r1 fs))) = reply [] /\
  stored_orders (snd (PATCH_order r2 (snd (PATCH_order r1 fs)))) =
    stored_orders (snd (PATCH_order r2 fs)).
Proof.
  intros Hok H1 H2 Hid T1 S1 T2 S2 (o & Ho & Hido).
  destruct (first_index (id_is (param_orderId r1)) (stored_orders fs))
    as [i|] eqn:I.
  2:{ apply first_index_none with (o := o) in I; [|exact Ho].
      unfold id_is in I. rewrite Hido, String.eqb_refl in I. discriminate. }
  destruct (patch_order_updates _ _ r1 fs i s1 Hok H1 T1 I S1)
    as (fs1 & -> & Hst1 & Hok1).
  assert (I2 : first_index (id_is (param_orderId r2)) (stored_orders fs) = Some i)
    by now rewrite <- Hid.
  destruct (patch_order_updates _ _ r2 fs i s2 Hok H2 T2 I2 S2)
    as (fs2 & -> & Hst2 & _).
  assert (I1 : first_index (id_is (param_orderId r2)) (stored_orders fs1) = Some i)
    by now rewrite Hst1, first_index_update.
  cbn [fst snd].
  destruct (patch_order_updates _ _ r2 fs1 i s2 Hok1 H2 T2 I1 S2)
    as (fs3 & -> & Hst3 & _).
  cbn [fst snd]. split; [reflexivity|]. split; [reflexivity|].
  rewrite Hst3, Hst2, Hst1. apply update_nth_twice. intros x.
  apply set_status_twice.
Qed.

End Further.

(** * Properties of the manifest script *)

Lemma substring_whole t : substring 0 (String.length t) t = t.
Proof. induction t as [|c t IH]; simpl; [reflexivity|now rewrite IH]. Qed.

Lemma substring_suffix p t :
  substring (String.length p) (String.length t) (p ++ t) = t.
Proof. induction p as [|c p IH]; simpl; [apply substring_whole|exact IH]. Qed.

Lemma substring_split s : forall k,
  (k <= String.length s)%nat ->
  substring 0 k s ++ substring k (String.length s - k) s = s.
Proof.
  induction s as [|c s IH]; intros [|k] Hk; simpl in *.
  - reflexivity.
  - lia.
  - now rewrite substring_whole.
  - f_equal. apply IH. lia.
Qed.

Lemma endsWith_suffix s t : endsWith s t = true <-> exists p, s = p ++ t.
Proof.
  unfold endsWith. rewrite andb_true_iff, Nat.leb_le, String.eqb_eq. split.
  - intros [Hle E]. exists (substring 0 (String.length s - String.length t) s).
    pose proof (substring_split s (String.length s - String.length t)
                  ltac:(lia)) as Hs.
    replace (String.length s - (String.length s - String.length t))%nat
      with (String.length t) in Hs by lia.
    now rewrite E in Hs.
  - intros [p ->]. rewrite append_length. split; [lia|].
    replace (String.length p + String.length t - String.length t)%nat
      with (String.length p) by lia.
    apply substring_suffix.
Qed.

Lemma fold_string_append a b :
  fold_string (a ++ b) = fold_string a ++ fold_string b.
Proof. induction a as [|c a IH]; simpl; [reflexivity|now rewrite IH]. Qed.

Lemma fold_string_split p t : forall s,
  fold_string s = p ++ t ->
  exists a b, s = a ++ b /\ fold_string a = p /\ fold_string b = t.
Proof.
  induction p as [|c p IH]; intros s H.
  - exists EmptyString, s. auto.
  - destruct s as [|x s]; simpl in H; [discriminate|].
    injection H as Hc H. destruct (IH s H) as (a & b & -> & Ha & Hb).
    exists (String x a), b. simpl. now rewrite Hc, Ha.
Qed.

Lemma fold_case_dot c : fold_case c = "."%char -> c = "."%char.
Proof.
  destruct c as [[] [] [] [] [] [] [] []]; vm_compute; intros H;
    try reflexivity; discriminate H.
Qed.

(** X15.  A file name counts as an image exactly when it ends in a dot
    followed by png, jpg, jpeg or webp, in any mix of upper and lower case;
    what precedes the dot is arbitrary and may be empty. *)
Theorem images_are_recognized_by_extension file :
  isImage file = true <->
  exists stem ext,
    file = stem ++ "." ++ ext /\
    In (fold_string ext) ["png"; "jpg"; "jpeg"; "webp"].
Proof.
  unfold isImage. rewrite existsb_exists. split.
  - intros (e & He & H). apply endsWith_suffix in H as [p H].
    apply fold_string_split in H as (a & b & -> & _ & Hb).
    destruct b as [|c b]; simpl in Hb; [discriminate|].
    injection Hb as Hc Hb. apply fold_case_dot in Hc. subst c.
    exists a, b. split; [reflexivity|]. now rewrite Hb.
  - intros (stem & ext & -> & He). exists (fold_string ext). split; [exact He|].
    apply endsWith_suffix. exists (fold_string stem).
    now rewrite fold_string_append.
Qed.

Section ManifestProperties.

Variable sortNames : list string -> list string.

Abbreviation listing sub := (VArr (map VStr (sortNames (filter isImage (map fst sub)))) []).

Lemma lookup_entry_In es name x :
  lookup_entry es name = Some x -> In name (map fst es).
Proof.
  induction es as [|[n y] es IH]; simpl; [discriminate|].
  destruct (String.eqb_spec n name); [now left|]. intros H. right. auto.
Qed.

Lemma In_lookup_entry es name :
  In name (map fst es) -> exists x, lookup_entry es name = Some x.
Proof.
  induction es as [|[n y] es IH]; simpl; [contradiction|].
  destruct (String.eqb_spec n name); [eauto|]. intros [E|H]; [contradiction|auto].
Qed.

Lemma lookup_entry_added es k x :
  lookup_entry es k = None ->
  lookup_entry (es ++ [(k, x)])%list k = Some x /\
  forall name, name <> k -> lookup_entry (es ++ [(k, x)])%list name = lookup_entry es name.
Proof.
  induction es as [|[n y] es IH]; cbn [lookup_entry app].
  - intros _. rewrite String.eqb_refl. split; [reflexivity|]. intros name N.
    destruct (String.eqb_spec k name); congruence.
  - destruct (String.eqb_spec n k); [discriminate|]. intros L.
    destruct (IH L) as [I1 I2]. split; [exact I1|].
    intros name N. destruct (String.eqb n name); auto.
Qed.

(** The loop, over folders that are directories of [es], from an object. *)
Lemma fill_manifest_eq es folders : forall ps,
  Forall (fun f => isFolder (lookup_entry es f) = true) folders ->
  exists ps',
    fill_manifest sortNames (Some (Dir es)) folders (VObj ps) = Ok (VObj ps') /\
    forall name,
      assoc ps' name =
        if String.eqb name "__proto__" then assoc ps name
        else if existsb (String.eqb name) folders
             then match lookup_entry es name with
                  | Some (Dir sub) => Some (listing sub)
                  | _ => None
                  end
             else assoc ps name.
Proof.
  induction folders as [|f folders IH]; intros ps Hall.
  - exists ps. split; [reflexivity|]. intros name. simpl.
    now destruct (String.eqb name "__proto__").
  - inversion Hall as [|? ? Hf Hrest]; subst.
    cbn [fill_manifest child]. unfold images_of.
    destruct (lookup_entry es f) as [[|sub]|] eqn:L; try discriminate Hf.
    cbn [safeList rbind]. unfold assign.
    destruct (String.eqb_spec f "__proto__") as [->|Hp].
    + destruct (IH ps Hrest) as (ps' & -> & Hps'). exists ps'.
      split; [reflexivity|]. intros name. rewrite Hps'. cbn [existsb].
      destruct (String.eqb_spec name "__proto__") as [->|N]; [reflexivity|].
      simpl orb. reflexivity.
    + cbn [set_prop]. destruct (IH (assoc_set ps f (listing sub)) Hrest)
        as (ps' & -> & Hps'). exists ps'.
      split; [reflexivity|]. intros name. rewrite Hps'. cbn [existsb].
      destruct (String.eqb_spec name "__proto__") as [->|N].
      * now rewrite assoc_set_other.
      * destruct (String.eqb_spec name f) as [->|Nf]; simpl orb.
        -- rewrite L. rewrite assoc_set_same.
           now destruct (existsb (String.eqb f) folders).
        -- rewrite assoc_set_other by congruence. reflexivity.
Qed.

Lemma product_folders es name :
  existsb (String.eqb name)
    (filter (fun f => isFolder (lookup_entry es f)) (map fst es)) =
  isFolder (lookup_entry es name).
Proof.
  destruct (isFolder (lookup_entry es name)) eqn:F.
  - apply existsb_exists. exists name. split; [|apply String.eqb_refl].
    apply filter_In. split; [|exact F].
    destruct (lookup_entry es name) eqn:L; [|discriminate].
    eapply lookup_entry_In; eauto.
  - destruct (existsb _ _) eqn:E; [|reflexivity].
    apply existsb_exists in E as (x & Hx & E). apply String.eqb_eq in E. subst x.
    apply filter_In in Hx as [_ Hx]. congruence.
Qed.

(** X16.  The script succeeds exactly when the products directory exists, is
    a directory and holds no directory named [manifest.json]; a missing
    products directory, which [safeList] tolerates, still makes the final
    write fail. *)
Theorem manifest_needs_the_products_directory products :
  (exists r, generate_manifest sortNames products = Ok r) <->
  exists es,
    products = Some (Dir es) /\
    forall sub, lookup_entry es "manifest.json" <> Some (Dir sub).
Proof.
  destruct products as [[|es]|].
  - split; [intros [r H]; discriminate|intros (es & E & _); discriminate].
  - unfold generate_manifest. cbn [safeList rbind child].
    destruct (fill_manifest_eq es
                (filter (fun f => isFolder (lookup_entry es f)) (map fst es)) [])
      as (ps' & -> & _).
    { apply Forall_forall. intros f Hf. now apply filter_In in Hf. }
    cbn [rbind]. unfold JSON_stringify. rewrite to_json_obj.
    cbn [option_map write_manifest].
    destruct (lookup_entry es "manifest.json") as [[|sub]|] eqn:L; cbn [rbind].
    + split; [|eauto]. intros _. exists es. split; [reflexivity|]. congruence.
    + split; [intros [r H]; discriminate|].
      intros (es' & [= <-] & H). now contradiction (H sub).
    + split; [|eauto]. intros _. exists es. split; [reflexivity|]. congruence.
  - split; [intros [r H]; discriminate|intros (es & E & _); discriminate].
Qed.

(** X17.  When the script succeeds, the manifest has one entry for every
    directory of the products directory (the folder named [__proto__] apart,
    whose assignment adds no property) and none for anything else; the entry
    of a folder is the array of the names in it that are images, each once,
    in the order of the sort; names that are not images, files of the
    products directory and sub-directories of a folder are left out unless
    their names are image names.  The products directory afterwards holds
    what it held and [manifest.json]. *)
Theorem manifest_lists_the_images_of_each_folder es manifest after :
  (forall l, Permutation (sortNames l) l) ->
  generate_manifest sortNames (Some (Dir es)) = Ok (manifest, after) ->
  (forall folder,
     folder <> "__proto__" ->
     match lookup_entry es folder with
     | Some (Dir sub) =>
         exists files,
           own manifest folder = VArr (map VStr files) [] /\
           Permutation files (filter isImage (map fst sub)) /\
           forall n, In n files <-> In n (map fst sub) /\ isImage n = true
     | _ => own manifest folder = VUndef
     end) /\
  own manifest "__proto__" = VUndef /\
  child (Some after) "manifest.json" = Some File /\
  (forall name, name <> "manifest.json" ->
                child (Some after) name = lookup_entry es name).
Proof.
  intros Hsort. unfold generate_manifest. cbn [safeList rbind child].
  destruct (fill_manifest_eq es
              (filter (fun f => isFolder (lookup_entry es f)) (map fst es)) [])
    as (ps' & -> & Hps').
  { apply Forall_forall. intros f Hf. now apply filter_In in Hf. }
  cbn [rbind]. unfold JSON_stringify. rewrite to_json_obj.
  cbn [option_map write_manifest].
  intros Hrun.
  assert (Hm : manifest = VObj ps' /\
               lookup_entry (match after with Dir a => a | File => [] end)
                 "manifest.json" = Some File /\
               (forall name, name <> "manifest.json" ->
                  child (Some after) name = lookup_entry es name)).
  { destruct (lookup_entry es "manifest.json") as [[|sub]|] eqn:L;
      cbn [rbind] in Hrun; try discriminate Hrun; injection Hrun as <- <-.
    - auto.
    - destruct (lookup_entry_added es "manifest.json" File L) as [I1 I2]. auto. }
  destruct Hm as (-> & Hfile & Hrest).
  split; [|split; [|split]].
  - intros folder Hp. unfold own. rewrite Hps'.
    destruct (String.eqb_spec folder "__proto__") as [|_]; [contradiction|].
    rewrite product_folders.
    destruct (lookup_entry es folder) as [[|sub]|] eqn:L; cbn [isFolder assoc];
      try reflexivity.
    exists (sortNames (filter isImage (map fst sub))).
    split; [reflexivity|]. split; [apply Hsort|].
    intros n. rewrite <- filter_In. split; apply Permutation_in;
      [apply Hsort|apply Permutation_sym, Hsort].
  - unfold own. now rewrite Hps'.
  - destruct after; [discriminate Hfile|exact Hfile].
  - exact Hrest.
Qed.

End ManifestProperties.

(** * Instances of the further properties *)

Lemma half_draws_ok k : draw_ok (half_draws k).
Proof. unfold draw_ok, half_draws, Qle, Qlt. simpl. lia. Qed.



Lemma delete_removes_every_match_witness :
  fst (delete_order sample_NumberToString None ship_req one_order_store)
    = reply [("deleted", VNum 1)] /\
  delete_order sample_NumberToString None ship_req
    (snd (delete_order sample_NumberToString None ship_req one_order_store))
    = (refuse 404 "Not found",
       snd (delete_order sample_NumberToString None ship_req one_order_store)).
Proof.
  destruct (delete_removes_every_match sample_NumberToString None ship_req
              one_order_store
              (fst (delete_order sample_NumberToString None ship_req one_order_store))
              (snd (delete_order sample_NumberToString None ship_req one_order_store))
              one_order_store_ok eq_refl eq_refl) as (H & _ & _ & H2).
  split; [|exact H2]. apply H. eexists. split; [left; reflexivity|reflexivity].
Defined.

Lemma delete_undoes_create_witness :
  exists fs2,
    delete_order sample_NumberToString None ship_req one_order_store
      = (reply [("deleted", VNum 1)], fs2) /\
    stored_orders fs2 = stored_orders no_files.
Proof.
  destruct (delete_undoes_create sample_NumberToString sample_StringToNumber None
              zero_draws sample_time sample_req ship_req no_files one_order_store
              I eq_refl eq_refl) as (fs2 & D & _ & Hnew).
  exists fs2. split; [exact D|]. apply Hnew. intros o Ho. destruct Ho.
Defined.

Lemma bulk_delete_is_the_deletes_in_turn_witness :
  status (fst (bulk_delete sample_NumberToString None bulk_req one_order_store))
    = 200%nat /\
  stored_orders (snd (bulk_delete sample_NumberToString None bulk_req one_order_store))
    = stored_orders
        (fold_left (fun st r => snd (delete_order sample_NumberToString None r st))
           [ship_req; absent_req] one_order_store).
Proof.
  apply (bulk_delete_is_the_deletes_in_turn sample_NumberToString None bulk_req
           [ship_req; absent_req] one_order_store one_order_store_ok eq_refl).
  - repeat constructor.
  - discriminate.
  - reflexivity.
Defined.

Lemma stored_orders_stay_valid_witness :
  forallb valid_order
    (stored_orders
       (snd (serve_all sample_NumberToString sample_StringToNumber None
               [Create first_creation; UpdateStatus ship_req;
                Create second_creation; DeleteOrder absent_req] no_files)))
    = true.
Proof.
  apply (stored_orders_stay_valid sample_NumberToString sample_StringToNumber None
           [Create first_creation; UpdateStatus ship_req;
            Create second_creation; DeleteOrder absent_req] no_files I eq_refl).
Defined.

Lemma admin_errors_come_from_the_request_witness :
  status (fst (get_orders sample_NumberToString None ship_req one_order_store))
    = 500%nat <->
  exists e, isAuthorized sample_NumberToString None ship_req = Throw e.
Proof.
  exact (proj1 (admin_errors_come_from_the_request sample_NumberToString None
                  ship_req one_order_store one_order_store_ok)).
Defined.

Lemma equal_ids_come_from_equal_draws_witness :
  makeOrderId zero_draws = makeOrderId half_draws <->
  forall k, (k < 10)%nat ->
            random_index (zero_draws k) = random_index (half_draws k).
Proof.
  exact (equal_ids_come_from_equal_draws zero_draws half_draws zero_draws_ok
           half_draws_ok).
Defined.

Lemma unreadable_file_is_an_empty_collection_witness :
  get_orders sample_NumberToString None ship_req unreadable_store
    = (reply [("orders", VArr [] [])], unreadable_store) /\
  delete_order sample_NumberToString None ship_req unreadable_store
    = (refuse 404 "Not found", unreadable_store).
Proof.
  destruct (unreadable_file_is_an_empty_collection sample_NumberToString
              sample_StringToNumber None ship_req unreadable_store eq_refl eq_refl)
    as (H1 & _ & H3 & _).
  split; [exact H1|exact H3].
Defined.

Lemma last_status_wins_witness :
  stored_orders
    (snd (patch_order sample_NumberToString None deliver_req
            (snd (patch_order sample_NumberToString None ship_req one_order_store))))
  = stored_orders
      (snd (patch_order sample_NumberToString None deliver_req one_order_store)).
Proof.
  apply (last_status_wins sample_NumberToString None ship_req deliver_req
           one_order_store "shipped" "delivered" one_order_store_ok
           eq_refl eq_refl eq_refl eq_refl eq_refl eq_refl eq_refl).
  eexists. split; [left; reflexivity|reflexivity].
Defined.

Lemma manifest_lists_the_images_of_each_folder_witness :
  exists manifest after,
    generate_manifest in_order (Some (Dir sample_products)) = Ok (manifest, after) /\
    own manifest "hoodie" = VArr [VStr "1.JPG"; VStr "2.png"] [] /\
    own manifest "readme.md" = VUndef /\
    child (Some after) "manifest.json" = Some File.
Proof.
  edestruct (manifest_lists_the_images_of_each_folder in_order sample_products)
    as (H1 & _ & H3 & _).
  - intros l. apply Permutation_refl.
  - reflexivity.
  - do 2 eexists. split; [reflexivity|]. split; [reflexivity|].
    split; [|exact H3]. apply (H1 "readme.md"). discriminate.
Defined.
